(** * xk6-somnia: the RPC / WebSocket test-driver engine

    A shallow embedding of the JavaScript driver in [perf/]:
    - [Js]      : the fragment of JavaScript values the driver manipulates;
    - [K6]      : what the driver observes of the k6 runtime (metric samples,
                  the clock, HTTP exchanges, socket events);
    - [Metrics], [RpcClient], [WebsocketClient], [WalletManager] : the
                  modular client, one module per file of [lib/];
    - [Monolith] : the monolithic script ([somnia_rpc_perf.js]);
    - [JsText], [BigInts] : the text and BigInt operations the scripts use;
    - [TokenTransfers] : the rest of [lib/wallet-manager.js];
    - [Script]  : setup, endpoint selection and teardown of the modular
                  main script;
    - [Startup] : what [somnia_rpc_perf.js] does when it is loaded;
    - [MonolithRun] : setup and teardown of [somnia_rpc_perf.js].

    Conventions.  JavaScript numbers are modelled by the integers (timestamps
    in milliseconds, status codes, counts, nonces) plus a separate [NaN] for
    the results of [Number(...)].  A comparison [d >= t * 0.95] between
    integer milliseconds is written [95 * t <= 100 * d].  Console output is
    not part of the modelled state. *)

From Stdlib Require Import ZArith String Ascii List Bool Lia.
From stdpp Require Import base option list gmap strings pretty.
Import ListNotations.
#[local] Set Warnings "-register-all".
Local Open Scope string_scope.
Local Open Scope Z_scope.

(* ===================================================================== *)
(** ** JavaScript values *)
(* ===================================================================== *)

Module Js.

Inductive value : Type :=
| VUndef
| VNull
| VBool (b : bool)
| VNum (n : Z)
| VNaN
| VStr (s : string)
| VArr (xs : list value)
| VObj (fields : list (string * value)).

(** A number as arithmetic sees it: an integer or [NaN]. *)
Inductive num : Type := NaN | Fin (n : Z).

(** ToBoolean. *)
Definition truthy (v : value) : bool :=
  match v with
  | VUndef | VNull | VNaN => false
  | VBool b => b
  | VNum n => negb (n =? 0)
  | VStr s => negb (String.eqb s "")
  | VArr _ | VObj _ => true
  end.

(** [a || b] *)
Definition js_or (a b : value) : value := if truthy a then a else b.

(** Own-property lookup in a field list: the last binding of a key wins,
    as in an object literal or a parsed JSON text. *)
Fixpoint assoc (k : string) (fs : list (string * value)) : option value :=
  match fs with
  | [] => None
  | (k', v) :: rest =>
      match assoc k rest with
      | Some w => Some w
      | None => if String.eqb k k' then Some v else None
      end
  end.

(** [v.hasOwnProperty(k)]: a TypeError ([None]) on [null] and [undefined];
    primitives and arrays have none of the keys the driver asks for. *)
Definition hasOwnProperty (v : value) (k : string) : option bool :=
  match v with
  | VUndef | VNull => None
  | VObj fs => Some (match assoc k fs with Some _ => true | None => false end)
  | _ => Some false
  end.

(** [v.k]: reading a property of [null] or [undefined] throws a TypeError,
    which is [None] here; a missing property reads as [undefined]. *)
Definition get (v : value) (k : string) : option value :=
  match v with
  | VUndef | VNull => None
  | VObj fs => Some (default VUndef (assoc k fs))
  | _ => Some VUndef
  end.

(** Strict equality [a === b] on primitives; two distinct objects or arrays
    are never strictly equal. *)
Definition strict_eq (a b : value) : bool :=
  match a, b with
  | VUndef, VUndef | VNull, VNull => true
  | VBool x, VBool y => Bool.eqb x y
  | VNum x, VNum y => x =? y
  | VStr x, VStr y => String.eqb x y
  | _, _ => false
  end.

Fixpoint join (sep : string) (parts : list string) : string :=
  match parts with
  | [] => ""
  | [p] => p
  | p :: rest => p +:+ sep +:+ join sep rest
  end.

(** [String(v)] and template-literal interpolation. *)
Fixpoint js_String (v : value) : string :=
  match v with
  | VUndef => "undefined"
  | VNull => "null"
  | VBool true => "true"
  | VBool false => "false"
  | VNum n => pretty n
  | VNaN => "NaN"
  | VStr s => s
  | VArr xs =>
      join "," (map (fun x => match x with
                              | VUndef | VNull => ""
                              | _ => js_String x
                              end) xs)
  | VObj _ => "[object Object]"
  end.

(** [s.slice(0, n)] *)
Definition slice0 (n : nat) (s : string) : string := substring 0 n s.

(** [s.includes(t)] *)
Fixpoint includes (s t : string) : bool :=
  String.prefix t s
  || match s with
     | EmptyString => false
     | String _ rest => includes rest t
     end.

(** *** Number(...) *)

Definition digit_of (base : Z) (c : ascii) : option Z :=
  let n := Z.of_nat (nat_of_ascii c) in
  let d := if (48 <=? n) && (n <=? 57) then Some (n - 48)
           else if (97 <=? n) && (n <=? 102) then Some (n - 87)
           else if (65 <=? n) && (n <=? 70) then Some (n - 55)
           else None in
  match d with
  | Some d => if d <? base then Some d else None
  | None => None
  end.

Fixpoint digits_from (base acc : Z) (s : string) : num :=
  match s with
  | EmptyString => Fin acc
  | String c rest =>
      match digit_of base c with
      | Some d => digits_from base (acc * base + d) rest
      | None => NaN
      end
  end.

Definition is_space (c : ascii) : bool :=
  let n := nat_of_ascii c in
  (Nat.eqb n 32 || Nat.eqb n 9 || Nat.eqb n 10 || Nat.eqb n 13
   || Nat.eqb n 11 || Nat.eqb n 12)%bool.

Fixpoint ltrim (s : string) : string :=
  match s with
  | String c rest => if is_space c then ltrim rest else s
  | EmptyString => s
  end.

Fixpoint rtrim (s : string) : string :=
  match s with
  | EmptyString => EmptyString
  | String c rest =>
      match rtrim rest with
      | EmptyString => if is_space c then EmptyString else String c EmptyString
      | r => String c r
      end
  end.

Definition nonempty_digits (base : Z) (s : string) : num :=
  match s with
  | EmptyString => NaN
  | _ => digits_from base 0 s
  end.

Definition neg_num (x : num) : num :=
  match x with NaN => NaN | Fin n => Fin (- n) end.

(** StringToNumber on integer numerals: blank text is [0]; [0x], [0o] and
    [0b] prefixes; an optional sign before a decimal numeral.  Numerals with
    a fraction or an exponent denote numbers outside the integer model and
    read as [NaN] here. *)
Definition string_to_number (s : string) : num :=
  match rtrim (ltrim s) with
  | EmptyString => Fin 0
  | String "0" (String "x" r) | String "0" (String "X" r) => nonempty_digits 16 r
  | String "0" (String "o" r) | String "0" (String "O" r) => nonempty_digits 8 r
  | String "0" (String "b" r) | String "0" (String "B" r) => nonempty_digits 2 r
  | String "-" r => neg_num (nonempty_digits 10 r)
  | String "+" r => nonempty_digits 10 r
  | t => digits_from 10 0 t
  end.

Definition js_Number (v : value) : num :=
  match v with
  | VUndef => NaN
  | VNull => Fin 0
  | VBool b => Fin (if b then 1 else 0)
  | VNum n => Fin n
  | VNaN => NaN
  | VStr s => string_to_number s
  | VArr _ => string_to_number (js_String v)
  | VObj _ => NaN
  end.

Definition value_of_num (x : num) : value :=
  match x with NaN => VNaN | Fin n => VNum n end.

Definition num_add (a b : num) : num :=
  match a, b with
  | Fin x, Fin y => Fin (x + y)
  | _, _ => NaN
  end.

(** *** JSON.stringify *)

Definition dquote : string := String (ascii_of_nat 34) EmptyString.
Definition backslash : string := String (ascii_of_nat 92) EmptyString.

Definition hex_digit (n : nat) : ascii :=
  ascii_of_nat (if Nat.ltb n 10 then 48 + n else 87 + n).

Definition json_escape_char (c : ascii) : string :=
  let n := nat_of_ascii c in
  if Nat.eqb n 34 then backslash +:+ dquote
  else if Nat.eqb n 92 then backslash +:+ backslash
  else if Nat.eqb n 8 then backslash +:+ "b"
  else if Nat.eqb n 9 then backslash +:+ "t"
  else if Nat.eqb n 10 then backslash +:+ "n"
  else if Nat.eqb n 12 then backslash +:+ "f"
  else if Nat.eqb n 13 then backslash +:+ "r"
  else if Nat.ltb n 32 then
    backslash +:+ "u00"
      +:+ String (hex_digit (Nat.div n 16)) (String (hex_digit (Nat.modulo n 16)) EmptyString)
  else String c EmptyString.

Fixpoint json_escape (s : string) : string :=
  match s with
  | EmptyString => EmptyString
  | String c rest => json_escape_char c +:+ json_escape rest
  end.

Definition json_quote (s : string) : string := dquote +:+ json_escape s +:+ dquote.

(** [JSON.stringify(v)]; [None] is the [undefined] that JSON.stringify
    returns for [undefined].  Members whose value is [undefined] are left
    out of an object; an [undefined] array element is written [null]. *)
Fixpoint JSON_stringify (v : value) : option string :=
  match v with
  | VUndef => None
  | VNull | VNaN => Some "null"
  | VBool true => Some "true"
  | VBool false => Some "false"
  | VNum n => Some (pretty n)
  | VStr s => Some (json_quote s)
  | VArr xs =>
      Some ("[" +:+ join "," (map (fun x => default "null" (JSON_stringify x)) xs) +:+ "]")
  | VObj fs =>
      let members :=
        (fix go (l : list (string * value)) : list string :=
           match l with
           | [] => []
           | (k, x) :: rest =>
               match JSON_stringify x with
               | Some t => (json_quote k +:+ ":" +:+ t) :: go rest
               | None => go rest
               end
           end) fs in
      Some ("{" +:+ join "," members +:+ "}")
  end.

End Js.
Export Js.

(* ===================================================================== *)
(** ** The k6 runtime as the driver observes it *)
(* ===================================================================== *)

Module K6.

(** One [metric.add(value, tags)] call. *)
Record Sample : Type := MkSample {
  metric : string;
  amount : num;
  labels : gmap string value
}.

(** What [res.json()] or [JSON.parse] does: throw an error with a message,
    or return the parsed value. *)
Inductive Parsed : Type :=
| ParseError (msg : value)
| ParsedAs (v : value).

(** A k6 HTTP response: the members the driver reads. *)
Record Response : Type := MkResponse {
  status : Z;
  error_code : Z;
  content_type : option string;    (* r.headers['Content-Type'] *)
  body : option string;            (* r.body, None for null *)
  json : Parsed;
  timings_duration : Z
}.

(** An exception object: its [message], and whether an object spread
    [{...e}] copies that member. *)
Record JsError : Type := MkError {
  message : option string;
  message_enumerable : bool
}.

(** Interpolating a member that may be absent. *)
Definition text_of (o : option string) : string := default "undefined" o.

Inductive Outcome : Type :=
| Raises (e : JsError)
| Responds (r : Response).

(** The [n]-th [http.post]: how long it took and how it ended. *)
Record Exchange : Type := MkExchange {
  took : Z;
  outcome : Outcome
}.

(** What a WebSocket delivers to the handlers registered on it.  [after]
    is the time since the previous event (or since the callback ran). *)
Inductive SocketEvent : Type :=
| EvMessage (after : Z) (raw : string) (text : Parsed)
                                   (* the text and what JSON.parse makes of it *)
| EvOpen (after : Z)
| EvTimer (after : Z)                           (* the timer set by the callback fires *)
| EvClose (after : Z) (code : value) (reason : option string)
| EvError (after : Z) (err_message : option string).

(** The fields handed to the signer. *)
Record TxParams : Type := MkTx {
  tx_nonce : num;
  tx_gasPrice : num;
  tx_gas : value;
  tx_to : value;
  tx_value : value;
  tx_data : value;
  tx_chainId : value
}.

(** The environment of a run: everything the driver does not decide. *)
Record Env : Type := MkEnv {
  http_post : nat -> string -> option string -> Exchange;   (* n-th POST: url, body *)
  Math_random : nat -> Z;
  randomBytes_hex : nat -> string;                          (* randomBytes(k).toString('hex') *)
  ws_connect : nat -> string -> option string -> list SocketEvent;
                                   (* n-th socket: url, text sent; the events it delivers *)
  close_code_default : value;                               (* code reported for close() *)
  null_read_message : string;                               (* text of the engine's TypeError *)
  signLegacyTx : TxParams -> value -> option string         (* None: the signer throws *)
}.

(** The state a run threads through the driver. *)
Record World : Type := MkWorld {
  now : Z;                       (* Date.now() *)
  posts : nat;                   (* http.post calls so far *)
  draws : nat;                   (* Math.random() calls so far *)
  sockets : nat;                 (* ws.connect calls so far *)
  samples : list Sample;         (* newest first *)
  sleeps : list Z;               (* sleep() calls in ms, newest first *)
  signed : list TxParams         (* signer calls, newest first *)
}.

Definition emit (name : string) (v : num) (t : gmap string value) (w : World) : World :=
  MkWorld (now w) (posts w) (draws w) (sockets w)
          (MkSample name v t :: samples w) (sleeps w) (signed w).

Definition advance (ms : Z) (w : World) : World :=
  MkWorld (now w + ms) (posts w) (draws w) (sockets w) (samples w) (sleeps w) (signed w).

(** [sleep(ms / 1000)] *)
Definition sleep_ms (ms : Z) (w : World) : World :=
  MkWorld (now w + ms) (posts w) (draws w) (sockets w) (samples w) (ms :: sleeps w) (signed w).

Definition next_post (w : World) : World :=
  MkWorld (now w) (S (posts w)) (draws w) (sockets w) (samples w) (sleeps w) (signed w).

Definition next_draw (w : World) : World :=
  MkWorld (now w) (posts w) (S (draws w)) (sockets w) (samples w) (sleeps w) (signed w).

Definition next_socket (w : World) : World :=
  MkWorld (now w) (posts w) (draws w) (S (sockets w)) (samples w) (sleeps w) (signed w).

Definition log_signed (t : TxParams) (w : World) : World :=
  MkWorld (now w) (posts w) (draws w) (sockets w) (samples w) (sleeps w) (t :: signed w).

(** How a call ends. [Diverges] is fuel running out in a bounded model of a
    recursion; the theorems show it is never reached. *)
Inductive completion (A : Type) : Type :=
| Normal (a : A)
| Throws (e : string)
| Diverges.
Arguments Normal {A} a.
Arguments Throws {A} e.
Arguments Diverges {A}.

(** [tags.k] for a tag object. *)
Definition tag (t : gmap string value) (k : string) : value := default VUndef (t !! k).

(** [check(val, checks, tags)] returns whether every check passed; a check
    that throws makes [check] throw.  The built-in [checks] rate samples are
    not recorded. *)
Fixpoint check {A : Type} (val : A) (checks : list (A -> option bool)) : option bool :=
  match checks with
  | [] => Some true
  | c :: rest =>
      match c val with
      | None => None
      | Some b =>
          match check val rest with
          | None => None
          | Some bs => Some (b && bs)
          end
      end
  end.

Fixpoint count_metric (name : string) (l : list Sample) : nat :=
  match l with
  | [] => O
  | s :: rest =>
      ((if String.eqb (metric s) name then 1 else 0) + count_metric name rest)%nat
  end.

(** Sum of the finite amounts sent to a metric. *)
Fixpoint sum_metric (name : string) (l : list Sample) : Z :=
  match l with
  | [] => 0
  | s :: rest =>
      (if String.eqb (metric s) name
       then match amount s with Fin n => n | NaN => 0 end
       else 0) + sum_metric name rest
  end.

End K6.
Export K6.

(* ===================================================================== *)
(** ** lib/metrics.js *)
(* ===================================================================== *)

Module Metrics.

Definition addRTT (ms : Z) (tags : gmap string value) (w : World) : World :=
  let w := emit "somnia_http_rtt" (Fin ms) tags w in
  let w := if truthy (tag tags "method")
           then emit "somnia_method_latency" (Fin ms) tags w else w in
  if strict_eq (tag tags "transport") (VStr "websocket")
  then emit "somnia_ws_latency" (Fin ms) tags w
  else emit "somnia_rpc_latency" (Fin ms) tags w.

Definition recordSuccess (tags : gmap string value) (w : World) : World :=
  let w := emit "somnia_success_count" (Fin 1) tags w in
  if truthy (tag tags "method")
  then emit "somnia_method_success" (Fin 1) tags w else w.

(** The [options] argument of [recordFailure]; an absent member is
    [VUndef], and [no_options] is the default [{}]. *)
Record FailureOptions : Type := MkOptions {
  retryAttempt : value;
  isTimeout : value;
  isHttpError : value
}.

Definition no_options : FailureOptions := MkOptions VUndef VUndef VUndef.

Definition enrich (tags : gmap string value) (reason : string) (options : FailureOptions)
  : gmap string value :=
  <["retry_attempt" := js_or (retryAttempt options) (VNum 0)]>
    (<["reason" := VStr (slice0 100 reason)]> tags).

Definition recordFailure (tags : gmap string value) (reason : string)
    (options : FailureOptions) (w : World) : World :=
  let enrichedTags := enrich tags reason options in
  let w := emit "somnia_error_count" (Fin 1) enrichedTags w in
  let w := emit "somnia_error_rate" (Fin 1) enrichedTags w in
  let w := if truthy (tag tags "method")
           then emit "somnia_method_errors" (Fin 1) enrichedTags w else w in
  let w := if truthy (isTimeout options)
           then emit "somnia_timeout_rate" (Fin 1) enrichedTags w else w in
  if truthy (isHttpError options)
  then emit "somnia_http_error_rate" (Fin 1) enrichedTags w else w.

Definition updateStateMetrics (method : value) (result : value)
    (tags : gmap string value) (w : World) : World :=
  let w := if strict_eq method (VStr "eth_blockNumber") && truthy result
           then emit "somnia_current_block_height" (js_Number result) tags w else w in
  if strict_eq method (VStr "eth_gasPrice") && truthy result
  then emit "somnia_current_gas_price" (js_Number result) tags w else w.

End Metrics.

(* ===================================================================== *)
(** ** lib/rpc-client.js *)
(* ===================================================================== *)

Module RpcClient.
Import Metrics.

(** The values the module reads from the configuration loader
    ([configManager.getPerformanceSettings()]) and from the process
    environment when it is loaded. *)
Record Settings : Type := MkSettings {
  MAX_RETRIES : Z;               (* perfSettings.maxRetries *)
  RETRY_DELAY_MS : Z;            (* perfSettings.retryDelayMs *)
  WS_TIMEOUT : Z;                (* perfSettings.wsTimeout *)
  RUN_ID : value;                (* globalThis.RUN_ID *)
  ENV_SCENARIO_TYPE : value      (* __ENV.SCENARIO_TYPE *)
}.

Definition buildRpcRequest (id method params : value) : option string :=
  JSON_stringify
    (VObj [ ("jsonrpc", VStr "2.0");
            ("id", id);
            ("method", method);
            ("params", js_or params (VArr [])) ]).

Definition httpChecks : list (Response -> option bool) :=
  [ (fun r => Some (status r =? 200));
    (fun r => Some (includes (default "" (content_type r)) "application/json"));
    (fun r => Some (match body r with
                    | Some b => negb (String.eqb b "")
                    | None => false
                    end));
    (fun r => Some (timings_duration r <? 30000)) ].

Definition structureChecks (reqId : value) : list (value -> option bool) :=
  [ (fun v => x ← get v "jsonrpc"; Some (strict_eq x (VStr "2.0")));
    (fun v => x ← get v "id"; Some (strict_eq x reqId));
    (fun v => a ← hasOwnProperty v "result";
              b ← hasOwnProperty v "error";
              Some (a || b)) ].

Definition resultChecks (expectFn : value -> bool) : list (value -> option bool) :=
  [ (fun v => a ← hasOwnProperty v "result";
              x ← get v "result";
              Some (a && negb (strict_eq x VNull)));
    (fun v => x ← get v "result"; Some (expectFn x)) ].

Definition baseTags_of (cfg : Settings) (url : string) (method : value)
    (attempt : Z) (extraTags : gmap string value) : gmap string value :=
  extraTags ∪
    (<["run_id" := js_or (RUN_ID cfg) (VStr "unknown")]>
     (<["scenario" := js_or (ENV_SCENARIO_TYPE cfg) (VStr "unknown")]>
      (<["endpoint" := VStr url]>
       (<["method" := method]>
        (<["transport" := VStr "http"]>
         (<["retry_attempt" := VNum attempt]> ∅)))))).

(** One pass through the body of [jsonCall]: it either returns, or reaches
    one of the two [return jsonCall(..., retryAttempt + 1)] tail calls. *)
Inductive Pass : Type :=
| Again (w : World)
| Return (c : completion value) (w : World).

Section JsonCall.
Variable cfg : Settings.
Variable env : Env.
Variables (url : string) (method params : value).
Variable extraTags : gmap string value.
Variable expectFn : value -> bool.

Definition failed (tags : gmap string value) (reason : string)
    (options : FailureOptions) (w : World) : Pass :=
  Return (Normal VUndef) (recordFailure tags reason options w).

Definition retry_or_fail (attempt : Z) (baseTags failTags : gmap string value)
    (reason : string) (w : World) : Pass :=
  if attempt <? MAX_RETRIES cfg
  then Again (sleep_ms (RETRY_DELAY_MS cfg) (emit "somnia_retry_count" (Fin 1) baseTags w))
  else failed failTags reason (MkOptions (VNum attempt) VUndef VUndef) w.

Definition after_parse (attempt : Z) (reqId : value) (startTime : Z)
    (baseTags : gmap string value) (jsonResponse : value) (w : World) : Pass :=
  let only_attempt := MkOptions (VNum attempt) VUndef VUndef in
  match check jsonResponse (structureChecks reqId) with
  | None => Return (Throws "TypeError") w
  | Some false =>
      failed (<["stage" := VStr "rpc_structure"]> baseTags)
             "Invalid JSON-RPC response structure" only_attempt w
  | Some true =>
      let rpcError := default VUndef (get jsonResponse "error") in
      if truthy rpcError then
        let code := default VUndef (get rpcError "code") in
        let msg := default VUndef (get rpcError "message") in
        let errorTags :=
          <["rpc_error_message" := VStr (slice0 100 (js_String msg))]>
            (<["rpc_error_code" := code]>
               (<["stage" := VStr "rpc_error"]> baseTags)) in
        failed errorTags
               ("RPC error " +:+ js_String code +:+ ": " +:+ js_String msg)
               only_attempt w
      else
        match check jsonResponse (resultChecks expectFn) with
        | None => Return (Throws "TypeError") w
        | Some false =>
            failed (<["stage" := VStr "result_validation"]> baseTags)
                   "Result validation failed" only_attempt w
        | Some true =>
            let result := default VUndef (get jsonResponse "result") in
            let duration := now w - startTime in
            let w := recordSuccess baseTags w in
            let w := addRTT duration baseTags w in
            let w := updateStateMetrics method result baseTags w in
            Return (Normal result) w
        end
  end.

Definition pass (attempt : Z) (w : World) : Pass :=
  let reqId := VNum (now w + Math_random env (draws w)) in
  let w := next_draw w in
  let payload := buildRpcRequest reqId method params in
  let startTime := now w in
  let baseTags := baseTags_of cfg url method attempt extraTags in
  let w := next_draw w in                       (* post(): the X-Request-ID header *)
  let ex := http_post env (posts w) url payload in
  let w := advance (took ex) (next_post w) in
  match outcome ex with
  | Raises e =>
      retry_or_fail attempt baseTags baseTags
                    ("Network error: " +:+ text_of (message e)) w
  | Responds res =>
      if negb (error_code res =? 0) then
        retry_or_fail attempt baseTags
          (<["error_code" := VNum (error_code res)]>
             (<["stage" := VStr "network"]> baseTags))
          ("Network error code: " +:+ pretty (error_code res)) w
      else
        match check res httpChecks with
        | None => Return (Throws "TypeError") w
        | Some false =>
            failed (<["status" := VNum (status res)]>
                      (<["stage" := VStr "http"]> baseTags))
                   ("HTTP validation failed: status=" +:+ pretty (status res))
                   (MkOptions (VNum attempt) VUndef (VBool true)) w
        | Some true =>
            match json res with
            | ParseError m =>
                failed (<["stage" := VStr "json_parse"]> baseTags)
                       ("JSON parse error: " +:+ js_String m)
                       (MkOptions (VNum attempt) VUndef VUndef) w
            | ParsedAs v => after_parse attempt reqId startTime baseTags v w
            end
        end
  end.

Fixpoint jsonCall_loop (fuel : nat) (attempt : Z) (w : World)
  : completion value * World :=
  match fuel with
  | O => (Diverges, w)
  | S fuel' =>
      match pass attempt w with
      | Again w' => jsonCall_loop fuel' (attempt + 1) w'
      | Return c w' => (c, w')
      end
  end.

(** [jsonCall(url, method, params, extraTags, expectFn, retryAttempt)] *)
Definition jsonCall (attempt : Z) (w : World) : completion value * World :=
  jsonCall_loop (S (Z.to_nat (MAX_RETRIES cfg - attempt))) attempt w.

End JsonCall.

End RpcClient.

(* ===================================================================== *)
(** ** lib/websocket-client.js *)
(* ===================================================================== *)

Module WebsocketClient.
Import Metrics RpcClient.

(** The [options] argument of [wsSub]; [None] is an absent member. *)
Record SubOptions : Type := MkSubOptions {
  opt_timeout : option Z;
  opt_maxRetries : option Z
}.

(** [x || d] for a numeric option member. *)
Definition num_or (x : option Z) (d : Z) : Z :=
  match x with
  | Some n => if n =? 0 then d else n
  | None => d
  end.

(** The variables the handlers of one socket close over.  [retryAttempt]
    belongs to the enclosing [wsSub] call and is shared by all its sockets;
    [closed] records that the socket delivers no further events;
    [diverged] that a nested reconnection ran out of fuel. *)
Record Run : Type := MkRun {
  isConnected : bool;
  subscriptionId : value;
  closed : bool;
  diverged : bool;
  retryAttempt : Z;
  world : World
}.

Definition with_world (f : World -> World) (r : Run) : Run :=
  MkRun (isConnected r) (subscriptionId r) (closed r) (diverged r)
        (retryAttempt r) (f (world r)).

Definition attempt_options (r : Run) : FailureOptions :=
  MkOptions (VNum (retryAttempt r)) VUndef VUndef.

Section Socket.
Variable cfg : Settings.
Variable env : Env.
Variables (rpcUrl : string) (method params : value).
Variable maxRetries : Z.
(** What [attemptConnection()] does when called from the error handler:
    from the shared counter and the world to whether it ran out of fuel,
    the counter and the world afterwards. *)
Variable reconnect : Z -> World -> bool * Z * World.
Variables (startTime : Z) (reqId : value) (baseTags : gmap string value).

(** The ['close'] handler. *)
Definition on_close (code : value) (reason : option string) (r : Run) : Run :=
  let w := emit "somnia_active_ws_connections" (Fin (-1)) baseTags (world r) in
  let tags := <["close_code" := code]> (<["stage" := VStr "connection_closed"]> baseTags) in
  let w := if strict_eq code (VNum 1000)
           then recordSuccess tags w
           else recordFailure tags ("Abnormal closure: " +:+ text_of reason)
                              (attempt_options r) w in
  MkRun false (subscriptionId r) true (diverged r) (retryAttempt r) w.

(** [socket.close(code, reason)]: the socket closes and its ['close']
    handler runs with these arguments. *)
Definition socket_close (code : value) (reason : option string) (r : Run) : Run :=
  if closed r then r else on_close code reason r.

(** The ['message'] handler; its body is one [try] block whose [catch]
    records a [message_parse] failure. *)
Definition on_message (text : Parsed) (r : Run) : Run :=
  let parse_failure (msg : string) :=
    with_world (recordFailure (<["stage" := VStr "message_parse"]> baseTags)
                              ("Message parse error: " +:+ msg) (attempt_options r)) r in
  match text with
  | ParseError m => parse_failure (js_String m)
  | ParsedAs response =>
      match get response "id" with
      | None => parse_failure (null_read_message env)
      | Some id =>
          let member k := default VUndef (get response k) in
          let currentTime := now (world r) in
          if strict_eq id reqId && truthy (member "error") then
            let msg := default VUndef (get (member "error") "message") in
            let r := with_world
                       (recordFailure (<["stage" := VStr "subscription"]> baseTags)
                                      ("Subscription error: " +:+ js_String msg)
                                      (attempt_options r)) r in
            socket_close (close_code_default env) None r
          else
            let r :=
              if strict_eq id reqId && truthy (member "result") then
                let r := MkRun (isConnected r) (member "result") (closed r)
                               (diverged r) (retryAttempt r) (world r) in
                with_world (recordSuccess
                              (<["subscription_id" := subscriptionId r]>
                                 (<["stage" := VStr "subscription"]> baseTags))) r
              else r in
            if strict_eq (member "method") (VStr "eth_subscription")
               && truthy (member "params") then
              let latency := currentTime - startTime in
              let tags := <["subscription_id" := subscriptionId r]>
                            (<["stage" := VStr "data_received"]> baseTags) in
              let r := with_world (addRTT latency tags) r in
              let r := with_world (recordSuccess tags) r in
              socket_close (VNum 1000) (Some "Data received") r
            else r
      end
  end.

(** The callback of [socket.setTimeout]. *)
Definition on_timer (r : Run) : Run :=
  if isConnected r then socket_close (VNum 1000) (Some "Timeout reached") r else r.

(** The ['error'] handler. *)
Definition on_error (msg : option string) (r : Run) : Run :=
  let w := emit "somnia_active_ws_connections" (Fin (-1)) baseTags (world r) in
  let errorMessage := match msg with
                      | Some m => if String.eqb m "" then "Unknown WebSocket error" else m
                      | None => "Unknown WebSocket error"
                      end in
  let w := recordFailure (<["stage" := VStr "websocket_error"]> baseTags)
                         ("WebSocket error: " +:+ errorMessage) (attempt_options r) w in
  if retryAttempt r <? maxRetries then
    let n := retryAttempt r + 1 in
    let w := emit "somnia_retry_count" (Fin 1) baseTags w in
    let w := sleep_ms (RETRY_DELAY_MS cfg) w in
    let '(out_of_fuel, n', w') := reconnect n w in
    MkRun false (subscriptionId r) (closed r) (diverged r || out_of_fuel) n' w'
  else
    MkRun false (subscriptionId r) (closed r) (diverged r) (retryAttempt r) w.

(** Delivering one event to the socket's handlers.  A closed socket
    delivers nothing. *)
Definition deliver (r : Run) (ev : SocketEvent) : Run :=
  if closed r || diverged r then r else
  match ev with
  | EvMessage dt _ text => on_message text (with_world (advance dt) r)
  | EvOpen dt => with_world (advance dt) r
  | EvTimer dt => on_timer (with_world (advance dt) r)
  | EvClose dt code reason => on_close code reason (with_world (advance dt) r)
  | EvError dt msg => on_error msg (with_world (advance dt) r)
  end.

End Socket.

Section WsSub.
Variable cfg : Settings.
Variable env : Env.
Variables (wsUrl rpcUrl : string) (method params : value).
Variable options : SubOptions.

Definition timeout : Z := num_or (opt_timeout options) (WS_TIMEOUT cfg).
Definition maxRetries : Z := num_or (opt_maxRetries options) 2.

Definition ws_baseTags (connectionId : string) (attempt : Z) : gmap string value :=
  <["run_id" := js_or (RUN_ID cfg) (VStr "unknown")]>
  (<["scenario" := js_or (ENV_SCENARIO_TYPE cfg) (VStr "unknown")]>
   (<["endpoint" := VStr rpcUrl]>
    (<["method" := method]>
     (<["transport" := VStr "websocket"]>
      (<["connection_id" := VStr connectionId]>
       (<["retry_attempt" := VNum attempt]> ∅)))))).

(** [attemptConnection()], with the shared [retryAttempt] passed in and
    out.  [ws.connect] runs the callback, which registers the handlers,
    and returns when the socket has delivered its events. *)
Fixpoint attemptConnection (fuel : nat) (attempt : Z) (w : World) : bool * Z * World :=
  match fuel with
  | O => (true, attempt, w)
  | S fuel' =>
      let connectionId := randomBytes_hex env (draws w) in
      let w := next_draw w in
      let startTime := now w in
      let baseTags := ws_baseTags connectionId attempt in
      let socket := sockets w in
      let w := next_socket w in
      let w := emit "somnia_active_ws_connections" (Fin 1) baseTags w in
      let reqId := VNum (now w + Math_random env (draws w)) in
      let w := next_draw w in
      let requestPayload := buildRpcRequest reqId method params in
      let events := ws_connect env socket wsUrl requestPayload in
      let r := fold_left
                 (deliver cfg env maxRetries (attemptConnection fuel')
                          startTime reqId baseTags)
                 events (MkRun true VNull false false attempt w) in
      (diverged r, retryAttempt r, world r)
  end.

(** [wsSub(wsUrl, rpcUrl, method, params, options)] *)
Definition wsSub (w : World) : completion unit * World :=
  let '(out_of_fuel, _, w') := attemptConnection (S (Z.to_nat maxRetries)) 0 w in
  (if out_of_fuel then Diverges else Normal tt, w').

End WsSub.

End WebsocketClient.

(* ===================================================================== *)
(** ** lib/wallet-manager.js *)
(* ===================================================================== *)

Module WalletManager.
Import Metrics RpcClient.

(** The members of [rpc-config.json] the module reads.  [scale_gas] stands
    for [Math.floor(currentGasPrice * blockchain.gasPriceMultiplier)], a
    floating-point product. *)
Record ChainConfig : Type := MkChain {
  chainId : value;
  scale_gas : num -> num;
  gas_simple : value;
  gas_erc20 : value;
  gas_contract : value;
  erc20TransferSig : string;
  batchSize : Z;
  defaultFundingAmount : value
}.

Record Wallet : Type := MkWallet {
  pk : value;
  addr : string;
  index : Z;
  fundingTx : value;
  tokenAirdropTx : value
}.

(** The [options] argument of [buildRawTx]. *)
Record TxOptions : Type := MkTxOptions {
  opt_gasPrice : option Z;
  opt_gasLimit : value
}.

(** [arr.slice(start, stop)] *)
Definition js_slice {A : Type} (start stop : Z) (l : list A) : list A :=
  let len := Z.of_nat (length l) in
  let clamp i := if i <? 0 then Z.max (len + i) 0 else Z.min i len in
  let a := clamp start in
  let b := clamp stop in
  take (Z.to_nat (b - a)) (drop (Z.to_nat a) l).

Section Wallets.
Variable cfg : Settings.
Variable chain : ChainConfig.
Variable env : Env.

(** [jsonCall(url, method, params, extraTags)] with the default
    [expectFn] and [retryAttempt]. *)
Definition call (url : string) (method : string) (params : list value)
    (extraTags : gmap string value) (w : World) : completion value * World :=
  jsonCall cfg env url (VStr method) (VArr params) extraTags (fun _ => true) 0 w.

(** [ethgo.signLegacyTx(txParams, key)] *)
Definition sign (t : TxParams) (key : value) (w : World) : completion string * World :=
  match signLegacyTx env t key with
  | Some raw => (Normal raw, log_signed t w)
  | None => (Throws "SigningError", log_signed t w)
  end.

Definition buildRawTx (url : string) (wallet : Wallet) (to value_ : value)
    (data : option string) (options : TxOptions) (w : World)
  : completion string * World :=
  match call url "eth_getTransactionCount" [VStr (addr wallet); VStr "pending"]
             (<["wallet_addr" := VStr (addr wallet)]> (<["op" := VStr "get_nonce"]> ∅)) w with
  | (Normal r1, w) =>
      let nonce := js_Number r1 in
      match call url "eth_gasPrice" [] (<["op" := VStr "get_gas_price"]> ∅) w with
      | (Normal r2, w) =>
          let currentGasPrice := js_Number r2 in
          let gasPrice := match opt_gasPrice options with
                          | Some g => if g =? 0 then scale_gas chain currentGasPrice else Fin g
                          | None => scale_gas chain currentGasPrice
                          end in
          let no_data := match data with
                         | Some d => String.eqb d "0x" || String.eqb d ""
                         | None => true
                         end in
          let gasLimit :=
            if truthy (opt_gasLimit options) then opt_gasLimit options
            else if no_data then gas_simple chain
            else if String.prefix (erc20TransferSig chain) (default "" data)
                 then gas_erc20 chain
            else gas_contract chain in
          let txParams :=
            MkTx nonce gasPrice gasLimit to value_
                 (VStr (match data with
                        | Some d => if String.eqb d "" then "0x" else d
                        | None => "0x"
                        end))
                 (chainId chain) in
          sign txParams (pk wallet) w
      | (Throws e, w) => (Throws e, w)
      | (Diverges, w) => (Diverges, w)
      end
  | (Throws e, w) => (Throws e, w)
  | (Diverges, w) => (Diverges, w)
  end.

(** The callback of [batch.forEach] in [fundWallets], for the wallet at
    [batchIndex] of the batch that starts at [i]. *)
Definition fund_one (fundUrl : string) (basePrivKey : value) (baseNonce : num)
    (gasPrice : num) (i batchIndex : Z) (wl : Wallet) (w : World)
  : completion Wallet * World :=
  let nonce := num_add (num_add baseNonce (Fin i)) (Fin batchIndex) in
  match sign (MkTx nonce gasPrice (gas_simple chain) (VStr (addr wl))
                   (defaultFundingAmount chain) (VStr "0x") (chainId chain))
             basePrivKey w with
  | (Normal raw, w) =>
      match call fundUrl "eth_sendRawTransaction" [VStr raw]
                 (<["nonce" := value_of_num nonce]>
                    (<["wallet_index" := VNum (index wl)]>
                       (<["op" := VStr "fund_wallet"]> ∅))) w with
      | (Normal txHash, w) =>
          (Normal (if truthy txHash
                   then MkWallet (pk wl) (addr wl) (index wl) txHash (tokenAirdropTx wl)
                   else wl), w)
      | (Throws e, w) => (Throws e, w)
      | (Diverges, w) => (Diverges, w)
      end
  | (Throws e, w) => (Throws e, w)
  | (Diverges, w) => (Diverges, w)
  end.

(** [batch.forEach(callback)]: the wallets of the batch in order; the
    callback updates the wallet object it is given. *)
Fixpoint for_each (f : Z -> Wallet -> World -> completion Wallet * World)
    (batchIndex : Z) (batch : list Wallet) (w : World)
  : completion (list Wallet) * World :=
  match batch with
  | [] => (Normal [], w)
  | wl :: rest =>
      match f batchIndex wl w with
      | (Normal wl', w) =>
          match for_each f (batchIndex + 1) rest w with
          | (Normal rest', w) => (Normal (wl' :: rest'), w)
          | other => other
          end
      | (Throws e, w) => (Throws e, w)
      | (Diverges, w) => (Diverges, w)
      end
  end.

(** The [for (let i = ...; i < wallets.length; i += batchSize)] loop.  The
    batch is a slice of [wallets] holding the same wallet objects, so the
    updates made by the callback show in [wallets]. *)
Fixpoint batches (fuel : nat)
    (f : Z -> Z -> Wallet -> World -> completion Wallet * World)
    (i : Z) (wallets : list Wallet) (w : World)
  : completion (list Wallet) * World :=
  match fuel with
  | O => (Diverges, w)
  | S fuel' =>
      let len := Z.of_nat (length wallets) in
      if i <? len then
        let stop := i + batchSize chain in
        let batch := js_slice i stop wallets in
        let first := Z.to_nat (if i <? 0 then Z.max (len + i) 0 else Z.min i len) in
        match for_each (f i) 0 batch w with
        | (Normal batch', w) =>
            let wallets := (take first wallets ++ batch'
                              ++ drop (first + length batch')%nat wallets)%list in
            let w := if stop <? len then sleep_ms 100 w else w in
            batches fuel' f stop wallets w
        | other => other
        end
      else (Normal wallets, w)
  end.

Definition fundWallets (fundUrl : string) (wallets : list Wallet)
    (basePrivKey : value) (baseAddr : string) (w : World)
  : completion (list Wallet * num) * World :=
  match call fundUrl "eth_getTransactionCount" [VStr baseAddr; VStr "pending"]
             (<["op" := VStr "get_nonce"]> ∅) w with
  | (Normal r1, w) =>
      let baseNonce := js_Number r1 in
      match call fundUrl "eth_gasPrice" [] (<["op" := VStr "get_gas_price"]> ∅) w with
      | (Normal r2, w) =>
          let gasPrice := scale_gas chain (js_Number r2) in
          match batches (S (length wallets))
                        (fund_one fundUrl basePrivKey baseNonce gasPrice)
                        0 wallets w with
          | (Normal wallets', w) =>
              (Normal (wallets',
                       num_add baseNonce (Fin (Z.of_nat (length wallets)))), w)
          | (Throws e, w) => (Throws e, w)
          | (Diverges, w) => (Diverges, w)
          end
      | (Throws e, w) => (Throws e, w)
      | (Diverges, w) => (Diverges, w)
      end
  | (Throws e, w) => (Throws e, w)
  | (Diverges, w) => (Diverges, w)
  end.

End Wallets.

End WalletManager.

(* ===================================================================== *)
(** ** somnia_rpc_perf.js, the monolithic script *)
(* ===================================================================== *)

Module Monolith.

(** The constants the script computes from the process environment when it
    is loaded.  [render_threshold t] stands for the text of the
    floating-point number [t * 0.95].  In this script [Math_random] of the
    environment supplies [Math.floor(Math.random() * 1000)]. *)
Record Settings : Type := MkSettings {
  MAX_RETRIES : Z;
  RETRY_DELAY_MS : Z;
  PARSED_TIMEOUT_MS : Z;         (* parseTimeout(REQUEST_TIMEOUT) *)
  WS_TIMEOUT : Z;
  RUN_ID : value;
  SCENARIO : string;
  REGION : string;
  render_threshold : Z -> string
}.

(** *** Setup-time validation of the write scenarios *)

Definition WRITE_SCENARIOS : list string := ["S11_SendRawTxSmall"; "S12_SendRawTxERC20"].

Definition string_in (s : string) (l : list string) : bool :=
  existsb (String.eqb s) l.

(** The check made when the script is loaded, before [setup] and before any
    worker starts; [Throws] aborts the run. *)
Definition validate_write_config (scenario base_priv base_addr erc20_addr : string)
  : completion unit :=
  if string_in scenario WRITE_SCENARIOS then
    if String.eqb base_priv "" || String.eqb base_addr "" then
      Throws "PRIVATE_KEY and WALLET_ADDRESS are required for write scenarios"
    else if String.eqb scenario "S12_SendRawTxERC20" && String.eqb erc20_addr "" then
      Throws "ERC20_TOKEN address is required for S12_SendRawTxERC20 scenario"
    else Normal tt
  else Normal tt.

(** *** Metrics helpers *)

Definition addRTT := Metrics.addRTT.
Definition recordSuccess := Metrics.recordSuccess.

(** What [detectTimeout] reads of the object it is given: a k6 response, or
    one of the literals [{ body, status }] built by the socket handlers.
    [rv_start] is [_timingMetadata.requestStartTime] when [post] attached
    it. *)
Record ResponseView : Type := MkView {
  rv_start : option Z;
  rv_error_code : value;
  rv_status : value;
  rv_body : option string
}.

Definition view_of (res : Response) (start : Z) : ResponseView :=
  MkView (Some start) (VNum (error_code res)) (VNum (status res)) (body res).

Record TimeoutDetection : Type := MkDetection {
  td_isTimeout : bool;
  td_reasons : list string;
  td_actualDuration : Z;
  td_timeoutMs : Z
}.

(** [d >= t * 0.95] *)
Definition reaches_threshold (d t : Z) : bool := 95 * t <=? 100 * d.

Definition timeout_words (s : string) : bool :=
  includes s "timeout" || includes s "timed out"
  || includes s "request timeout" || includes s "gateway timeout".

Definition indicators (response : ResponseView) (actualDuration timeoutMs : Z)
  : list (string * bool) :=
  let near := reaches_threshold actualDuration timeoutMs in
  [ ("error_code_timeout", strict_eq (rv_error_code response) (VNum 1050));
    ("status_timeout", strict_eq (rv_status response) (VNum 0) && near);
    ("duration_timeout", near);
    ("body_timeout", match rv_body response with
                     | Some b => negb (String.eqb b "") && timeout_words b
                     | None => false
                     end);
    ("gateway_timeout", strict_eq (rv_status response) (VNum 504));
    ("request_timeout", strict_eq (rv_status response) (VNum 408));
    ("no_response", negb (truthy (rv_status response)) && near) ].

Definition detectTimeout (response : ResponseView) (requestStartTime timeoutMs : Z)
    (w : World) : TimeoutDetection :=
  let startTime := default requestStartTime (rv_start response) in
  let actualDuration := now w - startTime in
  let ind := indicators response actualDuration timeoutMs in
  MkDetection (existsb snd ind)
              (map fst (List.filter snd ind))
              actualDuration timeoutMs.

(** The [options] argument of [recordFailure]. *)
Record FailureOptions : Type := MkOptions {
  retryAttempt : value;
  isTimeout : value;
  isHttpError : value;
  response : option ResponseView;
  requestStartTime : option Z;
  timeoutMs : option Z
}.

Definition zero_or (x : option Z) (d : Z) : Z :=
  match x with
  | Some n => if n =? 0 then d else n
  | None => d
  end.

Section WithSettings.
Variable cfg : Settings.

Definition recordFailure (tags : gmap string value) (reason : string)
    (options : FailureOptions) (w : World) : World :=
  let enrichedTags :=
    <["retry_attempt" := js_or (retryAttempt options) (VNum 0)]>
      (<["reason" := VStr (slice0 100 reason)]> tags) in
  let detection :=
    match response options, requestStartTime options with
    | Some resp, Some start =>
        if start =? 0 then None
        else
          let td := detectTimeout resp start
                                  (zero_or (timeoutMs options) (PARSED_TIMEOUT_MS cfg)) w in
          if td_isTimeout td then Some td else None
    | _, _ => None
    end in
  let enrichedTags :=
    match detection with
    | Some td =>
        <["timeout_threshold" := VStr (render_threshold cfg (td_timeoutMs td))]>
          (<["actual_duration" := VStr (pretty (td_actualDuration td))]>
             (<["timeout_type" := VStr (join "," (td_reasons td))]> enrichedTags))
    | None => enrichedTags
    end in
  let w :=
    match detection with
    | Some td =>
        let w := emit "somnia_timeout_count" (Fin 1) enrichedTags w in
        let w := emit "somnia_timeout_latency" (Fin (td_actualDuration td)) enrichedTags w in
        if truthy (tag tags "method") then
          emit "somnia_timeout_by_method" (Fin 1)
               (<["timeout_reasons" := VStr (join "|" (td_reasons td))]>
                  (<["method" := tag tags "method"]> enrichedTags)) w
        else w
    | None => w
    end in
  let isTimeout_ := truthy (isTimeout options)
                    || match detection with Some _ => true | None => false end in
  let w := emit "somnia_error_count" (Fin 1) enrichedTags w in
  let w := emit "somnia_error_rate" (Fin 1) enrichedTags w in
  let w := if truthy (tag tags "method")
           then emit "somnia_method_errors" (Fin 1) enrichedTags w else w in
  let w := if isTimeout_
           then emit "somnia_timeout_rate" (Fin 1) enrichedTags w else w in
  if truthy (isHttpError options)
  then emit "somnia_http_error_rate" (Fin 1) enrichedTags w else w.

(** *** JSON-RPC over HTTP *)

Definition rpc (id method params : value) : option string :=
  JSON_stringify
    (VObj [ ("jsonrpc", VStr "2.0");
            ("id", id);
            ("method", method);
            ("params", js_or params (VArr [])) ]).

Definition httpChecks : list (Response -> option bool) :=
  [ (fun r => Some (status r =? 200));
    (fun r => Some (includes (default "" (content_type r)) "application/json"));
    (fun r => Some (match body r with
                    | Some b => negb (String.eqb b "")
                    | None => false
                    end));
    (fun r => Some (10 * timings_duration r <? 8 * PARSED_TIMEOUT_MS cfg)) ].

Inductive Pass : Type :=
| Again (w : World)
| Return (c : completion value) (w : World).

Section JsonCall.
Variable env : Env.
Variables (url : string) (method params : value).
Variable extraTags : gmap string value.
Variable expectFn : value -> bool.

Definition baseTags_of (attempt : Z) : gmap string value :=
  extraTags ∪
    (<["run_id" := RUN_ID cfg]>
     (<["scenario" := VStr (SCENARIO cfg)]>
      (<["region" := VStr (REGION cfg)]>
       (<["endpoint" := VStr url]>
        (<["method" := method]>
         (<["transport" := VStr "http"]>
          (<["retry_attempt" := VNum attempt]> ∅))))))).

Definition failed (tags : gmap string value) (reason : string)
    (options : FailureOptions) (w : World) : Pass :=
  Return (Normal VUndef) (recordFailure tags reason options w).

Definition retry (retryTags : gmap string value) (w : World) : Pass :=
  Again (sleep_ms (RETRY_DELAY_MS cfg) (emit "somnia_retry_count" (Fin 1) retryTags w)).

Definition after_parse (attempt : Z) (reqId : value) (startTime : Z)
    (baseTags : gmap string value) (res : Response) (jsonResponse : value)
    (w : World) : Pass :=
  let with_response :=
    MkOptions (VNum attempt) VUndef VUndef
              (Some (view_of res startTime)) (Some startTime) None in
  match check jsonResponse (RpcClient.structureChecks reqId) with
  | None => Return (Throws "TypeError") w
  | Some false =>
      failed (<["stage" := VStr "rpc_structure"]> baseTags)
             "Invalid JSON-RPC response structure" with_response w
  | Some true =>
      let rpcError := default VUndef (get jsonResponse "error") in
      if truthy rpcError then
        let code := default VUndef (get rpcError "code") in
        let msg := default VUndef (get rpcError "message") in
        let errorTags :=
          <["rpc_error_message" := VStr (slice0 100 (js_String msg))]>
            (<["rpc_error_code" := code]>
               (<["stage" := VStr "rpc_error"]> baseTags)) in
        if strict_eq method (VStr "eth_estimateGas") then
          let duration := now w - startTime in
          let w := recordSuccess errorTags w in
          let w := addRTT duration errorTags w in
          Return (Normal (VObj [("error", rpcError)])) w
        else
          failed errorTags
                 ("RPC error " +:+ js_String code +:+ ": " +:+ js_String msg)
                 with_response w
      else
        match check jsonResponse (RpcClient.resultChecks expectFn) with
        | None => Return (Throws "TypeError") w
        | Some false =>
            failed (<["stage" := VStr "result_validation"]> baseTags)
                   "Result validation failed" with_response w
        | Some true =>
            let result := default VUndef (get jsonResponse "result") in
            let duration := now w - startTime in
            let w := recordSuccess baseTags w in
            let w := addRTT duration baseTags w in
            let w := if strict_eq method (VStr "eth_blockNumber") && truthy result
                     then emit "somnia_current_block_height" (js_Number result) baseTags w
                     else w in
            let w := if strict_eq method (VStr "eth_gasPrice") && truthy result
                     then emit "somnia_current_gas_price" (js_Number result) baseTags w
                     else w in
            Return (Normal result) w
        end
  end.

(** [error.message && (... || duration >= PARSED_TIMEOUT_MS * 0.95)] in
    the [catch] of [post]. *)
Definition thrown_isTimeout (e : JsError) (duration : Z) : value :=
  match message e with
  | None => VUndef
  | Some m =>
      if String.eqb m "" then VStr ""
      else VBool (includes m "timeout" || includes m "timed out"
                  || reaches_threshold duration (PARSED_TIMEOUT_MS cfg))
  end.

Definition pass (attempt : Z) (w : World) : Pass :=
  let reqId := VStr (pretty (now w * 1000 + Math_random env (draws w))) in
  let w := next_draw w in
  let payload := rpc reqId method params in
  let startTime := now w in
  let baseTags := baseTags_of attempt in
  let w := next_draw w in                     (* post(): requestId *)
  let ex := http_post env (posts w) url payload in
  let w := advance (took ex) (next_post w) in
  match outcome ex with
  | Raises e =>
      let duration := now w - startTime in
      let e_isTimeout := thrown_isTimeout e duration in
      let e_message := if message_enumerable e then message e else None in
      let errorMsg :=
        if truthy e_isTimeout
        then "Network timeout after " +:+ pretty duration +:+ "ms: " +:+ text_of e_message
        else "Network error: " +:+ text_of e_message in
      if attempt <? MAX_RETRIES cfg then
        retry (<["is_timeout" := VStr (js_String e_isTimeout)]>
                 (<["error_type" := VStr "network"]> baseTags)) w
      else
        failed baseTags errorMsg
               (MkOptions (VNum attempt) e_isTimeout VUndef None (Some startTime)
                          (Some (PARSED_TIMEOUT_MS cfg))) w
  | Responds res =>
      let view := view_of res startTime in
      let td := detectTimeout view startTime (PARSED_TIMEOUT_MS cfg) w in
      if td_isTimeout td then
        let timeoutMsg :=
          "Request timeout detected - Duration: " +:+ pretty (td_actualDuration td)
          +:+ "ms, Threshold: " +:+ render_threshold cfg (PARSED_TIMEOUT_MS cfg)
          +:+ "ms, Reasons: " +:+ join ", " (td_reasons td) in
        if attempt <? MAX_RETRIES cfg then
          retry (<["actual_duration" := VNum (td_actualDuration td)]>
                   (<["timeout_reasons" := VStr (join "|" (td_reasons td))]>
                      (<["error_type" := VStr "timeout"]> baseTags))) w
        else
          failed baseTags timeoutMsg
                 (MkOptions (VNum attempt) (VBool true) VUndef (Some view)
                            (Some startTime) (Some (PARSED_TIMEOUT_MS cfg))) w
      else if negb (error_code res =? 0) then
        let isNetworkTimeout :=
          (error_code res =? 1050) || (error_code res =? 1051)
          || (error_code res =? 1052) in
        if attempt <? MAX_RETRIES cfg then
          retry (<["is_network_timeout" :=
                     VStr (if isNetworkTimeout then "true" else "false")]>
                   (<["error_code" := VNum (error_code res)]> baseTags)) w
        else
          failed (<["error_code" := VNum (error_code res)]>
                    (<["stage" := VStr "network"]> baseTags))
                 ("Network error code: " +:+ pretty (error_code res))
                 (MkOptions (VNum attempt) (VBool isNetworkTimeout) VUndef
                            (Some view) (Some startTime) None) w
      else
        match check res httpChecks with
        | None => Return (Throws "TypeError") w
        | Some false =>
            let isHttpTimeout :=
              (status res =? 408) || (status res =? 504) || (status res =? 0) in
            failed (<["status" := VNum (status res)]>
                      (<["stage" := VStr "http"]> baseTags))
                   ("HTTP validation failed: status=" +:+ pretty (status res)
                    +:+ ", content-type=" +:+ text_of (content_type res)
                    +:+ ", body-length="
                    +:+ pretty (Z.of_nat (String.length (default "" (body res))))
                    +:+ ", duration=undefinedms")
                   (MkOptions (VNum attempt) (VBool isHttpTimeout) (VBool true)
                              (Some view) (Some startTime) None) w
        | Some true =>
            match json res with
            | ParseError m =>
                failed (<["stage" := VStr "json_parse"]> baseTags)
                       ("JSON parse error: " +:+ js_String m)
                       (MkOptions (VNum attempt) VUndef VUndef
                                  (Some view) (Some startTime) None) w
            | ParsedAs v => after_parse attempt reqId startTime baseTags res v w
            end
        end
  end.

Fixpoint jsonCall_loop (fuel : nat) (attempt : Z) (w : World)
  : completion value * World :=
  match fuel with
  | O => (Diverges, w)
  | S fuel' =>
      match pass attempt w with
      | Again w' => jsonCall_loop fuel' (attempt + 1) w'
      | Return c w' => (c, w')
      end
  end.

(** [jsonCall(url, method, params, extraTags, expectFn, retryAttempt)] *)
Definition jsonCall (attempt : Z) (w : World) : completion value * World :=
  jsonCall_loop (S (Z.to_nat (MAX_RETRIES cfg - attempt))) attempt w.

End JsonCall.

(** *** WebSocket subscriptions *)

(** The variables the handlers of the socket close over.  [retryCount] is
    the [let retryCount = 0] of [wsSub]; [timerArmed] is false once
    [clearTimeout(connectionTimeout)] has run; [thrown] holds an exception
    that escaped a handler. *)
Record Run : Type := MkRun {
  isConnected : bool;
  subscriptionId : value;
  closed : bool;
  timerArmed : bool;
  thrown : option string;
  retryCount : Z;
  world : World
}.

Definition with_world (f : World -> World) (r : Run) : Run :=
  MkRun (isConnected r) (subscriptionId r) (closed r) (timerArmed r) (thrown r)
        (retryCount r) (f (world r)).

Section Socket.
Variable env : Env.
Variables (timeout maxRetries : Z).
Variables (startTime : Z) (reqId : value) (baseTags : gmap string value).

(** The ['close'] handler. *)
Definition on_close (code : value) (reason : option string) (r : Run) : Run :=
  let w := emit "somnia_active_ws_connections" (Fin (-1)) baseTags (world r) in
  let duration := now w - startTime in
  let isTimeoutClose :=
    reaches_threshold duration timeout
    || match reason with
       | Some s => String.eqb s "Connection timeout"
       | None => false
       end in
  let tags := <["close_code" := code]> (<["stage" := VStr "connection_closed"]> baseTags) in
  let w :=
    if strict_eq code (VNum 1000) && negb isTimeoutClose then recordSuccess tags w
    else
      let failureReason :=
        if isTimeoutClose
        then "Connection timeout after " +:+ pretty duration +:+ "ms"
        else "Abnormal closure: " +:+ text_of reason in
      recordFailure tags failureReason
        (MkOptions (VNum (retryCount r)) (VBool isTimeoutClose) VUndef
                   (Some (MkView None VUndef (VNum 0) reason))
                   (Some startTime) (Some timeout)) w in
  MkRun false (subscriptionId r) true false (thrown r) (retryCount r) w.

Definition socket_close (code : value) (reason : option string) (r : Run) : Run :=
  if closed r then r else on_close code reason r.

(** The callback of [setTimeout(..., timeout)]. *)
Definition on_timer (r : Run) : Run :=
  if isConnected r then
    let duration := now (world r) - startTime in
    let r := with_world
               (emit "somnia_timeout_count" (Fin 1)
                     (<["timeout_type" := VStr "websocket_connection"]> baseTags)) r in
    let r := with_world (emit "somnia_timeout_latency" (Fin duration) baseTags) r in
    let r := with_world (emit "somnia_timeout_rate" (Fin 1) baseTags) r in
    socket_close (VNum 1000) (Some "Connection timeout") r
  else r.

(** The ['message'] handler. *)
Definition on_message (raw : string) (text : Parsed) (r : Run) : Run :=
  let options :=
    MkOptions (VNum (retryCount r)) VUndef VUndef
              (Some (MkView None VUndef (VNum 200) (Some raw)))
              (Some startTime) None in
  let parse_failure (msg : string) :=
    with_world (recordFailure (<["stage" := VStr "message_parse"]> baseTags)
                              ("Message parse error: " +:+ msg) options) r in
  match text with
  | ParseError m => parse_failure (js_String m)
  | ParsedAs response =>
      match get response "id" with
      | None => parse_failure (null_read_message env)
      | Some id =>
          let member k := default VUndef (get response k) in
          let currentTime := now (world r) in
          if strict_eq id reqId && truthy (member "error") then
            let msg := default VUndef (get (member "error") "message") in
            let r := with_world
                       (recordFailure (<["stage" := VStr "subscription"]> baseTags)
                                      ("Subscription error: " +:+ js_String msg)
                                      options) r in
            socket_close (close_code_default env) None r
          else
            let r :=
              if strict_eq id reqId && truthy (member "result") then
                let r := MkRun (isConnected r) (member "result") (closed r)
                               (timerArmed r) (thrown r) (retryCount r) (world r) in
                with_world (recordSuccess
                              (<["subscription_id" := subscriptionId r]>
                                 (<["stage" := VStr "subscription"]> baseTags))) r
              else r in
            if strict_eq (member "method") (VStr "eth_subscription")
               && truthy (member "params") then
              let latency := currentTime - startTime in
              let tags := <["subscription_id" := subscriptionId r]>
                            (<["stage" := VStr "data_received"]> baseTags) in
              let r := with_world (addRTT latency tags) r in
              let r := with_world (recordSuccess tags) r in
              socket_close (VNum 1000) (Some "Data received") r
            else r
      end
  end.

(** The ['error'] handler.  Inside [wsSub] the name [retryCount] is the
    local number, not the counter metric: [retryCount.add] is undefined
    and calling it throws a TypeError, so the [sleep] and the
    [attemptConnection()] that follow are not reached. *)
Definition on_error (msg : option string) (r : Run) : Run :=
  let w := emit "somnia_active_ws_connections" (Fin (-1)) baseTags (world r) in
  let duration := now w - startTime in
  let errorMessage := match msg with
                      | Some m => if String.eqb m "" then "Unknown WebSocket error" else m
                      | None => "Unknown WebSocket error"
                      end in
  let isTimeoutError :=
    reaches_threshold duration timeout
    || includes errorMessage "timeout" || includes errorMessage "timed out" in
  let w := recordFailure (<["stage" := VStr "websocket_error"]> baseTags)
             ("WebSocket error: " +:+ errorMessage)
             (MkOptions (VNum (retryCount r)) (VBool isTimeoutError) VUndef
                        (Some (MkView None VUndef (VNum 0) (Some errorMessage)))
                        (Some startTime) (Some timeout)) w in
  if retryCount r <? maxRetries then
    MkRun false (subscriptionId r) (closed r) false (Some "TypeError")
          (retryCount r + 1) w
  else
    MkRun false (subscriptionId r) (closed r) false (thrown r) (retryCount r) w.

(** Delivering one event.  A closed socket delivers nothing, a cleared
    timer does not fire, and an exception that escaped a handler ends
    [ws.connect]. *)
Definition deliver (r : Run) (ev : SocketEvent) : Run :=
  if closed r || bool_decide (is_Some (thrown r)) then r else
  match ev with
  | EvMessage dt raw text => on_message raw text (with_world (advance dt) r)
  | EvOpen dt => with_world (advance dt) r
  | EvTimer dt => if timerArmed r then on_timer (with_world (advance dt) r) else r
  | EvClose dt code reason => on_close code reason (with_world (advance dt) r)
  | EvError dt msg => on_error msg (with_world (advance dt) r)
  end.

End Socket.

(** The [options] argument of [wsSub]. *)
Record SubOptions : Type := MkSubOptions {
  opt_timeout : option Z;
  opt_maxRetries : option Z
}.

Section WsSub.
Variable env : Env.
Variables (wsUrl rpcUrl : string) (method params : value).
Variable options : SubOptions.

Definition timeout : Z := zero_or (opt_timeout options) (WS_TIMEOUT cfg).
Definition maxRetries : Z := zero_or (opt_maxRetries options) 2.

Definition ws_baseTags (connectionId : string) (attempt : Z) : gmap string value :=
  <["run_id" := RUN_ID cfg]>
  (<["scenario" := VStr (SCENARIO cfg)]>
   (<["region" := VStr (REGION cfg)]>
    (<["endpoint" := VStr rpcUrl]>
     (<["method" := method]>
      (<["transport" := VStr "websocket"]>
       (<["connection_id" := VStr connectionId]>
        (<["retry_attempt" := VNum attempt]> ∅))))))).

(** [attemptConnection()] *)
Definition attemptConnection (attempt : Z) (w : World) : Run :=
  let connectionId := randomBytes_hex env (draws w) in
  let w := next_draw w in
  let startTime := now w in
  let baseTags := ws_baseTags connectionId attempt in
  let socket := sockets w in
  let w := next_socket w in
  let w := emit "somnia_active_ws_connections" (Fin 1) baseTags w in
  let reqId := VStr (pretty (now w * 1000 + Math_random env (draws w))) in
  let w := next_draw w in
  let requestPayload := rpc reqId method params in
  let events := ws_connect env socket wsUrl requestPayload in
  fold_left (deliver env timeout maxRetries startTime reqId baseTags)
            events (MkRun true VNull false true None attempt w).

(** [wsSub(wsUrl, rpcUrl, method, params, options)] *)
Definition wsSub (w : World) : completion unit * World :=
  let r := attemptConnection 0 w in
  (match thrown r with Some e => Throws e | None => Normal tt end, world r).

End WsSub.

End WithSettings.

End Monolith.

(* ===================================================================== *)
(** ** What the properties below observe *)
(* ===================================================================== *)

Module Observations.

(** How many samples a list holds for each metric the properties speak of,
    and the sum of the amounts sent to the live-connection gauge. *)
Record Tally : Type := MkTally {
  t_success : nat;          (* somnia_success_count *)
  t_error : nat;            (* somnia_error_count *)
  t_error_rate : nat;       (* somnia_error_rate *)
  t_retry : nat;            (* somnia_retry_count *)
  t_timeout_rate : nat;     (* somnia_timeout_rate *)
  t_gauge : Z               (* somnia_active_ws_connections *)
}.

Definition tally (l : list Sample) : Tally :=
  MkTally (count_metric "somnia_success_count" l)
          (count_metric "somnia_error_count" l)
          (count_metric "somnia_error_rate" l)
          (count_metric "somnia_retry_count" l)
          (count_metric "somnia_timeout_rate" l)
          (sum_metric "somnia_active_ws_connections" l).

Definition tally_add (a b : Tally) : Tally :=
  MkTally (t_success a + t_success b) (t_error a + t_error b)
          (t_error_rate a + t_error_rate b) (t_retry a + t_retry b)
          (t_timeout_rate a + t_timeout_rate b) (t_gauge a + t_gauge b).

(** The exchange failed at the transport level: [http.post] threw, or the
    response carries a network error code. *)
Definition transport_failure (ex : Exchange) : Prop :=
  match outcome ex with
  | Raises _ => True
  | Responds r => error_code r <> 0
  end.

(** The text [buildRpcRequest] produces, given the texts of its members. *)
Definition envelope_text (t_id t_method t_params : string) : string :=
  "{" +:+ join "," [ json_quote "jsonrpc" +:+ ":" +:+ json_quote "2.0";
                     json_quote "id" +:+ ":" +:+ t_id;
                     json_quote "method" +:+ ":" +:+ t_method;
                     json_quote "params" +:+ ":" +:+ t_params ] +:+ "}".

(** The nonces [b], [b+1], [b+2], ... in this order. *)
Fixpoint consecutive_from (b : Z) (l : list num) : Prop :=
  match l with
  | [] => True
  | x :: rest => x = Fin b /\ consecutive_from (b + 1) rest
  end.

(** The nonces handed to the signer, oldest first. *)
Definition nonces_signed (w : World) : list num := map tx_nonce (rev (signed w)).

(** A world transformer that changes nothing but the samples. *)
Definition only_samples (f : World -> World) : Prop :=
  forall w, now (f w) = now w /\ posts (f w) = posts w /\ draws (f w) = draws w
            /\ sockets (f w) = sockets w /\ sleeps (f w) = sleeps w
            /\ signed (f w) = signed w.

(** No exchange of the environment carries the JSON document [null]. *)
Definition no_null_document (env : Env) : Prop :=
  forall n u b r, outcome (http_post env n u b) = Responds r ->
                  json r <> ParsedAs VNull /\ json r <> ParsedAs VUndef.

(** What a call that returns has recorded: one success, or one failure
    together with the empty result, besides [retries] retry samples. *)
Definition record_set (retries : nat) (c : completion value)
    (before after : list Sample) : Prop :=
  exists v s e t, c = Normal v
    /\ tally after = tally_add (MkTally s e e retries t 0) (tally before)
    /\ ((s = 1 /\ e = 0 /\ t = 0) \/ (s = 0 /\ e = 1 /\ v = VUndef))%nat.

(** The value of the live-connection gauge read as the specification reads
    it, the sum of the increments and decrements sent to it. *)
Definition gauge (w : World) : Z := sum_metric "somnia_active_ws_connections" (samples w).

Definition is_error (ev : SocketEvent) : bool :=
  match ev with EvError _ _ => true | _ => false end.

Definition is_close_or_timer (ev : SocketEvent) : bool :=
  match ev with EvClose _ _ _ | EvTimer _ => true | _ => false end.

Definition is_open (ev : SocketEvent) : bool :=
  match ev with EvOpen _ => true | _ => false end.

(** A socket lifetime with one terminal transition: no transport error and
    a close (by the peer, or by the idle timer), or a transport error as
    the last thing the socket delivers. *)
Definition one_terminal (events : list SocketEvent) : Prop :=
  (forallb (fun ev => negb (is_error ev)) events = true
   /\ existsb is_close_or_timer events = true)
  \/ (exists pre dt msg, events = (pre ++ [EvError dt msg])%list
                         /\ forallb (fun ev => negb (is_error ev)) pre = true).

(** The state of a socket of the modular client that has met no transport
    error: still open, one above the level [g] the gauge had before the
    socket; or closed, back at [g]. *)
Definition ws_balanced (g : Z) (attempt : Z) (r : WebsocketClient.Run) : Prop :=
  WebsocketClient.diverged r = false /\ WebsocketClient.retryAttempt r = attempt
  /\ if WebsocketClient.closed r then gauge (WebsocketClient.world r) = g
     else WebsocketClient.isConnected r = true
          /\ gauge (WebsocketClient.world r) = g + 1.

(** The same for a socket of the monolithic script. *)
Definition mono_balanced (g : Z) (attempt : Z) (r : Monolith.Run) : Prop :=
  Monolith.thrown r = None /\ Monolith.retryCount r = attempt
  /\ if Monolith.closed r then gauge (Monolith.world r) = g
     else Monolith.isConnected r = true /\ Monolith.timerArmed r = true
          /\ gauge (Monolith.world r) = g + 1.

End Observations.
Export Observations.

(* ===================================================================== *)
(** ** Concrete runs *)
(* ===================================================================== *)

Module Fixtures.

Definition t0 : Z := 1700000000000.

(** A fresh run at time [t0]. *)
Definition w0 : World := MkWorld t0 0 0 0 [] [] [].

Definition lib_cfg : RpcClient.Settings :=
  RpcClient.MkSettings 3 1000 60000 (VStr "run_1") (VStr "S17_EstimateGas").

Definition mono_cfg : Monolith.Settings :=
  Monolith.MkSettings 3 1000 15000 60000 (VStr "run_1") "S17_EstimateGas" "eu"
                      (fun t => pretty (95 * t / 100)).

Definition env_of (post : nat -> string -> option string -> Exchange)
    (ws : nat -> list SocketEvent) : Env :=
  MkEnv post (fun _ => 0) (fun _ => "c0ffee00") (fun n _ _ => ws n) (VNum 1001)
        "Cannot read property 'id' of null" (fun _ _ => Some "0xf86b").

(** A 200 response with a JSON body, answered after [ms] milliseconds. *)
Definition answers (ms : Z) (j : value) : Exchange :=
  MkExchange ms (Responds (MkResponse 200 0 (Some "application/json")
                                      (JSON_stringify j) (ParsedAs j) ms)).

Definition envelope (id : value) (members : list (string * value)) : value :=
  VObj (("jsonrpc", VStr "2.0") :: ("id", id) :: members).

(** The text after the first occurrence of [key] in [s]. *)
Fixpoint text_after (key s : string) : option string :=
  if String.prefix key s then Some (substring (String.length key) (String.length s) s)
  else match s with
       | EmptyString => None
       | String _ rest => text_after key rest
       end.

Fixpoint up_to (stop : ascii) (s : string) : string :=
  match s with
  | EmptyString => EmptyString
  | String c rest => if Ascii.eqb c stop then EmptyString else String c (up_to stop rest)
  end.

(** The id member of a request text, as a well-behaved node reads it to
    echo it: a quoted string of digits or a number. *)
Definition id_of_request (payload : option string) : value :=
  match text_after (json_quote "id" +:+ ":") (default "" payload) with
  | Some rest =>
      match rest with
      | String c more =>
          if Ascii.eqb c (ascii_of_nat 34)
          then VStr (up_to (ascii_of_nat 34) more)
          else value_of_num (string_to_number (up_to "," rest))
      | EmptyString => VNull
      end
  | None => VNull
  end.


Definition revert_error : value :=
  VObj [("code", VNum (-32000)); ("message", VStr "execution reverted")].

(** A node that answers every request with an execution-reverted error. *)
Definition env_revert : Env :=
  env_of (fun _ _ payload =>
            answers 12 (envelope (id_of_request payload) [("error", revert_error)]))
         (fun _ => []).

(** A node whose answers carry both a result and an error member. *)
Definition env_both : Env :=
  env_of (fun _ _ payload =>
            answers 12 (envelope (id_of_request payload)
                                 [("result", VStr "0x1"); ("error", revert_error)]))
         (fun _ => []).

(** A node behind a gateway that answers 504 after the whole timeout. *)
Definition env_504 : Env :=
  env_of (fun _ _ _ =>
            MkExchange 15000
              (Responds (MkResponse 504 0 (Some "text/html") (Some "Gateway Time-out")
                                    (ParseError (VStr "invalid character")) 15000)))
         (fun _ => []).

(** A node that answers correctly, but only after 15 seconds. *)
Definition env_slow : Env :=
  env_of (fun _ _ payload =>
            answers 15000 (envelope (id_of_request payload) [("result", VStr "0x10")]))
         (fun _ => []).

(** A node whose body is the JSON document [null]. *)
Definition env_null : Env :=
  env_of (fun _ _ _ => answers 12 VNull) (fun _ => []).

(** An unreachable node: every POST throws. *)
Definition env_down : Env :=
  env_of (fun _ _ _ => MkExchange 3 (Raises (MkError (Some "dial tcp: connection refused") true)))
         (fun _ => []).

(** A socket that opens and then stays silent until the idle timer fires. *)
Definition env_silent_socket : Env :=
  env_of (fun _ _ _ => answers 12 VNull)
         (fun _ => [EvOpen 5; EvTimer 60000]).

(** The first socket reports a transport error and is then closed; the
    sockets opened by the retries close normally. *)
Definition env_error_then_close : Env :=
  env_of (fun _ _ _ => answers 12 VNull)
         (fun n => match n with
                   | O => [EvOpen 5; EvError 100 (Some "websocket: close 1011 (internal error)");
                           EvClose 0 (VNum 1011) None]
                   | _ => [EvOpen 5; EvClose 50 (VNum 1000) None]
                   end).

Definition chain_cfg : WalletManager.ChainConfig :=
  WalletManager.MkChain (VNum 50312)
    (fun g => match g with Fin n => Fin (12 * n / 10) | NaN => NaN end)
    (VNum 21000) (VNum 65000) (VNum 100000) "0xa9059cbb" 2 (VStr "1000000000000000").

(** A node whose pending transaction count for every address stays 5,
    whatever is sent to it. *)
Definition env_pending_5 : Env :=
  env_of (fun _ _ payload =>
            let b := default "" payload in
            answers 7 (envelope (id_of_request payload)
              [("result",
                if includes b "eth_getTransactionCount" then VStr "0x5"
                else if includes b "eth_gasPrice" then VStr "0x3b9aca00"
                else VStr "0x9fc76417374aa880d4449a1f7f31ec597f00b1f6f3dd2d66f4c9c6c445836d8b")]))
         (fun _ => []).

Definition wallet_a : WalletManager.Wallet :=
  WalletManager.MkWallet (VStr "4c0883a6") "0xaaaa" 0 VUndef VUndef.
Definition wallet_b : WalletManager.Wallet :=
  WalletManager.MkWallet (VStr "5d1994b7") "0xbbbb" 1 VUndef VUndef.
Definition wallet_c : WalletManager.Wallet :=
  WalletManager.MkWallet (VStr "6e2aa5c8") "0xcccc" 2 VUndef VUndef.

Definition no_tx_options : WalletManager.TxOptions := WalletManager.MkTxOptions None VUndef.

End Fixtures.

(* ===================================================================== *)
(** ** Text built by the scripts *)
(* ===================================================================== *)

Module JsText.

Definition hex_char (d : Z) : ascii := hex_digit (Z.to_nat d).

(** The hexadecimal digits of a non-negative integer, most significant
    first, in front of [acc]; [fuel] bounds the number of digits. *)
Fixpoint hex_go (fuel : nat) (n : Z) (acc : string) : string :=
  match fuel with
  | O => acc
  | S fuel' =>
      let acc := String (hex_char (n mod 16)) acc in
      if n <? 16 then acc else hex_go fuel' (n / 16) acc
  end.

(** [n.toString(16)] for an integer [n] (a Number or a BigInt): lower-case
    digits, a minus sign before the digits of a negative integer. *)
Definition toString16 (n : Z) : string :=
  if n <? 0 then "-" +:+ hex_go (S (Z.to_nat (Z.log2 (- n)))) (- n) ""
  else hex_go (S (Z.to_nat (Z.log2 n))) n "".

Fixpoint repeat_char (n : nat) (c : ascii) : string :=
  match n with
  | O => EmptyString
  | S n' => String c (repeat_char n' c)
  end.

(** [s.padStart(n, c)] for a one-character filler: [s] itself when it
    already has [n] characters or more. *)
Definition padStart (n : nat) (c : ascii) (s : string) : string :=
  repeat_char (n - String.length s) c +:+ s.

(** [s.replace(/^0x/, '')] *)
Definition strip_0x (s : string) : string :=
  match s with
  | String "0" (String "x" rest) => rest
  | _ => s
  end.

(** [s.replace(/^http/, 'ws')] *)
Definition http_to_ws (s : string) : string :=
  match s with
  | String "h" (String "t" (String "t" (String "p" rest))) => "ws" +:+ rest
  | _ => s
  end.

(** [s.split(sep)] for a one-character separator. *)
Fixpoint split_on (sep : ascii) (s : string) : list string :=
  match s with
  | EmptyString => [EmptyString]
  | String c rest =>
      if Ascii.eqb c sep then EmptyString :: split_on sep rest
      else match split_on sep rest with
           | [] => [String c EmptyString]
           | p :: ps => String c p :: ps
           end
  end.

(** [s.trim()] *)
Definition trim (s : string) : string := rtrim (ltrim s).

Definition is_digit (c : ascii) : bool :=
  let n := nat_of_ascii c in (Nat.leb 48 n && Nat.leb n 57)%bool.

Fixpoint all_chars (p : ascii -> bool) (s : string) : bool :=
  match s with
  | EmptyString => true
  | String c rest => p c && all_chars p rest
  end.

(** The longest prefix of [s] whose characters satisfy [p], and the rest. *)
Fixpoint span_chars (p : ascii -> bool) (s : string) : string * string :=
  match s with
  | EmptyString => (EmptyString, EmptyString)
  | String c rest =>
      if p c then let '(a, b) := span_chars p rest in (String c a, b)
      else (EmptyString, s)
  end.

End JsText.

(* ===================================================================== *)
(** ** BigInt arithmetic of the scripts *)
(* ===================================================================== *)

Module BigInts.

(** [BigInt(v)]: a TypeError on [undefined] and [null], a RangeError on
    [NaN], a SyntaxError on a text that is not an integer literal; an array
    or an object is first turned into its text. *)
Definition js_BigInt (v : value) : completion Z :=
  let of_text (s : string) :=
    match string_to_number s with
    | Fin n => Normal n
    | NaN => Throws "SyntaxError"
    end in
  match v with
  | VUndef | VNull => Throws "TypeError"
  | VBool b => Normal (if b then 1 else 0)
  | VNum n => Normal n
  | VNaN => Throws "RangeError"
  | VStr s => of_text s
  | VArr _ | VObj _ => of_text (js_String v)
  end.

(** [a ** b] on BigInts *)
Definition pow (a b : Z) : completion Z :=
  if b <? 0 then Throws "RangeError" else Normal (a ^ b).

(** [a / b] on BigInts: the quotient rounded towards zero. *)
Definition div (a b : Z) : completion Z :=
  if b =? 0 then Throws "RangeError" else Normal (Z.quot a b).

End BigInts.

(* ===================================================================== *)
(** ** lib/wallet-manager.js, continued *)
(* ===================================================================== *)

Module TokenTransfers.
Import Metrics RpcClient WalletManager JsText BigInts.

(** The members of [rpcConfig.tokens] that [distributeERC20Tokens] reads. *)
Record TokenConfig : Type := MkTokens {
  defaultDecimals : value;
  erc20AirdropDivisor : value
}.

(** [generateWallets(count)]; [generateKey k] is what the [k]-th call of
    [wallet.generateKey()] returns, the private key and the address.  The
    [nonce: 0] member of a wallet is read nowhere and is left out. *)
Definition generateWallets (generateKey : nat -> value * string) (count : num)
  : list Wallet :=
  let n := match count with Fin c => Z.to_nat c | NaN => O end in
  map (fun k => let acc := generateKey k in
                MkWallet (fst acc) (snd acc) (Z.of_nat k) VUndef VUndef)
      (seq 0 n).

Section Tokens.
Variable cfg : Settings.
Variable chain : ChainConfig.
Variable tokens : TokenConfig.
Variable env : Env.

Definition buildERC20TransferData (recipient : string) (amount : Z) : string :=
  let functionSig := erc20TransferSig chain in
  let recipientPadded := padStart 64 "0" (strip_0x recipient) in
  let amountHex := padStart 64 "0" (toString16 amount) in
  functionSig +:+ recipientPadded +:+ amountHex.

(** [(BigInt(10) ** BigInt(tokenDecimals)) / BigInt(erc20AirdropDivisor)] *)
Definition airdropAmount : completion Z :=
  match js_BigInt (defaultDecimals tokens) with
  | Normal d =>
      match pow 10 d with
      | Normal p =>
          match js_BigInt (erc20AirdropDivisor tokens) with
          | Normal q => div p q
          | other => other
          end
      | other => other
      end
  | other => other
  end.

(** The callback of [batch.forEach] in [distributeERC20Tokens]. *)
Definition airdrop_one (fundUrl : string) (basePrivKey : value) (erc20Addr : string)
    (baseNonce gasPrice : num) (tokenAmount : Z) (i batchIndex : Z) (wl : Wallet)
    (w : World) : completion Wallet * World :=
  let nonce := num_add (num_add baseNonce (Fin i)) (Fin batchIndex) in
  let data := buildERC20TransferData (addr wl) tokenAmount in
  match sign env (MkTx nonce gasPrice (gas_erc20 chain) (VStr erc20Addr)
                       (VNum 0) (VStr data) (chainId chain))
             basePrivKey w with
  | (Normal raw, w) =>
      match call cfg env fundUrl "eth_sendRawTransaction" [VStr raw]
                 (<["amount" := VStr (pretty tokenAmount)]>
                    (<["wallet_index" := VNum (index wl)]>
                       (<["op" := VStr "token_airdrop"]> ∅))) w with
      | (Normal txHash, w) =>
          (Normal (if truthy txHash
                   then MkWallet (pk wl) (addr wl) (index wl) (fundingTx wl) txHash
                   else wl), w)
      | (Throws e, w) => (Throws e, w)
      | (Diverges, w) => (Diverges, w)
      end
  | (Throws e, w) => (Throws e, w)
  | (Diverges, w) => (Diverges, w)
  end.

Definition distributeERC20Tokens (fundUrl : string) (wallets : list Wallet)
    (basePrivKey : value) (erc20Addr : string) (baseNonce : num) (w : World)
  : completion (list Wallet) * World :=
  match airdropAmount with
  | Normal tokenAmount =>
      match call cfg env fundUrl "eth_gasPrice" [] (<["op" := VStr "get_gas_price"]> ∅) w with
      | (Normal r, w) =>
          let gasPrice := scale_gas chain (js_Number r) in
          batches chain (S (length wallets))
                  (airdrop_one fundUrl basePrivKey erc20Addr baseNonce gasPrice tokenAmount)
                  0 wallets w
      | (Throws e, w) => (Throws e, w)
      | (Diverges, w) => (Diverges, w)
      end
  | Throws e => (Throws e, w)
  | Diverges => (Diverges, w)
  end.

End Tokens.

End TokenTransfers.

(* ===================================================================== *)
(** ** The modular main script: setup, endpoint selection, teardown *)
(* ===================================================================== *)

Module Script.
Import Metrics RpcClient WalletManager JsText BigInts TokenTransfers.

(** What the script computes from the process environment and the
    configuration files when it is loaded.  [RPC_URLS] is not empty, or the
    load would have thrown: it is kept as its first element and the others.
    The delays are the arguments of [sleep], in milliseconds;
    [scale_teardown] stands for
    [Math.floor(currentGasPrice * blockchain.teardownGasPriceMultiplier)],
    a floating-point product. *)
Record ScriptConfig : Type := MkScript {
  SCENARIO : string;
  WRITE_SCENARIOS : list string;       (* configManager.getWriteScenarios() *)
  first_url : string;                  (* RPC_URLS[0] *)
  other_urls : list string;
  WALLET_CNT : num;
  BASE_PRIV : string;
  BASE_ADDR : string;
  ERC20_ADDR : string;
  fundingWait : Z;
  settlementWait : Z;
  teardownDelay : Z;
  scale_teardown : num -> num
}.

(** [a % b] on integers: the remainder has the sign of [a]; [NaN] when [b]
    is zero. *)
Definition js_rem (a b : Z) : num := if b =? 0 then NaN else Fin (Z.rem a b).

(** [arr[i]] for a number [i]: [undefined] ([None]) outside the array. *)
Definition js_index {A : Type} (l : list A) (i : num) : option A :=
  match i with
  | Fin n => if n <? 0 then None else l !! Z.to_nat n
  | NaN => None
  end.

(** The two URLs [main_scenario] derives for the virtual user [vu]:
    [RPC_URLS[(__VU - 1) % RPC_URLS.length]] and the same with its
    leading [http] replaced by [ws]. *)
Definition endpoints (urls : list string) (vu : Z) : option (string * string) :=
  match js_index urls (js_rem (vu - 1) (Z.of_nat (length urls))) with
  | Some rpcUrl => Some (rpcUrl, http_to_ws rpcUrl)
  | None => None
  end.

(** What the last log line of [teardown] reports. *)
Record Recovery : Type := MkRecovery {
  recoveredFunds : Z;
  successfulRefunds : Z;
  failedRefunds : Z
}.

Section Run.
Variable cfg : Settings.
Variable chain : ChainConfig.
Variable tokens : TokenConfig.
Variable script : ScriptConfig.
Variable env : Env.
Variable generateKey : nat -> value * string.
Variable runId : string.    (* the run id [setup] derives from the wall clock *)

(** [setup()]: the wallets and the run id handed to the virtual users. *)
Definition setup (w : World) : completion (list Wallet * string) * World :=
  let wallets := generateWallets generateKey (WALLET_CNT script) in
  if Monolith.string_in (SCENARIO script) (WRITE_SCENARIOS script) then
    let fundUrl := first_url script in
    match fundWallets cfg chain env fundUrl wallets
                      (VStr (BASE_PRIV script)) (BASE_ADDR script) w with
    | (Normal (wallets, baseNonce), w) =>
        let distributed :=
          if String.eqb (SCENARIO script) "S12_SendRawTxERC20"
          then distributeERC20Tokens cfg chain tokens env fundUrl wallets
                 (VStr (BASE_PRIV script)) (ERC20_ADDR script) baseNonce w
          else (Normal wallets, w) in
        match distributed with
        | (Normal wallets, w) => (Normal (wallets, runId), sleep_ms (fundingWait script) w)
        | (Throws e, w) => (Throws e, w)
        | (Diverges, w) => (Diverges, w)
        end
    | (Throws e, w) => (Throws e, w)
    | (Diverges, w) => (Diverges, w)
    end
  else (Normal (wallets, runId), w).

(** The body of the [try] in the callback of [batch.forEach] in
    [teardown]; [gasPrice] is the price computed before the loop. *)
Definition refund_body (gasPrice : num) (wl : Wallet) (acc : Recovery) (w : World)
  : completion Recovery * World :=
  let refundUrl := first_url script in
  match call cfg env refundUrl "eth_getBalance" [VStr (addr wl); VStr "latest"]
             (<["wallet_addr" := VStr (addr wl)]>
                (<["op" := VStr "teardown_balance_check"]> ∅)) w with
  | (Normal balanceHex, w) =>
      if negb (truthy balanceHex) then (Normal acc, w)
      else
        match js_BigInt balanceHex with
        | Normal balance =>
            match js_BigInt (value_of_num gasPrice) with
            | Normal g =>
                match js_BigInt (gas_simple chain) with
                | Normal gl =>
                    let gasCost := g * gl in
                    if balance <=? gasCost * 2 then (Normal acc, w)
                    else
                      let sendValue := balance - gasCost in
                      match buildRawTx cfg chain env refundUrl wl
                                       (VStr (BASE_ADDR script)) (VNum sendValue)
                                       (Some "0x") (MkTxOptions (Some g) VUndef) w with
                      | (Normal raw, w) =>
                          match call cfg env refundUrl "eth_sendRawTransaction" [VStr raw]
                                     (<["amount" := VStr (pretty sendValue)]>
                                        (<["wallet_addr" := VStr (addr wl)]>
                                           (<["op" := VStr "teardown_refund"]> ∅))) w with
                          | (Normal txHash, w) =>
                              (Normal (if truthy txHash
                                       then MkRecovery (recoveredFunds acc + sendValue)
                                                       (successfulRefunds acc + 1)
                                                       (failedRefunds acc)
                                       else acc), w)
                          | (Throws e, w) => (Throws e, w)
                          | (Diverges, w) => (Diverges, w)
                          end
                      | (Throws e, w) => (Throws e, w)
                      | (Diverges, w) => (Diverges, w)
                      end
                | Throws e => (Throws e, w)
                | Diverges => (Diverges, w)
                end
            | Throws e => (Throws e, w)
            | Diverges => (Diverges, w)
            end
        | Throws e => (Throws e, w)
        | Diverges => (Diverges, w)
        end
  | (Throws e, w) => (Throws e, w)
  | (Diverges, w) => (Diverges, w)
  end.

(** The callback itself: whatever the body throws is caught and counted. *)
Definition refund_one (gasPrice : num) (wl : Wallet) (acc : Recovery) (w : World)
  : completion Recovery * World :=
  match refund_body gasPrice wl acc w with
  | (Throws _, w) =>
      (Normal (MkRecovery (recoveredFunds acc) (successfulRefunds acc)
                          (failedRefunds acc + 1)), w)
  | other => other
  end.

(** [batch.forEach(callback)]; the counters are variables of [teardown]
    that the callback updates. *)
Fixpoint refund_each (gasPrice : num) (batch : list Wallet) (acc : Recovery) (w : World)
  : completion unit * (Recovery * World) :=
  match batch with
  | [] => (Normal tt, (acc, w))
  | wl :: rest =>
      match refund_one gasPrice wl acc w with
      | (Normal acc, w) => refund_each gasPrice rest acc w
      | (Throws e, w) => (Throws e, (acc, w))
      | (Diverges, w) => (Diverges, (acc, w))
      end
  end.

(** The [for (let i = 0; i < data.wallets.length; i += batchSize)] loop of
    [teardown]. *)
Fixpoint refund_batches (fuel : nat) (gasPrice : num) (i : Z) (wallets : list Wallet)
    (acc : Recovery) (w : World) : completion unit * (Recovery * World) :=
  match fuel with
  | O => (Diverges, (acc, w))
  | S fuel' =>
      let len := Z.of_nat (length wallets) in
      if i <? len then
        let stop := i + batchSize chain in
        match refund_each gasPrice (js_slice i stop wallets) acc w with
        | (Normal _, (acc, w)) =>
            let w := if stop <? len then sleep_ms (teardownDelay script) w else w in
            refund_batches fuel' gasPrice stop wallets acc w
        | other => other
        end
      else (Normal tt, (acc, w))
  end.

(** [teardown(data)]: it returns nothing; the counters are those of its
    last log line.  The outer [try] catches what the gas-price call or the
    loop throws. *)
Definition teardown (wallets : list Wallet) (w : World)
  : completion unit * (Recovery * World) :=
  let w := sleep_ms (settlementWait script) w in
  let none := MkRecovery 0 0 0 in
  if negb (Monolith.string_in (SCENARIO script) (WRITE_SCENARIOS script))
  then (Normal tt, (none, w))
  else
    match call cfg env (first_url script) "eth_gasPrice" []
               (<["op" := VStr "teardown_gas_price"]> ∅) w with
    | (Normal r, w) =>
        let gasPrice := scale_teardown script (js_Number r) in
        match refund_batches (S (length wallets)) gasPrice 0 wallets none w with
        | (Throws _, s) => (Normal tt, s)
        | other => other
        end
    | (Throws _, w) => (Normal tt, (none, w))
    | (Diverges, w) => (Diverges, (none, w))
    end.

End Run.

End Script.

(* ===================================================================== *)
(** ** somnia_rpc_perf.js: what runs when the script is loaded *)
(* ===================================================================== *)

Module Startup.
Import JsText.

(** [__ENV.NAME || fallback]: an unset or empty variable gives the
    fallback. *)
Definition env_or (x : option string) (fallback : string) : string :=
  match x with
  | Some s => if String.eqb s "" then fallback else s
  | None => fallback
  end.

(** [(__ENV.RPC_URLS || '').split(',').map(s => s.trim()).filter(Boolean)] *)
Definition parse_rpc_urls (x : option string) : list string :=
  List.filter (fun s => negb (String.eqb s "")) (map trim (split_on "," (env_or x ""))).

Definition is_line_terminator (c : ascii) : bool :=
  let n := nat_of_ascii c in (Nat.eqb n 10 || Nat.eqb n 13)%bool.

(** [url.match(/^https?:\/\/.+/)] is not null. *)
Definition matches_rpc_url (url : string) : bool :=
  match url with
  | String "h" (String "t" (String "t" (String "p" rest))) =>
      let rest := match rest with String "s" r => r | _ => rest end in
      match rest with
      | String ":" (String "/" (String "/" (String c _))) => negb (is_line_terminator c)
      | _ => false
      end
  | _ => false
  end.

(** The first element of [l] that fails [p], as [forEach] meets it. *)
Fixpoint first_failing (p : string -> bool) (l : list string) : option string :=
  match l with
  | [] => None
  | x :: rest => if p x then first_failing p rest else Some x
  end.

(** The endpoint list of a run, or the error thrown while the script is
    loaded. *)
Definition load_rpc_urls (x : option string) : completion (list string) :=
  let urls := parse_rpc_urls x in
  match urls with
  | [] => Throws "At least one RPC_URL must be provided"
  | _ =>
      match first_failing matches_rpc_url urls with
      | Some url => Throws ("Invalid RPC URL format: " +:+ url)
      | None => Normal urls
      end
  end.

(** [typeof v] *)
Definition js_typeof (v : value) : string :=
  match v with
  | VUndef => "undefined"
  | VNull | VArr _ | VObj _ => "object"
  | VBool _ => "boolean"
  | VNum _ | VNaN => "number"
  | VStr _ => "string"
  end.

(** What [parseTimeout] returns: a number of milliseconds, or, for a
    numeral with a fraction, the floating-point product
    [parseFloat(numeral) * factor], kept as its two factors. *)
Inductive Millis : Type :=
| Ms (n : num)
| Scaled (numeral : string) (factor : Z).

(** The factor of a unit matched by [(ms|s|m)?]. *)
Definition unit_factor (unit : string) : option Z :=
  if String.eqb unit "" then Some 1
  else if String.eqb unit "ms" then Some 1
  else if String.eqb unit "s" then Some 1000
  else if String.eqb unit "m" then Some (60 * 1000)
  else None.

(** [parseTimeout(timeoutValue)]; the text is matched against
    [/^(\d+(?:\.\d+)?)(ms|s|m)?$/]. *)
Definition parseTimeout (timeoutValue : value) : completion Millis :=
  match timeoutValue with
  | VNum n => Normal (Ms (Fin n))
  | VNaN => Normal (Ms NaN)
  | VStr s =>
      let invalid := Throws ("Invalid timeout format: " +:+ s) in
      let '(whole, rest) := span_chars is_digit s in
      if String.eqb whole "" then invalid
      else
        let '(fraction, rest) :=
          match rest with
          | String "." after =>
              let '(digits, rest') := span_chars is_digit after in
              if String.eqb digits "" then (EmptyString, rest) else (digits, rest')
          | _ => (EmptyString, rest)
          end in
        match unit_factor rest with
        | Some factor =>
            if String.eqb fraction ""
            then Normal (Ms (match digits_from 10 0 whole with
                             | Fin n => Fin (n * factor)
                             | NaN => NaN
                             end))
            else Normal (Scaled (whole +:+ "." +:+ fraction) factor)
        | None => invalid
        end
  | other => Throws ("Invalid timeout type: " +:+ js_typeof other)
  end.

End Startup.

(* ===================================================================== *)
(** ** somnia_rpc_perf.js: setup and teardown *)
(* ===================================================================== *)

Module MonolithRun.
Import Metrics WalletManager JsText BigInts TokenTransfers.

(** The constants [setup] and [teardown] read, computed from the process
    environment when the script is loaded.  [RPC_URLS] is not empty, or the
    load would have thrown (see [Startup.load_rpc_urls]): it is kept as its
    first element and the others, and the check [!RPC_URLS.length] that
    opens [setup] never fires.  [scale_setup] and [scale_refund] stand for
    [Math.floor(currentGasPrice * 1.2)] and
    [Math.floor(currentGasPrice * 1.1)], floating-point products. *)
Record Constants : Type := MkConstants {
  first_url : string;              (* RPC_URLS[0] *)
  other_urls : list string;
  WALLET_CNT : num;
  FUNDING_AMOUNT : Z;              (* a BigInt *)
  BATCH_SIZE : Z;
  CHAIN_ID : value;
  TOKEN_DECIMALS : num;
  BASE_PRIV : string;
  BASE_ADDR : string;
  ERC20_ADDR : string;
  scale_setup : num -> num;
  scale_refund : num -> num
}.

(** The batch loops of [setup] are, statement for statement, the loop of
    [fundWallets] in lib/wallet-manager.js, which reads its batch size from
    a configuration record: [loop_constants] is that record for the
    literals and constants of the script. *)
Definition loop_constants (k : Constants) : ChainConfig :=
  MkChain (CHAIN_ID k) (scale_setup k) (VNum 21000) (VNum 65000) (VNum 100000)
          "0xa9059cbb" (BATCH_SIZE k) (VNum (FUNDING_AMOUNT k)).

(** The counters of the last log line of [teardown]. *)
Record Recovery : Type := MkRecovery {
  recoveredFunds : Z;
  successfulRefunds : Z;
  failedRefunds : Z
}.

Section Run.
Variable cfg : Monolith.Settings.
Variable k : Constants.
Variable env : Env.
Variable generateKey : nat -> value * string.
Variable runId : string.    (* the run id [setup] derives from the wall clock *)

(** [jsonCall(url, method, params, extraTags)] with the default
    [expectFn] and [retryAttempt]. *)
Definition call (url : string) (method : string) (params : list value)
    (extraTags : gmap string value) (w : World) : completion value * World :=
  Monolith.jsonCall cfg env url (VStr method) (VArr params) extraTags (fun _ => true) 0 w.

(** The callback of the funding loop. *)
Definition fund_one (fundUrl : string) (baseNonce gasPrice : num) (i batchIndex : Z)
    (wl : Wallet) (w : World) : completion Wallet * World :=
  let nonce := num_add (num_add baseNonce (Fin i)) (Fin batchIndex) in
  match sign env (MkTx nonce gasPrice (VNum 21000) (VStr (addr wl))
                       (VNum (FUNDING_AMOUNT k)) (VStr "0x") (CHAIN_ID k))
             (VStr (BASE_PRIV k)) w with
  | (Normal raw, w) =>
      match call fundUrl "eth_sendRawTransaction" [VStr raw]
                 (<["nonce" := value_of_num nonce]>
                    (<["wallet_index" := VNum (index wl)]>
                       (<["op" := VStr "fund_wallet"]> ∅))) w with
      | (Normal txHash, w) =>
          (Normal (if truthy txHash
                   then MkWallet (pk wl) (addr wl) (index wl) txHash (tokenAirdropTx wl)
                   else wl), w)
      | (Throws e, w) => (Throws e, w)
      | (Diverges, w) => (Diverges, w)
      end
  | (Throws e, w) => (Throws e, w)
  | (Diverges, w) => (Diverges, w)
  end.

(** [(BigInt(10) ** BigInt(TOKEN_DECIMALS)) / BigInt(1000)] *)
Definition tokenAmount : completion Z :=
  match js_BigInt (value_of_num (TOKEN_DECIMALS k)) with
  | Normal d =>
      match pow 10 d with
      | Normal p => div p 1000
      | other => other
      end
  | other => other
  end.

(** The callback of the airdrop loop; [amountHex] is computed once, before
    the loop. *)
Definition airdrop_one (fundUrl : string) (baseNonce gasPrice : num) (amount : Z)
    (i batchIndex : Z) (wl : Wallet) (w : World) : completion Wallet * World :=
  let amountHex := padStart 64 "0" (toString16 amount) in
  let nonce := num_add (num_add baseNonce (Fin i)) (Fin batchIndex) in
  let data := "0xa9059cbb" +:+ padStart 64 "0" (strip_0x (addr wl)) +:+ amountHex in
  match sign env (MkTx nonce gasPrice (VNum 65000) (VStr (ERC20_ADDR k))
                       (VNum 0) (VStr data) (CHAIN_ID k))
             (VStr (BASE_PRIV k)) w with
  | (Normal raw, w) =>
      match call fundUrl "eth_sendRawTransaction" [VStr raw]
                 (<["amount" := VStr (pretty amount)]>
                    (<["wallet_index" := VNum (index wl)]>
                       (<["op" := VStr "token_airdrop"]> ∅))) w with
      | (Normal txHash, w) =>
          (Normal (if truthy txHash
                   then MkWallet (pk wl) (addr wl) (index wl) (fundingTx wl) txHash
                   else wl), w)
      | (Throws e, w) => (Throws e, w)
      | (Diverges, w) => (Diverges, w)
      end
  | (Throws e, w) => (Throws e, w)
  | (Diverges, w) => (Diverges, w)
  end.

(** [setup()]: the wallets and the run id handed to the virtual users. *)
Definition setup (w : World) : completion (list Wallet * string) * World :=
  let wallets := generateWallets generateKey (WALLET_CNT k) in
  if Monolith.string_in (Monolith.SCENARIO cfg) Monolith.WRITE_SCENARIOS then
    let fundUrl := first_url k in
    match call fundUrl "eth_getTransactionCount" [VStr (BASE_ADDR k); VStr "pending"]
               (<["op" := VStr "get_nonce"]> ∅) w with
    | (Normal r1, w) =>
        let baseNonce := js_Number r1 in
        match call fundUrl "eth_gasPrice" [] (<["op" := VStr "get_gas_price"]> ∅) w with
        | (Normal r2, w) =>
            let gasPrice := scale_setup k (js_Number r2) in
            match batches (loop_constants k) (S (length wallets))
                          (fund_one fundUrl baseNonce gasPrice) 0 wallets w with
            | (Normal funded, w) =>
                let baseNonce := num_add baseNonce (Fin (Z.of_nat (length wallets))) in
                let distributed :=
                  if String.eqb (Monolith.SCENARIO cfg) "S12_SendRawTxERC20" then
                    match tokenAmount with
                    | Normal amount =>
                        batches (loop_constants k) (S (length funded))
                                (airdrop_one fundUrl baseNonce gasPrice amount)
                                0 funded w
                    | Throws e => (Throws e, w)
                    | Diverges => (Diverges, w)
                    end
                  else (Normal funded, w) in
                match distributed with
                | (Normal wallets, w) => (Normal (wallets, runId), sleep_ms 5000 w)
                | (Throws e, w) => (Throws e, w)
                | (Diverges, w) => (Diverges, w)
                end
            | (Throws e, w) => (Throws e, w)
            | (Diverges, w) => (Diverges, w)
            end
        | (Throws e, w) => (Throws e, w)
        | (Diverges, w) => (Diverges, w)
        end
    | (Throws e, w) => (Throws e, w)
    | (Diverges, w) => (Diverges, w)
    end
  else (Normal (wallets, runId), w).

(** The body of the [try] in the callback of [batch.forEach] in
    [teardown]; [gasPrice] is the price computed before the loop. *)
Definition refund_body (refundUrl : string) (gasPrice : num) (wl : Wallet)
    (acc : Recovery) (w : World) : completion Recovery * World :=
  match call refundUrl "eth_getBalance" [VStr (addr wl); VStr "latest"]
             (<["wallet_addr" := VStr (addr wl)]>
                (<["op" := VStr "teardown_balance_check"]> ∅)) w with
  | (Normal balanceHex, w) =>
      if negb (truthy balanceHex) then (Normal acc, w)
      else
        match js_BigInt balanceHex with
        | Normal balance =>
            match js_BigInt (value_of_num gasPrice) with
            | Normal g =>
                let gasCost := g * 21000 in
                if balance <=? gasCost * 2 then (Normal acc, w)
                else
                  let sendValue := balance - gasCost in
                  match call refundUrl "eth_getTransactionCount"
                             [VStr (addr wl); VStr "pending"]
                             (<["wallet_addr" := VStr (addr wl)]>
                                (<["op" := VStr "teardown_nonce"]> ∅)) w with
                  | (Normal r, w) =>
                      let nonce := js_Number r in
                      match sign env (MkTx nonce gasPrice (VNum 21000)
                                           (VStr (BASE_ADDR k)) (VNum sendValue)
                                           (VStr "0x") (CHAIN_ID k))
                                 (pk wl) w with
                      | (Normal raw, w) =>
                          match call refundUrl "eth_sendRawTransaction" [VStr raw]
                                     (<["amount" := VStr (pretty sendValue)]>
                                        (<["wallet_addr" := VStr (addr wl)]>
                                           (<["op" := VStr "teardown_refund"]> ∅))) w with
                          | (Normal txHash, w) =>
                              (Normal (if truthy txHash
                                       then MkRecovery (recoveredFunds acc + sendValue)
                                                       (successfulRefunds acc + 1)
                                                       (failedRefunds acc)
                                       else acc), w)
                          | (Throws e, w) => (Throws e, w)
                          | (Diverges, w) => (Diverges, w)
                          end
                      | (Throws e, w) => (Throws e, w)
                      | (Diverges, w) => (Diverges, w)
                      end
                  | (Throws e, w) => (Throws e, w)
                  | (Diverges, w) => (Diverges, w)
                  end
            | Throws e => (Throws e, w)
            | Diverges => (Diverges, w)
            end
        | Throws e => (Throws e, w)
        | Diverges => (Diverges, w)
        end
  | (Throws e, w) => (Throws e, w)
  | (Diverges, w) => (Diverges, w)
  end.

(** The callback itself: whatever the body throws is caught and counted. *)
Definition refund_one (refundUrl : string) (gasPrice : num) (wl : Wallet)
    (acc : Recovery) (w : World) : completion Recovery * World :=
  match refund_body refundUrl gasPrice wl acc w with
  | (Throws _, w) =>
      (Normal (MkRecovery (recoveredFunds acc) (successfulRefunds acc)
                          (failedRefunds acc + 1)), w)
  | other => other
  end.

(** [batch.forEach(callback)]; the counters are variables of [teardown]
    that the callback updates. *)
Fixpoint refund_each (refundUrl : string) (gasPrice : num) (batch : list Wallet)
    (acc : Recovery) (w : World) : completion unit * (Recovery * World) :=
  match batch with
  | [] => (Normal tt, (acc, w))
  | wl :: rest =>
      match refund_one refundUrl gasPrice wl acc w with
      | (Normal acc, w) => refund_each refundUrl gasPrice rest acc w
      | (Throws e, w) => (Throws e, (acc, w))
      | (Diverges, w) => (Diverges, (acc, w))
      end
  end.

(** The [for (let i = 0; i < data.wallets.length; i += BATCH_SIZE)] loop of
    [teardown]. *)
Fixpoint refund_batches (fuel : nat) (refundUrl : string) (gasPrice : num) (i : Z)
    (wallets : list Wallet) (acc : Recovery) (w : World)
  : completion unit * (Recovery * World) :=
  match fuel with
  | O => (Diverges, (acc, w))
  | S fuel' =>
      let len := Z.of_nat (length wallets) in
      if i <? len then
        let stop := i + BATCH_SIZE k in
        match refund_each refundUrl gasPrice (js_slice i stop wallets) acc w with
        | (Normal _, (acc, w)) =>
            let w := if stop <? len then sleep_ms 500 w else w in
            refund_batches fuel' refundUrl gasPrice stop wallets acc w
        | other => other
        end
      else (Normal tt, (acc, w))
  end.

(** [teardown(data)]: it returns nothing; the counters are those of its
    last log line.  The outer [try] catches what the gas-price call or the
    loop throws. *)
Definition teardown (wallets : list Wallet) (w : World)
  : completion unit * (Recovery * World) :=
  let w := sleep_ms 10000 w in
  let none := MkRecovery 0 0 0 in
  if negb (Monolith.string_in (Monolith.SCENARIO cfg) Monolith.WRITE_SCENARIOS)
  then (Normal tt, (none, w))
  else
    let refundUrl := first_url k in
    match call refundUrl "eth_gasPrice" [] (<["op" := VStr "teardown_gas_price"]> ∅) w with
    | (Normal r, w) =>
        let gasPrice := scale_refund k (js_Number r) in
        match refund_batches (S (length wallets)) refundUrl gasPrice 0 wallets none w with
        | (Throws _, s) => (Normal tt, s)
        | other => other
        end
    | (Throws _, w) => (Normal tt, (none, w))
    | (Diverges, w) => (Diverges, (none, w))
    end.

End Run.

End MonolithRun.

(* ===================================================================== *)
(** ** What the later properties speak of *)
(* ===================================================================== *)

Module Ledger.
Import WalletManager.

(** A funding transaction: a plain transfer of the funding amount. *)
Definition funding_tx (chain : ChainConfig) (t : TxParams) : Prop :=
  tx_gas t = gas_simple chain /\ tx_data t = VStr "0x"
  /\ tx_value t = defaultFundingAmount chain.

(** A token airdrop: a call of the token contract that moves no ether. *)
Definition airdrop_tx (chain : ChainConfig) (erc20Addr : string) (t : TxParams) : Prop :=
  tx_gas t = gas_erc20 chain /\ tx_to t = VStr erc20Addr /\ tx_value t = VNum 0.

(** A refund built by [teardown] with the gas price [gasPrice] computed
    before the loop: a plain transfer to the base wallet whose value exceeds
    the gas cost [g * gl] that was taken off the balance. *)
Definition refund_tx (chain : ChainConfig) (baseAddr : string) (gasPrice : num)
    (t : TxParams) : Prop :=
  tx_to t = VStr baseAddr /\ tx_data t = VStr "0x" /\ tx_gas t = gas_simple chain
  /\ exists v g gl,
       gasPrice = Fin g
       /\ BigInts.js_BigInt (gas_simple chain) = Normal gl
       /\ tx_value t = VNum v
       /\ g * gl < v
       /\ (g <> 0 -> tx_gasPrice t = Fin g).

(** Between two worlds nothing happened that a retry would show: no sleep,
    no request, no socket, no signature, no sample of the retry counter. *)
Definition quiet (w w' : World) : Prop :=
  sleeps w' = sleeps w /\ posts w' = posts w /\ sockets w' = sockets w
  /\ signed w' = signed w
  /\ count_metric "somnia_retry_count" (samples w')
     = count_metric "somnia_retry_count" (samples w).

(** A socket of the modular client whose handlers, since the state [r0],
    did nothing a retry would show and left the retry counter alone. *)
Definition lib_calm (r0 r : WebsocketClient.Run) : Prop :=
  WebsocketClient.diverged r = WebsocketClient.diverged r0
  /\ WebsocketClient.retryAttempt r = WebsocketClient.retryAttempt r0
  /\ quiet (WebsocketClient.world r0) (WebsocketClient.world r).

(** The same for a socket of the monolithic script, none of whose handlers
    let an exception escape. *)
Definition monolith_calm (r0 r : Monolith.Run) : Prop :=
  Monolith.thrown r = Monolith.thrown r0
  /\ quiet (Monolith.world r0) (Monolith.world r).

(** What [k] retries leave in the world, besides the requests or sockets
    themselves: [k] sleeps of the retry delay, [k] samples of the retry
    counter, and nothing handed to the signer. *)
Definition retry_effects (delay : Z) (k : nat) (w w' : World) : Prop :=
  sleeps w' = (replicate k delay ++ sleeps w)%list
  /\ count_metric "somnia_retry_count" (samples w')
     = (k + count_metric "somnia_retry_count" (samples w))%nat
  /\ signed w' = signed w.

End Ledger.
Export Ledger.

(* ===================================================================== *)
(** ** Concrete runs of the modular script *)
(* ===================================================================== *)

Module Samples.

(** [tokens] of [rpc-config.json]: 18 decimals, airdrop divisor 1000. *)
Definition tokens_cfg : TokenTransfers.TokenConfig :=
  TokenTransfers.MkTokens (VNum 18) (VNum 1000).

(** A key generator whose [k]-th key and address end in the decimal [k]. *)
Definition generateKey (k : nat) : value * string :=
  (VStr ("4c0883a6" +:+ pretty k), "0xaaaa" +:+ pretty k).

(** A run of scenario S12 against one node, with three wallets. *)
Definition script_s12 : Script.ScriptConfig :=
  Script.MkScript "S12_SendRawTxERC20"
    ["S11_SendRawTxSmall"; "S12_SendRawTxERC20"; "S18_GetTxReceipt"]
    "http://node" [] (Fin 3) "4c0883a6" "0xbase" "0xtoken" 5000 3000 100
    (fun g => match g with Fin n => Fin (11 * n / 10) | NaN => NaN end).

(** The answer of [Fixtures.env_revert] to the first request of a run that
    starts in [Fixtures.w0]. *)
Definition revert_reply : value :=
  Fixtures.envelope (VStr "1700000000000000") [("error", Fixtures.revert_error)].

Definition revert_response : Response :=
  MkResponse 200 0 (Some "application/json") (JSON_stringify revert_reply)
             (ParsedAs revert_reply) 12.

(** The answer of [Fixtures.env_504] to every request. *)
Definition gateway_response : Response :=
  MkResponse 504 0 (Some "text/html") (Some "Gateway Time-out")
             (ParseError (VStr "invalid character")) 15000.

(** The answer of [Fixtures.env_pending_5] to a request for a transaction
    count that carries the id [id]. *)
Definition count_reply (id : value) : value :=
  Fixtures.envelope id [("result", VStr "0x5")].

Definition count_response (id : value) : Response :=
  MkResponse 200 0 (Some "application/json") (JSON_stringify (count_reply id))
             (ParsedAs (count_reply id)) 7.

(** A run of scenario S12 of the monolithic script against one node, with
    three wallets funded in batches of two. *)
Definition mono_cfg_s12 : Monolith.Settings :=
  Monolith.MkSettings 3 1000 15000 60000 (VStr "run_1") "S12_SendRawTxERC20" "eu"
                      (fun t => pretty (95 * t / 100)).

Definition constants_s12 : MonolithRun.Constants :=
  MonolithRun.MkConstants "http://node" [] (Fin 3) 1000000000000000 2 (VNum 50312)
    (Fin 18) "4c0883a6" "0xbase" "0xtoken"
    (fun g => match g with Fin n => Fin (12 * n / 10) | NaN => NaN end)
    (fun g => match g with Fin n => Fin (11 * n / 10) | NaN => NaN end).

End Samples.

(* ===================================================================== *)
(** ** Counting samples *)
(* ===================================================================== *)

(** Closes a goal [tally (samples (f w)) = tally_add k (tally (samples w))]
    once [f] is unfolded into a sequence of [emit]. *)
Ltac tally_cases :=
  unfold tally, tally_add; cbn; f_equal; lia.

Lemma substring_length_le (n : nat) (s : string) :
  (String.length (substring 0 n s) <= n)%nat.
Proof.
  revert s. induction n as [|n IH]; intros s.
  - destruct s; simpl; lia.
  - destruct s as [|c s]; simpl; [lia|]. specialize (IH s). lia.
Qed.

Lemma tally_add_assoc a b c : tally_add a (tally_add b c) = tally_add (tally_add a b) c.
Proof. unfold tally_add; cbn; f_equal; lia. Qed.

Lemma tally_emit n v t w :
  tally (samples (emit n v t w)) = tally_add (tally [MkSample n v t]) (tally (samples w)).
Proof.
  unfold tally, tally_add;
    cbn [emit samples count_metric sum_metric metric amount
         t_success t_error t_error_rate t_retry t_timeout_rate t_gauge].
  f_equal; lia.
Qed.

Lemma recordFailure_tally tags reason options w :
  tally (samples (Metrics.recordFailure tags reason options w))
  = tally_add (MkTally 0 1 1 0 (if truthy (Metrics.isTimeout options) then 1 else 0) 0)
              (tally (samples w)).
Proof.
  unfold Metrics.recordFailure.
  destruct (truthy (tag tags "method")), (truthy (Metrics.isTimeout options)),
    (truthy (Metrics.isHttpError options)); tally_cases.
Qed.

Lemma recordSuccess_tally tags w :
  tally (samples (Metrics.recordSuccess tags w))
  = tally_add (MkTally 1 0 0 0 0 0) (tally (samples w)).
Proof.
  unfold Metrics.recordSuccess. destruct (truthy (tag tags "method")); tally_cases.
Qed.

Lemma addRTT_tally ms tags w :
  tally (samples (Metrics.addRTT ms tags w)) = tally (samples w).
Proof.
  unfold Metrics.addRTT.
  destruct (truthy (tag tags "method")), (strict_eq (tag tags "transport") (VStr "websocket"));
    tally_cases.
Qed.

Lemma updateStateMetrics_tally method result tags w :
  tally (samples (Metrics.updateStateMetrics method result tags w)) = tally (samples w).
Proof.
  unfold Metrics.updateStateMetrics.
  destruct (strict_eq method (VStr "eth_blockNumber") && truthy result),
    (strict_eq method (VStr "eth_gasPrice") && truthy result); tally_cases.
Qed.

Lemma monolith_recordFailure_tally cfg tags reason options w :
  exists timeouts : nat,
    tally (samples (Monolith.recordFailure cfg tags reason options w))
    = tally_add (MkTally 0 1 1 0 timeouts 0) (tally (samples w))
    /\ (truthy (Monolith.isTimeout options) = true -> timeouts = 1%nat)
    /\ (timeouts <= 1)%nat.
Proof.
  unfold Monolith.recordFailure.
  set (d := match Monolith.response options, Monolith.requestStartTime options with
            | Some _, Some _ => _ | _, _ => _ end).
  destruct d as [td|], (truthy (tag tags "method")), (truthy (Monolith.isTimeout options)),
    (truthy (Monolith.isHttpError options)); cbn [orb];
    (exists 1%nat; split; [tally_cases | split; [reflexivity | lia]])
    || (exists 0%nat; split; [tally_cases | split; [discriminate | lia]]).
Qed.

(** The metric helpers change nothing but the samples. *)

Lemma recordFailure_only_samples tags reason options :
  only_samples (Metrics.recordFailure tags reason options).
Proof.
  intros w. unfold Metrics.recordFailure.
  destruct (truthy (tag tags "method")), (truthy (Metrics.isTimeout options)),
    (truthy (Metrics.isHttpError options)); repeat split.
Qed.

Lemma recordSuccess_only_samples tags : only_samples (Metrics.recordSuccess tags).
Proof.
  intros w. unfold Metrics.recordSuccess.
  destruct (truthy (tag tags "method")); repeat split.
Qed.

Lemma addRTT_only_samples ms tags : only_samples (Metrics.addRTT ms tags).
Proof.
  intros w. unfold Metrics.addRTT.
  destruct (truthy (tag tags "method")), (strict_eq (tag tags "transport") (VStr "websocket"));
    repeat split.
Qed.

Lemma updateStateMetrics_only_samples method result tags :
  only_samples (Metrics.updateStateMetrics method result tags).
Proof.
  intros w. unfold Metrics.updateStateMetrics.
  destruct (strict_eq method (VStr "eth_blockNumber") && truthy result),
    (strict_eq method (VStr "eth_gasPrice") && truthy result); repeat split.
Qed.

Lemma monolith_recordFailure_only_samples cfg tags reason options :
  only_samples (Monolith.recordFailure cfg tags reason options).
Proof.
  intros w. unfold Monolith.recordFailure.
  set (d := match Monolith.response options, Monolith.requestStartTime options with
            | Some _, Some _ => _ | _, _ => _ end).
  destruct d as [td|], (truthy (tag tags "method")), (truthy (Monolith.isTimeout options)),
    (truthy (Monolith.isHttpError options)); repeat split.
Qed.

(* ===================================================================== *)
(** ** lib/rpc-client.js: the request envelope *)
(* ===================================================================== *)

Lemma stringify_envelope id method ps t_id t_m t_p :
  JSON_stringify id = Some t_id ->
  JSON_stringify method = Some t_m ->
  JSON_stringify ps = Some t_p ->
  JSON_stringify (VObj [("jsonrpc", VStr "2.0"); ("id", id); ("method", method); ("params", ps)])
  = Some (envelope_text t_id t_m t_p).
Proof.
  intros Hid Hm Hp. cbn [JSON_stringify]. rewrite Hid, Hm, Hp. reflexivity.
Qed.



(* ===================================================================== *)
(** ** lib/metrics.js: recordFailure *)
(* ===================================================================== *)


(* ===================================================================== *)
(** ** lib/rpc-client.js: the retry chain of jsonCall *)
(* ===================================================================== *)

Section LibJsonCall.
Import RpcClient.
Variable cfg : Settings.
Variable env : Env.
Variables (url : string) (method params : value).
Variable extraTags : gmap string value.
Variable expectFn : value -> bool.

Lemma loop_S fuel attempt w :
  jsonCall_loop cfg env url method params extraTags expectFn (S fuel) attempt w
  = match RpcClient.pass cfg env url method params extraTags expectFn attempt w with
    | Again w' => jsonCall_loop cfg env url method params extraTags expectFn fuel (attempt + 1) w'
    | Return c w' => (c, w')
    end.
Proof. reflexivity. Qed.

(** A pass asks for another one only while attempts remain. *)
Lemma pass_again attempt w w' :
  RpcClient.pass cfg env url method params extraTags expectFn attempt w = Again w' ->
    attempt < MAX_RETRIES cfg.
Proof.
  unfold RpcClient.pass, retry_or_fail, after_parse, failed.
  repeat match goal with
         | |- context [match ?x with _ => _ end] => destruct x eqn:?
         end; try discriminate; intros _; lia.
Qed.

(** The fuel [jsonCall] starts with is enough. *)
Lemma jsonCall_loop_terminates (k : nat) attempt w :
  MAX_RETRIES cfg - attempt <= Z.of_nat k ->
  fst (jsonCall_loop cfg env url method params extraTags expectFn (S k) attempt w) <> Diverges.
Proof.
  revert attempt w. induction k as [|k IH]; intros attempt w Hk; rewrite loop_S.
  - destruct (RpcClient.pass cfg env url method params extraTags expectFn attempt w)
    as [w'|c w'] eqn:Hp.
    + apply pass_again in Hp. lia.
    + cbn. unfold RpcClient.pass, retry_or_fail, after_parse, failed in Hp.
      repeat match type of Hp with
             | context [match ?x with _ => _ end] => destruct x eqn:?
             end; try discriminate; injection Hp as <- <-; discriminate.
  - destruct (RpcClient.pass cfg env url method params extraTags expectFn attempt w)
      as [w'|c w'] eqn:Hp.
    + apply IH. lia.
    + cbn. unfold RpcClient.pass, retry_or_fail, after_parse, failed in Hp.
      repeat match type of Hp with
             | context [match ?x with _ => _ end] => destruct x eqn:?
             end; try discriminate; injection Hp as <- <-; discriminate.
Qed.

Lemma jsonCall_terminates attempt w :
  fst (jsonCall cfg env url method params extraTags expectFn attempt w) <> Diverges.
Proof. unfold jsonCall. apply jsonCall_loop_terminates. lia. Qed.

Hypothesis always_fails : forall n u b, transport_failure (http_post env n u b).

Lemma pass_transport_failure attempt w :
  (attempt < MAX_RETRIES cfg ->
     exists w', RpcClient.pass cfg env url method params extraTags expectFn attempt w = Again w'
                /\ posts w' = S (posts w)
                /\ sleeps w' = RETRY_DELAY_MS cfg :: sleeps w
                /\ tally (samples w') = tally_add (MkTally 0 0 0 1 0 0) (tally (samples w)))
  /\ (MAX_RETRIES cfg <= attempt ->
     exists w', RpcClient.pass cfg env url method params extraTags expectFn attempt w
       = Return (Normal VUndef) w'
                /\ posts w' = S (posts w)
                /\ sleeps w' = sleeps w
                /\ tally (samples w') = tally_add (MkTally 0 1 1 0 0 0) (tally (samples w))).
Proof.
  unfold RpcClient.pass.
  set (w1 := next_draw (next_draw w)).
  set (reqId := VNum _). set (payload := buildRpcRequest _ _ _).
  specialize (always_fails (posts w1) url payload). unfold transport_failure in always_fails.
  destruct (outcome (http_post env (posts w1) url payload)) as [e|res].
  - unfold retry_or_fail, failed. split; intros H.
    + apply Z.ltb_lt in H. rewrite H. eexists. split; [reflexivity|].
      split; [reflexivity|]. split; [reflexivity|]. tally_cases.
    + apply Z.ltb_ge in H. rewrite H. eexists. split; [reflexivity|].
      match goal with
      | |- context [Metrics.recordFailure ?t ?r ?o ?w0] =>
          destruct (recordFailure_only_samples t r o w0) as (_ & -> & _ & _ & -> & _)
      end.
      split; [reflexivity|]. split; [reflexivity|].
      rewrite recordFailure_tally. reflexivity.
  - apply Z.eqb_neq in always_fails. rewrite always_fails. cbn [negb].
    unfold retry_or_fail, failed. split; intros H.
    + apply Z.ltb_lt in H. rewrite H. eexists. split; [reflexivity|].
      split; [reflexivity|]. split; [reflexivity|]. tally_cases.
    + apply Z.ltb_ge in H. rewrite H. eexists. split; [reflexivity|].
      match goal with
      | |- context [Metrics.recordFailure ?t ?r ?o ?w0] =>
          destruct (recordFailure_only_samples t r o w0) as (_ & -> & _ & _ & -> & _)
      end.
      split; [reflexivity|]. split; [reflexivity|].
      rewrite recordFailure_tally. reflexivity.
Qed.

Lemma loop_transport_failure (k : nat) attempt w :
  Z.of_nat k = MAX_RETRIES cfg - attempt ->
  let res := jsonCall_loop cfg env url method params extraTags expectFn (S k) attempt w in
  fst res = Normal VUndef
  /\ posts (snd res) = (posts w + S k)%nat
  /\ sleeps (snd res) = (replicate k (RETRY_DELAY_MS cfg) ++ sleeps w)%list
  /\ tally (samples (snd res)) = tally_add (MkTally 0 1 1 k 0 0) (tally (samples w)).
Proof.
  revert attempt w. induction k as [|k IH]; intros attempt w Hk res; subst res;
    rewrite loop_S.
  - destruct (pass_transport_failure attempt w) as [_ Hfail].
    destruct Hfail as (w' & -> & Hp & Hs & Ht); [lia|]. cbn [fst snd].
    rewrite Hp, Hs, Ht. repeat split; lia.
  - destruct (pass_transport_failure attempt w) as [Hretry _].
    destruct Hretry as (w' & -> & Hp & Hs & Ht); [lia|].
    destruct (IH (attempt + 1) w') as (Hc & Hp' & Hs' & Ht'); [lia|].
    rewrite Hc, Hp', Hs', Ht', Hp, Hs, Ht. split; [reflexivity|]. split; [lia|]. split.
    + rewrite replicate_S_end, <- app_assoc. reflexivity.
    + rewrite tally_add_assoc. f_equal. unfold tally_add; cbn. f_equal; lia.
Qed.

End LibJsonCall.

(** C4.  When every HTTP exchange fails at the transport level and
    [MAX_RETRIES] is a count (not negative), [jsonCall] returns the empty
    result after exactly [MAX_RETRIES + 1] POSTs, with one [sleep] of
    [RETRY_DELAY_MS] and one sample of the retry counter per retry, and one
    failure for the whole chain: one sample of the error counter and one of
    the error rate, no success. *)
Theorem jsonCall_transport_failure_chain (cfg : RpcClient.Settings) (env : Env)
    (url : string) (method params : value) (extraTags : gmap string value)
    (expectFn : value -> bool) (w : World) :
  0 <= RpcClient.MAX_RETRIES cfg ->
  (forall n u b, transport_failure (http_post env n u b)) ->
  let retries := Z.to_nat (RpcClient.MAX_RETRIES cfg) in
  let res := RpcClient.jsonCall cfg env url method params extraTags expectFn 0 w in
  fst res = Normal VUndef
  /\ posts (snd res) = (posts w + (retries + 1))%nat
  /\ sleeps (snd res) = (replicate retries (RpcClient.RETRY_DELAY_MS cfg) ++ sleeps w)%list
  /\ tally (samples (snd res)) = tally_add (MkTally 0 1 1 retries 0 0) (tally (samples w)).
Proof.
  intros Hmax Hfail retries res. subst res retries. unfold RpcClient.jsonCall.
  rewrite Z.sub_0_r.
  destruct (loop_transport_failure cfg env url method params extraTags expectFn Hfail
              (Z.to_nat (RpcClient.MAX_RETRIES cfg)) 0 w) as (Hc & Hp & Hs & Ht); [lia|].
  rewrite Hc, Hp, Hs, Ht. repeat split; lia.
Qed.

(* ===================================================================== *)
(** ** Structural validation of a JSON-RPC response *)
(* ===================================================================== *)

Lemma strict_eq_str (x : value) (s : string) : strict_eq x (VStr s) = true <-> x = VStr s.
Proof.
  destruct x; cbn; try (split; [discriminate | intros H; discriminate H]).
  rewrite String.eqb_eq. split; [intros ->; reflexivity | intros H; injection H as ->; reflexivity].
Qed.

Lemma structure_checks_object (reqId : value) (fs : list (string * value)) :
  check (VObj fs) (RpcClient.structureChecks reqId)
  = Some (strict_eq (default VUndef (assoc "jsonrpc" fs)) (VStr "2.0")
          && (strict_eq (default VUndef (assoc "id" fs)) reqId
              && ((match assoc "result" fs with Some _ => true | None => false end
                   || match assoc "error" fs with Some _ => true | None => false end)
                  && true))).
Proof. reflexivity. Qed.



(* ===================================================================== *)
(** ** Protocol-level errors *)
(* ===================================================================== *)

(** C3, in the modular client.  [jsonCall] of lib/rpc-client.js has no
    exemption for eth_estimateGas: against a node that answers
    [{code: -32000, message: "execution reverted"}] the call records one
    failure of stage rpc_error, no success, and returns undefined. *)
Lemma lib_estimateGas_revert_is_failure :
  let res := RpcClient.jsonCall Fixtures.lib_cfg Fixtures.env_revert "http://node"
               (VStr "eth_estimateGas") (VArr []) ∅ (fun _ => true) 0 Fixtures.w0 in
  fst res = Normal VUndef
  /\ tally (samples (snd res)) = MkTally 0 1 1 0 0 0
  /\ posts (snd res) = 1%nat
  /\ map (fun s => labels s !! "stage") (samples (snd res))
     = [Some (VStr "rpc_error"); Some (VStr "rpc_error"); Some (VStr "rpc_error")].
Proof. vm_compute. repeat split. Qed.

(** C3, in the monolithic script.  Once the structural checks have passed
    and the error member is truthy: for eth_estimateGas the call records
    one success and no failure and returns [{ error: rpcError }]; for every
    other method it records one failure of stage rpc_error and returns
    undefined.  In both cases the call returns: it is not retried. *)
Lemma monolith_protocol_error (cfg : Monolith.Settings) (method : value)
    (expectFn : value -> bool) (attempt startTime : Z)
    (reqId v : value) (baseTags : gmap string value) (res : Response) (w : World) :
  check v (RpcClient.structureChecks reqId) = Some true ->
  truthy (default VUndef (get v "error")) = true ->
  let rpcError := default VUndef (get v "error") in
  let outcome := Monolith.after_parse cfg method expectFn attempt reqId startTime baseTags res v w in
  (method = VStr "eth_estimateGas" ->
     exists w', outcome = Monolith.Return (Normal (VObj [("error", rpcError)])) w'
                /\ tally (samples w') = tally_add (MkTally 1 0 0 0 0 0) (tally (samples w)))
  /\ (method <> VStr "eth_estimateGas" ->
     exists tags reason options timeouts,
       outcome = Monolith.Return (Normal VUndef)
                                 (Monolith.recordFailure cfg tags reason options w)
       /\ tags !! "stage" = Some (VStr "rpc_error")
       /\ tally (samples (Monolith.recordFailure cfg tags reason options w))
          = tally_add (MkTally 0 1 1 0 timeouts 0) (tally (samples w))).
Proof.
  intros Hs Herr rpcError outcome. subst outcome rpcError. unfold Monolith.after_parse.
  rewrite Hs, Herr. split.
  - intros ->. cbn [strict_eq String.eqb Ascii.eqb Bool.eqb andb].
    eexists. split; [reflexivity|].
    unfold Monolith.addRTT, Monolith.recordSuccess.
    rewrite addRTT_tally, recordSuccess_tally. reflexivity.
  - intros Hm. destruct (strict_eq method (VStr "eth_estimateGas")) eqn:E.
    { apply strict_eq_str in E. contradiction. }
    unfold Monolith.failed.
    match goal with
    | |- context [Monolith.recordFailure cfg ?t ?r ?o w] =>
        destruct (monolith_recordFailure_tally cfg t r o w) as (timeouts & Ht & _);
        exists t, r, o, timeouts
    end.
    split; [reflexivity|]. split; [|exact Ht].
    rewrite lookup_insert_ne by discriminate. rewrite lookup_insert_ne by discriminate.
    apply lookup_insert_eq.
Qed.

(* ===================================================================== *)
(** ** Every call path of jsonCall (lib/rpc-client.js) *)
(* ===================================================================== *)

Lemma checks_throw_only_on_null (v : value) (checks : list (value -> option bool)) reqId f :
  checks = RpcClient.structureChecks reqId \/ checks = RpcClient.resultChecks f ->
  check v checks = None -> v = VNull \/ v = VUndef.
Proof.
  intros [-> | ->] H; destruct v; try (right; reflexivity); try (left; reflexivity);
    discriminate H.
Qed.

Section LibEveryPath.
Import RpcClient.
Variable cfg : Settings.
Variable env : Env.
Variables (url : string) (method params : value).
Variable extraTags : gmap string value.
Variable expectFn : value -> bool.

Lemma failed_one_record tags reason options (w w0 : World) :
  tally (samples w) = tally (samples w0) ->
  exists w', failed tags reason options w = Return (Normal VUndef) w'
             /\ record_set 0 (Normal VUndef) (samples w0) (samples w').
Proof.
  intros Hw. eexists. split; [reflexivity|].
  exists VUndef, 0%nat, 1%nat, (if truthy (Metrics.isTimeout options) then 1 else 0)%nat.
  split; [reflexivity|]. rewrite recordFailure_tally, Hw. split; [reflexivity|].
  right. repeat split.
Qed.

Lemma after_parse_one_record attempt reqId startTime baseTags v (w w0 : World) :
  v <> VNull -> v <> VUndef ->
  tally (samples w) = tally (samples w0) ->
  exists c w', after_parse method expectFn attempt reqId startTime baseTags v w = Return c w'
               /\ record_set 0 c (samples w0) (samples w').
Proof.
  intros Hn Hu Hw. unfold after_parse.
  destruct (check v (structureChecks reqId)) as [[|]|] eqn:Hs.
  - destruct (truthy (default VUndef (get v "error"))).
    + destruct (failed_one_record
                  (<["rpc_error_message" :=
                       VStr (slice0 100 (js_String (default VUndef
                               (get (default VUndef (get v "error")) "message"))))]>
                     (<["rpc_error_code" :=
                          default VUndef (get (default VUndef (get v "error")) "code")]>
                        (<["stage" := VStr "rpc_error"]> baseTags)))
                  ("RPC error "
                     +:+ js_String (default VUndef (get (default VUndef (get v "error")) "code"))
                     +:+ ": "
                     +:+ js_String (default VUndef
                                      (get (default VUndef (get v "error")) "message")))
                  (Metrics.MkOptions (VNum attempt) VUndef VUndef) w w0 Hw)
        as (w' & -> & H). eauto.
    + destruct (check v (resultChecks expectFn)) as [[|]|] eqn:Hr.
      * eexists _, _. split; [reflexivity|].
        eexists _, 1%nat, 0%nat, 0%nat. split; [reflexivity|].
        rewrite updateStateMetrics_tally, addRTT_tally, recordSuccess_tally, Hw.
        split; [reflexivity|]. left. repeat split.
      * destruct (failed_one_record (<["stage" := VStr "result_validation"]> baseTags)
                    "Result validation failed"
                    (Metrics.MkOptions (VNum attempt) VUndef VUndef) w w0 Hw)
          as (w' & -> & H). eauto.
      * apply checks_throw_only_on_null with (reqId := reqId) (f := expectFn) in Hr;
          [tauto | right; reflexivity].
  - destruct (failed_one_record (<["stage" := VStr "rpc_structure"]> baseTags)
                "Invalid JSON-RPC response structure"
                (Metrics.MkOptions (VNum attempt) VUndef VUndef) w w0 Hw)
      as (w' & -> & H). eauto.
  - apply checks_throw_only_on_null with (reqId := reqId) (f := expectFn) in Hs;
      [tauto | left; reflexivity].
Qed.

Hypothesis no_null : no_null_document env.

(** A pass either asks for a retry, having added one retry sample, or
    returns with one record set. *)
Lemma pass_one_record attempt w :
  (exists w', pass cfg env url method params extraTags expectFn attempt w = Again w'
              /\ tally (samples w') = tally_add (MkTally 0 0 0 1 0 0) (tally (samples w)))
  \/ (exists c w', pass cfg env url method params extraTags expectFn attempt w = Return c w'
                   /\ record_set 0 c (samples w) (samples w')).
Proof.
  unfold pass.
  set (w1 := next_draw (next_draw w)).
  set (reqId := VNum _). set (payload := buildRpcRequest _ _ _).
  set (ex := http_post env (posts w1) url payload).
  set (w2 := advance (took ex) (next_post w1)).
  assert (tally (samples w2) = tally (samples w)) as Hw by reflexivity.
  pose proof (no_null (posts w1) url payload) as Hnn. fold ex in Hnn.
  destruct (outcome ex) as [e|res].
  - unfold retry_or_fail. destruct (attempt <? MAX_RETRIES cfg).
    + left. eexists. split; [reflexivity|]. tally_cases.
    + right. destruct (failed_one_record (baseTags_of cfg url method attempt extraTags)
                         ("Network error: " +:+ text_of (message e))
                         (Metrics.MkOptions (VNum attempt) VUndef VUndef) w2 w Hw)
        as (w' & -> & H). eauto.
  - destruct (negb (error_code res =? 0)).
    + unfold retry_or_fail. destruct (attempt <? MAX_RETRIES cfg).
      * left. eexists. split; [reflexivity|]. tally_cases.
      * right.
        destruct (failed_one_record
                    (<["error_code" := VNum (error_code res)]>
                       (<["stage" := VStr "network"]>
                          (baseTags_of cfg url method attempt extraTags)))
                    ("Network error code: " +:+ pretty (error_code res))
                    (Metrics.MkOptions (VNum attempt) VUndef VUndef) w2 w Hw)
          as (w' & -> & H). eauto.
    + right. destruct (check res httpChecks) as [[|]|] eqn:Hh.
      * destruct (json res) as [m|v] eqn:Hj.
        -- destruct (failed_one_record
                       (<["stage" := VStr "json_parse"]>
                          (baseTags_of cfg url method attempt extraTags))
                       ("JSON parse error: " +:+ js_String m)
                       (Metrics.MkOptions (VNum attempt) VUndef VUndef) w2 w Hw)
             as (w' & -> & H). eauto.
        -- destruct (Hnn res eq_refl) as [Hn Hu].
           apply after_parse_one_record; [congruence | congruence | exact Hw].
      * destruct (failed_one_record
                    (<["status" := VNum (status res)]>
                       (<["stage" := VStr "http"]>
                          (baseTags_of cfg url method attempt extraTags)))
                    ("HTTP validation failed: status=" +:+ pretty (status res))
                    (Metrics.MkOptions (VNum attempt) VUndef (VBool true)) w2 w Hw)
          as (w' & -> & H). eauto.
      * discriminate Hh.
Qed.

Lemma loop_one_record (k : nat) attempt w :
  MAX_RETRIES cfg - attempt <= Z.of_nat k ->
  exists c w' retries,
    jsonCall_loop cfg env url method params extraTags expectFn (S k) attempt w = (c, w')
    /\ Z.of_nat retries <= Z.max 0 (MAX_RETRIES cfg - attempt)
    /\ record_set retries c (samples w) (samples w').
Proof.
  revert attempt w. induction k as [|k IH]; intros attempt w Hk; rewrite loop_S.
  - destruct (pass_one_record attempt w) as [(w' & Hp & _)|(c & w' & Hp & Hr)].
    + apply pass_again in Hp. lia.
    + rewrite Hp. exists c, w', 0%nat. split; [reflexivity|]. split; [lia|exact Hr].
  - destruct (pass_one_record attempt w) as [(w' & Hp & Ht)|(c & w' & Hp & Hr)].
    + rewrite Hp. apply pass_again in Hp.
      destruct (IH (attempt + 1) w') as (c & w'' & r & Hl & Hb & Hr); [lia|].
      exists c, w'', (S r). split; [exact Hl|]. split; [lia|].
      destruct Hr as (v & s & e & t & Hc & Hta & Hcase).
      exists v, s, e, t. split; [exact Hc|]. split; [|exact Hcase].
      rewrite Hta, Ht, tally_add_assoc. f_equal. unfold tally_add; cbn. f_equal; lia.
    + rewrite Hp. exists c, w', 0%nat. split; [reflexivity|]. split; [lia|exact Hr].
Qed.

(** Every call returns, with exactly one record set besides one retry
    sample per retry, and never more retries than [MAX_RETRIES] allows;
    a failed call returns undefined. *)
Lemma lib_jsonCall_one_record_set attempt w :
  exists c w' retries,
    jsonCall cfg env url method params extraTags expectFn attempt w = (c, w')
    /\ Z.of_nat retries <= Z.max 0 (MAX_RETRIES cfg - attempt)
    /\ record_set retries c (samples w) (samples w').
Proof. unfold jsonCall. apply loop_one_record. lia. Qed.

End LibEveryPath.

(* ===================================================================== *)
(** ** Timeout classification *)
(* ===================================================================== *)

(** C2, in the modular client.  [jsonCall] of lib/rpc-client.js classifies
    nothing as a timeout.  A 504 answer that took the whole timeout is
    recorded as an HTTP failure, with no sample of the timeout rate and no
    retry; an answer that arrives after 15 s is recorded as a success. *)
Lemma lib_no_timeout_classification :
  let gateway := RpcClient.jsonCall Fixtures.lib_cfg Fixtures.env_504 "http://node"
                   (VStr "eth_blockNumber") (VArr []) ∅ (fun _ => true) 0 Fixtures.w0 in
  let slow := RpcClient.jsonCall Fixtures.lib_cfg Fixtures.env_slow "http://node"
                (VStr "eth_blockNumber") (VArr []) ∅ (fun _ => true) 0 Fixtures.w0 in
  (fst gateway = Normal VUndef
   /\ tally (samples (snd gateway)) = MkTally 0 1 1 0 0 0
   /\ posts (snd gateway) = 1%nat
   /\ now (snd gateway) - now Fixtures.w0 = 15000)
  /\ (fst slow = Normal (VStr "0x10")
      /\ tally (samples (snd slow)) = MkTally 1 0 0 0 0 0
      /\ now (snd slow) - now Fixtures.w0 = 15000).
Proof. vm_compute. repeat split. Qed.

Section MonolithTimeouts.
Import Monolith.
Variable cfg : Settings.

(** [detectTimeout] reports a timeout exactly when one of its indicators
    holds. *)
Lemma detectTimeout_any view start t w :
  td_isTimeout (detectTimeout view start t w) = true
  <-> exists name, In (name, true)
                      (indicators view (now w - default start (rv_start view)) t).
Proof.
  unfold detectTimeout. cbn [td_isTimeout]. rewrite existsb_exists. split.
  - intros ([name b] & Hin & Hb). cbn in Hb. subst b. eauto.
  - intros (name & Hin). exists (name, true). split; [exact Hin | reflexivity].
Qed.

(** Each signal the specification lists is enough on its own. *)
Lemma detectTimeout_signals view start t w :
  let elapsed := now w - default start (rv_start view) in
  (rv_status view = VNum 408 \/ rv_status view = VNum 504
   \/ (rv_status view = VNum 0 /\ 95 * t <= 100 * elapsed)
   \/ 95 * t <= 100 * elapsed
   \/ (exists b, rv_body view = Some b /\ b <> "" /\ timeout_words b = true))
  -> td_isTimeout (detectTimeout view start t w) = true.
Proof.
  intros elapsed H. apply detectTimeout_any. fold elapsed. unfold indicators.
  destruct H as [H|[H|[[H Hn]|[Hn|(b & Hb & Hne & Hw)]]]].
  - exists "request_timeout". rewrite H. cbn. tauto.
  - exists "gateway_timeout". rewrite H. cbn. tauto.
  - exists "duration_timeout". unfold reaches_threshold.
    apply Z.leb_le in Hn. rewrite Hn. cbn. tauto.
  - exists "duration_timeout". unfold reaches_threshold.
    apply Z.leb_le in Hn. rewrite Hn. cbn. tauto.
  - exists "body_timeout". rewrite Hb, Hw.
    apply String.eqb_neq in Hne. rewrite Hne. cbn. tauto.
Qed.

Variable env : Env.
Variables (url : string) (method params : value).
Variable extraTags : gmap string value.
Variable expectFn : value -> bool.

(** A received response on which [detectTimeout] reports a timeout is
    handled as a timeout whatever else it carries: while attempts remain
    the call is retried, with one retry sample tagged error_type =
    "timeout"; on the last attempt one failure is recorded, counted in
    the timeout rate, and the call returns undefined. *)
Lemma monolith_response_timeout (attempt : Z) (w : World) (res : Response) :
  let w1 := next_draw (next_draw w) in
  let payload := rpc (VStr (pretty (now w * 1000 + Math_random env (draws w))))
                     method params in
  let ex := http_post env (posts w1) url payload in
  let w2 := advance (took ex) (next_post w1) in
  outcome ex = Responds res ->
  td_isTimeout (detectTimeout (view_of res (now w)) (now w) (PARSED_TIMEOUT_MS cfg) w2) = true ->
  (attempt < MAX_RETRIES cfg ->
     exists tags,
       pass cfg env url method params extraTags expectFn attempt w
       = Again (sleep_ms (RETRY_DELAY_MS cfg) (emit "somnia_retry_count" (Fin 1) tags w2))
       /\ tags !! "error_type" = Some (VStr "timeout"))
  /\ (MAX_RETRIES cfg <= attempt ->
     exists w',
       pass cfg env url method params extraTags expectFn attempt w
       = Return (Normal VUndef) w'
       /\ tally (samples w') = tally_add (MkTally 0 1 1 0 1 0) (tally (samples w))).
Proof.
  intros w1 payload ex w2 Hout Htd. unfold pass. fold w1. fold payload. fold ex. fold w2.
  rewrite Hout. cbn [now next_draw] in *. rewrite Htd. split; intros H.
  - apply Z.ltb_lt in H. rewrite H. unfold retry. eexists. split; [reflexivity|].
    rewrite lookup_insert_ne by discriminate. rewrite lookup_insert_ne by discriminate.
    apply lookup_insert_eq.
  - apply Z.ltb_ge in H. rewrite H. unfold failed. eexists. split; [reflexivity|].
    match goal with
    | |- context [recordFailure cfg ?t ?r ?o ?w0] =>
        destruct (monolith_recordFailure_tally cfg t r o w0) as (n & Ht & Hone & _)
    end.
    rewrite Ht, (Hone eq_refl). reflexivity.
Qed.

(** In particular a response that arrives when at least 95% of the
    configured timeout has elapsed is handled as a timeout, body or not. *)
Lemma monolith_slow_response_is_timeout (w : World) (res : Response) :
  let w1 := next_draw (next_draw w) in
  let payload := rpc (VStr (pretty (now w * 1000 + Math_random env (draws w))))
                     method params in
  let ex := http_post env (posts w1) url payload in
  outcome ex = Responds res ->
  95 * PARSED_TIMEOUT_MS cfg <= 100 * took ex ->
  td_isTimeout (detectTimeout (view_of res (now w)) (now w) (PARSED_TIMEOUT_MS cfg)
                              (advance (took ex) (next_post w1))) = true.
Proof.
  intros w1 payload ex Hout Hslow. apply detectTimeout_signals.
  right; right; right; left. cbn. lia.
Qed.

End MonolithTimeouts.

(* ===================================================================== *)
(** ** The live-connection gauge (lib/websocket-client.js) *)
(* ===================================================================== *)

Lemma gauge_tally (w w' : World) (k : Tally) :
  tally (samples w') = tally_add k (tally (samples w)) -> gauge w' = t_gauge k + gauge w.
Proof. intros H. apply (f_equal t_gauge) in H. exact H. Qed.

Lemma gauge_tally_same (w w' : World) :
  tally (samples w') = tally (samples w) -> gauge w' = gauge w.
Proof. intros H. apply (f_equal t_gauge) in H. exact H. Qed.

Lemma gauge_recordFailure tags reason options w :
  gauge (Metrics.recordFailure tags reason options w) = gauge w.
Proof. rewrite (gauge_tally _ _ _ (recordFailure_tally tags reason options w)). cbn. lia. Qed.

Lemma gauge_recordSuccess tags w : gauge (Metrics.recordSuccess tags w) = gauge w.
Proof. rewrite (gauge_tally _ _ _ (recordSuccess_tally tags w)). cbn. lia. Qed.

Lemma gauge_addRTT ms tags w : gauge (Metrics.addRTT ms tags w) = gauge w.
Proof. apply gauge_tally_same, addRTT_tally. Qed.

Section LibGauge.
Import WebsocketClient.
Variable cfg : RpcClient.Settings.
Variable env : Env.
Variable maxRetries : Z.
Variable reconnect : Z -> World -> bool * Z * World.
Variables (startTime : Z) (reqId : value) (baseTags : gmap string value).

Lemma on_close_balanced g attempt code reason (r : Run) :
  ws_balanced g attempt r -> closed r = false ->
  ws_balanced g attempt (on_close baseTags code reason r)
  /\ closed (on_close baseTags code reason r) = true.
Proof.
  intros (Hd & Ha & Hg) Hc. rewrite Hc in Hg. destruct Hg as [_ Hg].
  unfold on_close, ws_balanced. cbn [diverged retryAttempt closed world].
  refine (conj (conj Hd (conj Ha _)) eq_refl).
  destruct (strict_eq code (VNum 1000)).
  - rewrite gauge_recordSuccess. unfold gauge in *. cbn. lia.
  - rewrite gauge_recordFailure. unfold gauge in *. cbn. lia.
Qed.

Lemma socket_close_balanced g attempt code reason (r : Run) :
  ws_balanced g attempt r ->
  ws_balanced g attempt (socket_close baseTags code reason r)
  /\ closed (socket_close baseTags code reason r) = true.
Proof.
  intros H. unfold socket_close. destruct (closed r) eqn:Hc.
  - split; [exact H | exact Hc].
  - apply on_close_balanced; assumption.
Qed.

Lemma with_world_balanced g attempt f (r : Run) :
  (forall w, gauge (f w) = gauge w) ->
  ws_balanced g attempt r -> ws_balanced g attempt (with_world f r).
Proof.
  intros Hf (Hd & Ha & Hg). unfold with_world, ws_balanced.
  cbn [diverged retryAttempt closed world isConnected].
  split; [exact Hd|]. split; [exact Ha|]. rewrite Hf. exact Hg.
Qed.

Lemma on_message_balanced g attempt text (r : Run) :
  ws_balanced g attempt r ->
  ws_balanced g attempt (on_message env startTime reqId baseTags text r).
Proof.
  intros H. unfold on_message.
  destruct text as [m|response].
  { apply with_world_balanced; [intros; apply gauge_recordFailure | exact H]. }
  destruct (get response "id") as [id|].
  2:{ apply with_world_balanced; [intros; apply gauge_recordFailure | exact H]. }
  destruct (strict_eq id reqId && truthy (default VUndef (get response "error"))).
  { apply socket_close_balanced.
    apply with_world_balanced; [intros; apply gauge_recordFailure | exact H]. }
  set (r1 := if strict_eq id reqId && truthy (default VUndef (get response "result"))
             then _ else r).
  assert (ws_balanced g attempt r1) as H1.
  { subst r1. destruct (strict_eq id reqId && truthy (default VUndef (get response "result"))).
    - apply with_world_balanced; [intros; apply gauge_recordSuccess|].
      destruct H as (Hd & Ha & Hg). split; [exact Hd|]. split; [exact Ha|]. exact Hg.
    - exact H. }
  destruct (strict_eq (default VUndef (get response "method")) (VStr "eth_subscription")
            && truthy (default VUndef (get response "params"))).
  - apply socket_close_balanced.
    apply with_world_balanced; [intros; apply gauge_recordSuccess|].
    apply with_world_balanced; [intros; apply gauge_addRTT | exact H1].
  - exact H1.
Qed.

(** Delivering anything but a transport error keeps the balance; a close
    or a timer event leaves the socket closed. *)
Lemma deliver_balanced g attempt (r : Run) ev :
  is_error ev = false ->
  ws_balanced g attempt r ->
  let r' := deliver cfg env maxRetries reconnect startTime reqId baseTags r ev in
  ws_balanced g attempt r'
  /\ (closed r = true -> closed r' = true)
  /\ (is_close_or_timer ev = true -> closed r' = true).
Proof.
  intros Hev H r'. subst r'. unfold deliver.
  assert (closed r = true \/ closed r = false) as [Hc|Hc] by (destruct (closed r); auto);
    rewrite Hc; cbn [orb].
  { split; [exact H | split; auto]. }
  destruct H as (Hd & Ha & Hg). rewrite Hd.
  assert (forall dt, ws_balanced g attempt (with_world (advance dt) r)) as Hadv.
  { intros dt. apply with_world_balanced; [reflexivity|]. split; [exact Hd|].
    split; [exact Ha|]. rewrite Hc. rewrite Hc in Hg. exact Hg. }
  destruct ev as [dt raw text|dt|dt|dt code reason|dt msg]; try discriminate Hev.
  - split; [apply on_message_balanced, Hadv|]. split; [discriminate | discriminate].
  - split; [apply Hadv|]. split; discriminate.
  - unfold on_timer. cbn [with_world isConnected].
    rewrite Hc in Hg. destruct Hg as [-> _].
    destruct (socket_close_balanced g attempt (VNum 1000) (Some "Timeout reached")
                (with_world (advance dt) r) (Hadv dt)) as [Hb Hcl].
    split; [exact Hb|]. split; [discriminate | intros _; exact Hcl].
  - destruct (on_close_balanced g attempt code reason (with_world (advance dt) r)
                (Hadv dt) Hc) as [Hb Hcl].
    split; [exact Hb|]. split; [discriminate | intros _; exact Hcl].
Qed.

Lemma fold_balanced g attempt events (r : Run) :
  forallb (fun ev => negb (is_error ev)) events = true ->
  ws_balanced g attempt r ->
  let r' := fold_left (deliver cfg env maxRetries reconnect startTime reqId baseTags)
                      events r in
  ws_balanced g attempt r'
  /\ (closed r = true \/ existsb is_close_or_timer events = true -> closed r' = true).
Proof.
  revert r. induction events as [|ev events IH]; intros r Hne H r'; subst r'; cbn [fold_left].
  - split; [exact H|]. intros [Hc|Hc]; [exact Hc | discriminate Hc].
  - cbn [forallb] in Hne. apply andb_prop in Hne as [Hev Hne].
    apply negb_true_iff in Hev.
    destruct (deliver_balanced g attempt r ev Hev H) as (Hb & Hkeep & Hcl).
    destruct (IH _ Hne Hb) as (Hb' & Hcl'). split; [exact Hb'|].
    intros Hc. apply Hcl'. cbn [existsb] in Hc.
    destruct Hc as [Hc|Hc]; [left; auto|].
    apply orb_prop in Hc as [Hc|Hc]; [left; auto | right; exact Hc].
Qed.

End LibGauge.

Section LibWsSub.
Import WebsocketClient.
Variable cfg : RpcClient.Settings.
Variable env : Env.
Variables (wsUrl rpcUrl : string) (method params : value).
Variable options : SubOptions.

Hypothesis lifetimes : forall n u p, one_terminal (ws_connect env n u p).

(** With enough fuel for the retries that remain, an attempt and the
    attempts nested in it end with the gauge where it was. *)
Lemma attemptConnection_balanced (fuel : nat) (attempt : Z) (w : World) :
  Z.max 0 (maxRetries options - attempt) < Z.of_nat fuel ->
  let '(out_of_fuel, attempt', w') :=
    attemptConnection cfg env wsUrl rpcUrl method params options fuel attempt w in
  out_of_fuel = false /\ gauge w' = gauge w /\ attempt <= attempt'.
Proof.
  revert attempt w. induction fuel as [|fuel IH]; intros attempt w Hfuel; [lia|].
  cbn [attemptConnection].
  set (w1 := next_draw (emit _ _ _ (next_socket (next_draw w)))).
  set (startTime := now (next_draw w)).
  set (baseTags := ws_baseTags cfg rpcUrl method _ attempt).
  set (reqId := VNum _).
  set (events := ws_connect env _ wsUrl _).
  set (step := deliver cfg env (maxRetries options)
                 (attemptConnection cfg env wsUrl rpcUrl method params options fuel)
                 startTime reqId baseTags).
  assert (ws_balanced (gauge w) attempt (MkRun true VNull false false attempt w1)) as H0.
  { split; [reflexivity|]. split; [reflexivity|]. cbn [closed isConnected world].
    split; [reflexivity|]. subst w1. unfold gauge. cbn. lia. }
  destruct (lifetimes (sockets (next_draw w)) wsUrl
              (RpcClient.buildRpcRequest reqId method params))
    as [[Hne Hcl]|(pre & dt & msg & Hev & Hne)]; fold events in Hne, Hcl || fold events in Hev.
  - destruct (fold_balanced cfg env (maxRetries options)
                (attemptConnection cfg env wsUrl rpcUrl method params options fuel)
                startTime reqId baseTags (gauge w) attempt events _ Hne H0) as [Hb Hc].
    fold step in Hb, Hc. specialize (Hc (or_intror Hcl)).
    destruct Hb as (Hd & Ha & Hg). rewrite Hc in Hg.
    split; [exact Hd|]. split; [exact Hg | lia].
  - rewrite Hev, fold_left_app. cbn [fold_left].
    destruct (fold_balanced cfg env (maxRetries options)
                (attemptConnection cfg env wsUrl rpcUrl method params options fuel)
                startTime reqId baseTags (gauge w) attempt pre _ Hne H0) as [Hb _].
    fold step in Hb. set (r1 := fold_left step pre _) in *.
    destruct Hb as (Hd & Ha & Hg). subst step. unfold deliver. rewrite Hd.
    destruct (closed r1) eqn:Hc; cbn [orb].
    { split; [exact Hd|]. split; [exact Hg | lia]. }
    destruct Hg as [_ Hg]. unfold on_error.
    cbn [with_world world retryAttempt subscriptionId closed diverged].
    rewrite Ha, Hd.
    set (w2 := Metrics.recordFailure _ _ _ _).
    assert (gauge w2 = gauge w) as Hw2.
    { subst w2. rewrite gauge_recordFailure. unfold gauge in *. cbn. cbn in Hg. lia. }
    destruct (attempt <? maxRetries options) eqn:Hlt.
    + apply Z.ltb_lt in Hlt.
      specialize (IH (attempt + 1)
                     (sleep_ms (RpcClient.RETRY_DELAY_MS cfg)
                               (emit "somnia_retry_count" (Fin 1) baseTags w2))).
      destruct (attemptConnection cfg env wsUrl rpcUrl method params options fuel
                  (attempt + 1) _) as [[d a'] w'].
      destruct IH as (Hd' & Hg' & Ha'); [lia|].
      cbn [diverged retryAttempt world orb]. rewrite Hd'.
      split; [reflexivity|]. split; [|lia].
      rewrite Hg'. unfold gauge in *. cbn. cbn in Hw2. lia.
    + cbn [diverged retryAttempt world]. split; [reflexivity|]. split; [exact Hw2 | lia].
Qed.

End LibWsSub.

(** The live-connection gauge returns to the value it had before the call
    when every socket has one terminal transition: its peer or the idle
    timer closes it, or a transport error is the last thing it delivers.
    [wsSub] of lib/websocket-client.js then returns normally. *)
Lemma lib_wsSub_gauge_returns (cfg : RpcClient.Settings) (env : Env)
    (wsUrl rpcUrl : string) (method params : value)
    (options : WebsocketClient.SubOptions) (w : World) :
  (forall n u p, one_terminal (ws_connect env n u p)) ->
  let res := WebsocketClient.wsSub cfg env wsUrl rpcUrl method params options w in
  fst res = Normal tt /\ gauge (snd res) = gauge w.
Proof.
  intros Hlife res. subst res. unfold WebsocketClient.wsSub.
  pose proof (attemptConnection_balanced cfg env wsUrl rpcUrl method params options Hlife
                (S (Z.to_nat (WebsocketClient.maxRetries options))) 0 w) as H.
  destruct (WebsocketClient.attemptConnection cfg env wsUrl rpcUrl method params options
              (S (Z.to_nat (WebsocketClient.maxRetries options))) 0 w) as [[d a] w'].
  destruct H as (-> & Hg & _); [lia|]. split; [reflexivity | exact Hg].
Qed.

(* ===================================================================== *)
(** ** The sockets of the monolithic script *)
(* ===================================================================== *)

Lemma gauge_monolith_recordFailure cfg tags reason options w :
  gauge (Monolith.recordFailure cfg tags reason options w) = gauge w.
Proof.
  destruct (monolith_recordFailure_tally cfg tags reason options w) as (n & H & _).
  rewrite (gauge_tally _ _ _ H). cbn. lia.
Qed.

Section MonolithGauge.
Import Monolith.
Variable cfg : Settings.
Variable env : Env.
Variables (timeout maxRetries : Z).
Variables (startTime : Z) (reqId : value) (baseTags : gmap string value).

Lemma mono_on_close_balanced g attempt code reason (r : Run) :
  mono_balanced g attempt r -> closed r = false ->
  mono_balanced g attempt (on_close cfg timeout startTime baseTags code reason r)
  /\ closed (on_close cfg timeout startTime baseTags code reason r) = true.
Proof.
  intros (Hd & Ha & Hg) Hc. rewrite Hc in Hg. destruct Hg as (_ & _ & Hg).
  unfold on_close, mono_balanced. cbn [thrown retryCount closed world].
  refine (conj (conj Hd (conj Ha _)) eq_refl).
  match goal with |- context [if ?b then _ else _] => destruct b end.
  - unfold recordSuccess. rewrite gauge_recordSuccess. unfold gauge in *. cbn. lia.
  - rewrite gauge_monolith_recordFailure. unfold gauge in *. cbn. lia.
Qed.

Lemma mono_socket_close_balanced g attempt code reason (r : Run) :
  mono_balanced g attempt r ->
  mono_balanced g attempt (socket_close cfg timeout startTime baseTags code reason r)
  /\ closed (socket_close cfg timeout startTime baseTags code reason r) = true.
Proof.
  intros H. unfold socket_close. destruct (closed r) eqn:Hc.
  - split; [exact H | exact Hc].
  - apply mono_on_close_balanced; assumption.
Qed.

Lemma mono_with_world_balanced g attempt f (r : Run) :
  (forall w, gauge (f w) = gauge w) ->
  mono_balanced g attempt r -> mono_balanced g attempt (with_world f r).
Proof.
  intros Hf (Hd & Ha & Hg). unfold with_world, mono_balanced.
  cbn [thrown retryCount closed world isConnected timerArmed].
  split; [exact Hd|]. split; [exact Ha|]. rewrite Hf. exact Hg.
Qed.

Lemma mono_on_message_balanced g attempt raw text (r : Run) :
  mono_balanced g attempt r ->
  mono_balanced g attempt (on_message cfg env timeout startTime reqId baseTags raw text r).
Proof.
  intros H. unfold on_message.
  destruct text as [m|response].
  { apply mono_with_world_balanced; [intros; apply gauge_monolith_recordFailure | exact H]. }
  destruct (get response "id") as [id|].
  2:{ apply mono_with_world_balanced; [intros; apply gauge_monolith_recordFailure | exact H]. }
  destruct (strict_eq id reqId && truthy (default VUndef (get response "error"))).
  { apply mono_socket_close_balanced.
    apply mono_with_world_balanced; [intros; apply gauge_monolith_recordFailure | exact H]. }
  set (r1 := if strict_eq id reqId && truthy (default VUndef (get response "result"))
             then _ else r).
  assert (mono_balanced g attempt r1) as H1.
  { subst r1. destruct (strict_eq id reqId && truthy (default VUndef (get response "result"))).
    - apply mono_with_world_balanced; [intros; apply gauge_recordSuccess|].
      destruct H as (Hd & Ha & Hg). split; [exact Hd|]. split; [exact Ha|]. exact Hg.
    - exact H. }
  destruct (strict_eq (default VUndef (get response "method")) (VStr "eth_subscription")
            && truthy (default VUndef (get response "params"))).
  - apply mono_socket_close_balanced.
    apply mono_with_world_balanced; [intros; apply gauge_recordSuccess|].
    apply mono_with_world_balanced; [intros; apply gauge_addRTT | exact H1].
  - exact H1.
Qed.

Lemma mono_deliver_balanced g attempt (r : Run) ev :
  is_error ev = false ->
  mono_balanced g attempt r ->
  let r' := deliver cfg env timeout maxRetries startTime reqId baseTags r ev in
  mono_balanced g attempt r'
  /\ (closed r = true -> closed r' = true)
  /\ (is_close_or_timer ev = true -> closed r' = true).
Proof.
  intros Hev H r'. subst r'. unfold deliver.
  assert (closed r = true \/ closed r = false) as [Hc|Hc] by (destruct (closed r); auto);
    rewrite Hc; cbn [orb].
  { split; [exact H | split; auto]. }
  destruct H as (Hd & Ha & Hg). rewrite Hd. cbn [bool_decide decide_rel].
  change (bool_decide (is_Some (@None string))) with false. cbv iota.
  assert (forall dt, mono_balanced g attempt (with_world (advance dt) r)) as Hadv.
  { intros dt. apply mono_with_world_balanced; [reflexivity|]. split; [exact Hd|].
    split; [exact Ha|]. rewrite Hc. rewrite Hc in Hg. exact Hg. }
  rewrite Hc in Hg. destruct Hg as (Hconn & Harm & Hg).
  destruct ev as [dt raw text|dt|dt|dt code reason|dt msg]; try discriminate Hev.
  - split; [apply mono_on_message_balanced, Hadv|]. split; discriminate.
  - split; [apply Hadv|]. split; discriminate.
  - rewrite Harm. unfold on_timer. cbn [with_world isConnected]. rewrite Hconn.
    match goal with
    | |- context [socket_close cfg timeout startTime baseTags ?c ?rs ?r0] =>
        destruct (mono_socket_close_balanced g attempt c rs r0) as [Hb Hcl]
    end.
    { do 3 (apply mono_with_world_balanced; [reflexivity|]). apply Hadv. }
    split; [exact Hb|]. split; [discriminate | intros _; exact Hcl].
  - destruct (mono_on_close_balanced g attempt code reason (with_world (advance dt) r)
                (Hadv dt) Hc) as [Hb Hcl].
    split; [exact Hb|]. split; [discriminate | intros _; exact Hcl].
Qed.

Lemma mono_fold_balanced g attempt events (r : Run) :
  forallb (fun ev => negb (is_error ev)) events = true ->
  mono_balanced g attempt r ->
  let r' := fold_left (deliver cfg env timeout maxRetries startTime reqId baseTags)
                      events r in
  mono_balanced g attempt r'
  /\ (closed r = true \/ existsb is_close_or_timer events = true -> closed r' = true).
Proof.
  revert r. induction events as [|ev events IH]; intros r Hne H r'; subst r'; cbn [fold_left].
  - split; [exact H|]. intros [Hc|Hc]; [exact Hc | discriminate Hc].
  - cbn [forallb] in Hne. apply andb_prop in Hne as [Hev Hne].
    apply negb_true_iff in Hev.
    destruct (mono_deliver_balanced g attempt r ev Hev H) as (Hb & Hkeep & Hcl).
    destruct (IH _ Hne Hb) as (Hb' & Hcl'). split; [exact Hb'|].
    intros Hc. apply Hcl'. cbn [existsb] in Hc.
    destruct Hc as [Hc|Hc]; [left; auto|].
    apply orb_prop in Hc as [Hc|Hc]; [left; auto | right; exact Hc].
Qed.

End MonolithGauge.

(** The same for [wsSub] of the monolithic script, which may end by
    throwing (see [on_error]). *)
Lemma monolith_wsSub_gauge_returns (cfg : Monolith.Settings) (env : Env)
    (wsUrl rpcUrl : string) (method params : value)
    (options : Monolith.SubOptions) (w : World) :
  (forall n u p, one_terminal (ws_connect env n u p)) ->
  gauge (snd (Monolith.wsSub cfg env wsUrl rpcUrl method params options w)) = gauge w.
Proof.
  intros Hlife. unfold Monolith.wsSub. cbn [snd]. unfold Monolith.attemptConnection.
  set (w1 := next_draw (emit _ _ _ (next_socket (next_draw w)))).
  set (startTime := now (next_draw w)).
  set (baseTags := Monolith.ws_baseTags cfg rpcUrl method _ 0).
  set (reqId := VStr _).
  set (events := ws_connect env _ wsUrl _).
  set (step := Monolith.deliver cfg env (Monolith.timeout cfg options)
                 (Monolith.maxRetries options) startTime reqId baseTags).
  assert (mono_balanced (gauge w) 0 (Monolith.MkRun true VNull false true None 0 w1)) as H0.
  { split; [reflexivity|]. split; [reflexivity|].
    cbn [Monolith.closed Monolith.isConnected Monolith.timerArmed Monolith.world].
    split; [reflexivity|]. split; [reflexivity|]. subst w1. unfold gauge. cbn. lia. }
  destruct (Hlife (sockets (next_draw w)) wsUrl (Monolith.rpc reqId method params))
    as [[Hne Hcl]|(pre & dt & msg & Hev & Hne)]; fold events in Hne, Hcl || fold events in Hev.
  - destruct (mono_fold_balanced cfg env (Monolith.timeout cfg options)
                (Monolith.maxRetries options) startTime reqId baseTags (gauge w) 0 events _
                Hne H0) as [Hb Hc].
    fold step in Hb, Hc. specialize (Hc (or_intror Hcl)).
    destruct Hb as (_ & _ & Hg). rewrite Hc in Hg. exact Hg.
  - rewrite Hev, fold_left_app. cbn [fold_left].
    destruct (mono_fold_balanced cfg env (Monolith.timeout cfg options)
                (Monolith.maxRetries options) startTime reqId baseTags (gauge w) 0 pre _
                Hne H0) as [Hb _].
    fold step in Hb. set (r1 := fold_left step pre _) in *.
    destruct Hb as (Hd & Ha & Hg). subst step. unfold Monolith.deliver. rewrite Hd.
    change (bool_decide (is_Some (@None string))) with false.
    destruct (Monolith.closed r1) eqn:Hc; cbn [orb].
    { exact Hg. }
    destruct Hg as (_ & _ & Hg). unfold Monolith.on_error.
    cbn [Monolith.with_world Monolith.world Monolith.retryCount].
    set (w2 := Monolith.recordFailure _ _ _ _ _).
    assert (gauge w2 = gauge w) as Hw2.
    { subst w2. rewrite gauge_monolith_recordFailure. unfold gauge in *. cbn. cbn in Hg. lia. }
    destruct (Monolith.retryCount r1 <? Monolith.maxRetries options); exact Hw2.
Qed.

(* ===================================================================== *)
(** ** The idle timeout of a subscription *)
(* ===================================================================== *)

(** C6, in the modular client.  A socket that opens and then delivers
    nothing until the idle timer fires is closed by [wsSub] of
    lib/websocket-client.js with code 1000, and the close handler records
    that as a success: one success sample, no failure, no timeout. *)
Lemma lib_idle_timeout_recorded_as_success :
  let res := WebsocketClient.wsSub Fixtures.lib_cfg Fixtures.env_silent_socket
               "ws://node" "http://node" (VStr "eth_subscribe") (VArr [VStr "newHeads"])
               (WebsocketClient.MkSubOptions None None) Fixtures.w0 in
  fst res = Normal tt
  /\ tally (samples (snd res)) = MkTally 1 0 0 0 0 0
  /\ map (fun s => (metric s, labels s !! "stage", labels s !! "close_code"))
         (samples (snd res))
     = [ ("somnia_method_success", Some (VStr "connection_closed"), Some (VNum 1000));
         ("somnia_success_count", Some (VStr "connection_closed"), Some (VNum 1000));
         ("somnia_active_ws_connections", None, None);
         ("somnia_active_ws_connections", None, None) ].
Proof. vm_compute. repeat split. Qed.

Section MonolithIdle.
Import Monolith.
Variable cfg : Settings.
Variable env : Env.
Variables (timeout maxRetries : Z).
Variables (startTime : Z) (reqId : value) (baseTags : gmap string value).

Lemma fold_closed events (r : Run) :
  closed r = true ->
    fold_left (deliver cfg env timeout maxRetries startTime reqId baseTags) events r = r.
Proof.
  intros Hc. induction events as [|ev events IH]; [reflexivity|].
  cbn [fold_left].
  assert (deliver cfg env timeout maxRetries startTime reqId baseTags r ev = r) as ->
    by (unfold deliver; rewrite Hc; reflexivity).
    exact IH.
Qed.

(** ['open'] events only let time pass. *)
Lemma fold_opens opens (r : Run) :
  forallb is_open opens = true ->
  closed r = false -> thrown r = None ->
  let r' := fold_left (deliver cfg env timeout maxRetries startTime reqId baseTags) opens r in
  isConnected r' = isConnected r /\ closed r' = false /\ timerArmed r' = timerArmed r
  /\ thrown r' = None /\ retryCount r' = retryCount r
  /\ samples (world r') = samples (world r).
Proof.
  revert r. induction opens as [|ev opens IH]; intros r Hop Hc Ht r'; subst r'.
  - cbn [fold_left]. repeat split; try reflexivity; assumption.
  - cbn [forallb] in Hop. apply andb_prop in Hop as [Hev Hop].
    destruct ev; try discriminate Hev. cbn [fold_left].
    assert (deliver cfg env timeout maxRetries startTime reqId baseTags r (EvOpen after)
      = with_world (advance after) r) as ->
      by (unfold deliver; rewrite Hc, Ht; reflexivity).
    destruct (IH (with_world (advance after) r) Hop Hc Ht) as (H1 & H2 & H3 & H4 & H5 & H6).
    repeat split; assumption.
Qed.

(** The timer firing on a connected socket: the timer callback counts one
    timeout and closes the socket; the close handler then records the
    failure, itself counted in the timeout rate. *)
Lemma timer_fires (r : Run) dt :
  closed r = false -> thrown r = None -> timerArmed r = true -> isConnected r = true ->
  let r' := deliver cfg env timeout maxRetries startTime reqId baseTags r (EvTimer dt) in
  closed r' = true /\ thrown r' = None
  /\ tally (samples (world r'))
     = tally_add (MkTally 0 1 1 0 2 (-1)) (tally (samples (world r))).
Proof.
  intros Hc Ht Ha Hi r'. subst r'. unfold deliver. rewrite Hc, Ht, Ha. cbn [orb].
  change (bool_decide (is_Some (@None string))) with false. cbv iota.
  unfold on_timer. cbn [with_world isConnected]. rewrite Hi.
  unfold socket_close. cbn [with_world closed]. rewrite Hc.
  unfold on_close. cbn [with_world closed thrown world].
  change (String.eqb "Connection timeout" "Connection timeout") with true.
  rewrite orb_true_r. cbn [negb andb]. rewrite andb_false_r.
  split; [reflexivity|]. split; [exact Ht|].
  match goal with
  | |- context [recordFailure cfg ?t ?rs ?o ?w0] =>
      destruct (monolith_recordFailure_tally cfg t rs o w0) as (n & Hn & Hone & _)
  end.
  rewrite Hn, (Hone eq_refl). tally_cases.
Qed.

End MonolithIdle.

(** C6, in the monolithic script.  A socket that delivers nothing but
    ['open'] until the idle timer fires is closed by [wsSub] and recorded as
    one failure (one sample of the error counter and of the error rate), not
    as a success; the gauge returns to its value.  The timeout rate receives
    two samples for it, one from the timer callback and one from
    [recordFailure]. *)
Lemma monolith_idle_timeout_is_failure (cfg : Monolith.Settings) (env : Env)
    (wsUrl rpcUrl : string) (method params : value) (options : Monolith.SubOptions)
    (w : World) (opens rest : list SocketEvent) (dt : Z) :
  (forall n u p, ws_connect env n u p = (opens ++ EvTimer dt :: rest)%list) ->
  forallb is_open opens = true ->
  let res := Monolith.wsSub cfg env wsUrl rpcUrl method params options w in
  fst res = Normal tt
  /\ tally (samples (snd res)) = tally_add (MkTally 0 1 1 0 2 0) (tally (samples w)).
Proof.
  intros Hev Hopens res. subst res. unfold Monolith.wsSub, Monolith.attemptConnection.
  rewrite Hev, fold_left_app. cbn [fold_left].
  set (r0 := Monolith.MkRun true VNull false true None 0 _).
  match goal with
  | |- context [fold_left (Monolith.deliver cfg env ?tmo ?mr ?st ?rid ?bt) opens r0] =>
      destruct (fold_opens cfg env tmo mr st rid bt opens r0 Hopens eq_refl eq_refl)
        as (Hi & Hc & Ha & Ht & _ & Hs);
      set (r1 := fold_left (Monolith.deliver cfg env tmo mr st rid bt) opens r0) in *;
      destruct (timer_fires cfg env tmo mr st rid bt r1 dt Hc Ht Ha Hi) as (Hc2 & Ht2 & Hta);
      rewrite (fold_closed cfg env tmo mr st rid bt rest _ Hc2)
  end.
  cbn [fst snd]. rewrite Ht2. split; [reflexivity|].
  rewrite Hta. unfold tally at 2. rewrite Hs. subst r0. cbn [Monolith.world].
  tally_cases.
Qed.

(* ===================================================================== *)
(** ** Nonces (lib/wallet-manager.js) *)
(* ===================================================================== *)

Lemma consecutive_from_app (b : Z) (l1 l2 : list num) :
  consecutive_from b l1 ->
  consecutive_from (b + Z.of_nat (length l1)) l2 ->
  consecutive_from b (l1 ++ l2).
Proof.
  revert b. induction l1 as [|x l1 IH]; intros b H1 H2; cbn [app].
  - cbn [length] in H2. replace (b + Z.of_nat 0) with b in H2 by lia. exact H2.
  - destruct H1 as [Hx H1]. split; [exact Hx|]. apply IH; [exact H1|].
    cbn [length] in H2. replace (b + 1 + Z.of_nat (length l1))
      with (b + Z.of_nat (S (length l1))) by lia. exact H2.
Qed.

Lemma nonces_signed_log (t : TxParams) (w : World) :
  nonces_signed (log_signed t w) = (nonces_signed w ++ [tx_nonce t])%list.
Proof. unfold nonces_signed. cbn [log_signed signed rev]. apply map_app. Qed.

Section LibJsonCallFrame.
Import RpcClient.
Variable cfg : Settings.
Variable env : Env.
Variables (url : string) (method params : value).
Variable extraTags : gmap string value.
Variable expectFn : value -> bool.

(** A pass makes one POST and signs nothing. *)
Lemma pass_frame attempt w :
  match pass cfg env url method params extraTags expectFn attempt w with
  | Again w' | Return _ w' => signed w' = signed w /\ posts w' = S (posts w)
  end.
Proof.
  unfold pass, retry_or_fail, after_parse, failed.
  repeat (cbv beta iota zeta;
          match goal with
          | |- context [match ?x with _ => _ end] =>
              lazymatch x with
              | context [match _ with _ => _ end] => fail
              | _ => destruct x
              end
          end);
    cbv beta iota zeta;
    repeat match goal with
           | |- context [Metrics.recordFailure ?t ?r ?o ?w0] =>
               destruct (recordFailure_only_samples t r o w0) as (_ & -> & _ & _ & _ & ->)
           | |- context [Metrics.updateStateMetrics ?m ?r ?t ?w0] =>
               destruct (updateStateMetrics_only_samples m r t w0) as (_ & -> & _ & _ & _ & ->)
           | |- context [Metrics.addRTT ?m ?t ?w0] =>
               destruct (addRTT_only_samples m t w0) as (_ & -> & _ & _ & _ & ->)
           | |- context [Metrics.recordSuccess ?t ?w0] =>
               destruct (recordSuccess_only_samples t w0) as (_ & -> & _ & _ & _ & ->)
           end;
    split; reflexivity.
Qed.

Lemma loop_frame fuel attempt w :
  signed (snd (jsonCall_loop cfg env url method params extraTags expectFn fuel attempt w))
  = signed w
  /\ (posts w <= posts (snd (jsonCall_loop cfg env url method params extraTags expectFn
                               fuel attempt w)))%nat.
Proof.
  revert attempt w. induction fuel as [|fuel IH]; intros attempt w.
  - split; [reflexivity | cbn; lia].
  - rewrite loop_S. pose proof (pass_frame attempt w) as H.
    destruct (pass cfg env url method params extraTags expectFn attempt w) as [w'|c w'];
      destruct H as [Hs Hp].
    + destruct (IH (attempt + 1) w') as [Hs' Hp']. rewrite Hs'. split; [exact Hs | lia].
    + cbn [snd]. split; [exact Hs | lia].
Qed.

(** [jsonCall] signs nothing, and makes at least one POST. *)
Lemma jsonCall_frame attempt w :
  signed (snd (jsonCall cfg env url method params extraTags expectFn attempt w)) = signed w
  /\ (posts w < posts (snd (jsonCall cfg env url method params extraTags expectFn attempt w)))%nat.
Proof.
  unfold jsonCall. rewrite loop_S. pose proof (pass_frame attempt w) as H.
  destruct (pass cfg env url method params extraTags expectFn attempt w) as [w'|c w'];
    destruct H as [Hs Hp].
  - destruct (loop_frame (Z.to_nat (MAX_RETRIES cfg - attempt)) (attempt + 1) w')
      as [Hs' Hp']. rewrite Hs'. split; [exact Hs | lia].
  - cbn [snd]. split; [exact Hs | lia].
Qed.

End LibJsonCallFrame.

Section Funding.
Import WalletManager.
Variable cfg : RpcClient.Settings.
Variable chain : ChainConfig.
Variable env : Env.
Variables (fundUrl : string) (basePrivKey : value).
Variables (b : Z) (gasPrice : num).

Lemma call_frame url method params tags w :
  signed (snd (call cfg env url method params tags w)) = signed w
  /\ (posts w < posts (snd (call cfg env url method params tags w)))%nat
  /\ fst (call cfg env url method params tags w) <> Diverges.
Proof.
  unfold call. destruct (jsonCall_frame cfg env url (VStr method) (VArr params) tags
                           (fun _ => true) 0 w) as [Hs Hp].
  split; [exact Hs|]. split; [exact Hp|]. apply jsonCall_terminates.
Qed.

(** The callback signs one transaction, with nonce [b + i + batchIndex]. *)
Lemma fund_one_nonce i k wl w :
  let res := fund_one cfg chain env fundUrl basePrivKey (Fin b) gasPrice i k wl w in
  nonces_signed (snd res) = (nonces_signed w ++ [Fin (b + i + k)])%list
  /\ fst res <> Diverges.
Proof.
  intros res. subst res. unfold fund_one, sign. cbn [num_add].
  destruct (signLegacyTx env _ basePrivKey) as [raw|].
  - match goal with
    | |- context [call cfg env ?u ?m ?p ?t ?w0] =>
        pose proof (call_frame u m p t w0) as (Hs & _ & Hd);
        destruct (call cfg env u m p t w0) as [[txHash|e|] w']
    end; cbn [fst snd] in *.
    + split; [|discriminate]. unfold nonces_signed in *. rewrite Hs. cbn. apply map_app.
    + split; [|discriminate]. unfold nonces_signed in *. rewrite Hs. cbn. apply map_app.
    + contradiction.
  - cbn [fst snd]. split; [|discriminate]. apply nonces_signed_log.
Qed.

Lemma for_each_nonces i k batch w :
  let res := for_each (fund_one cfg chain env fundUrl basePrivKey (Fin b) gasPrice i) k batch w in
  exists added,
    nonces_signed (snd res) = (nonces_signed w ++ added)%list
    /\ consecutive_from (b + i + k) added
    /\ (length added <= length batch)%nat
    /\ fst res <> Diverges
    /\ (forall batch', fst res = Normal batch' ->
          length added = length batch /\ length batch' = length batch).
Proof.
  revert k w. induction batch as [|wl batch IH]; intros k w res; subst res; cbn [for_each].
  - exists []. cbn [fst snd]. rewrite app_nil_r.
    split; [reflexivity|]. split; [exact I|]. split; [reflexivity|].
    split; [discriminate|]. intros batch' H. injection H as <-. split; reflexivity.
  - pose proof (fund_one_nonce i k wl w) as [Hn Hd].
    destruct (fund_one cfg chain env fundUrl basePrivKey (Fin b) gasPrice i k wl w)
      as [[wl'|e|] w1]; cbn [fst snd] in *.
    + specialize (IH (k + 1) w1).
      destruct (for_each (fund_one cfg chain env fundUrl basePrivKey (Fin b) gasPrice i)
        (k + 1) batch w1) as [[rest'|e|] w2];
        cbn [fst snd] in *; destruct IH as (added & Ha & Hc & Hl & Hdv & Hnorm).
      * exists (Fin (b + i + k) :: added). rewrite Ha, Hn, <- app_assoc.
        split; [reflexivity|]. split.
        { split; [reflexivity|]. replace (b + i + k + 1) with (b + i + (k + 1)) by lia.
          exact Hc. }
        split; [cbn; lia|]. split; [discriminate|].
        intros batch' H. injection H as <-. destruct (Hnorm _ eq_refl) as [H1 H2].
        cbn [length]. split; congruence.
      * exists (Fin (b + i + k) :: added). rewrite Ha, Hn, <- app_assoc.
        split; [reflexivity|]. split.
        { split; [reflexivity|]. replace (b + i + k + 1) with (b + i + (k + 1)) by lia.
          exact Hc. }
        split; [cbn; lia|]. split; [discriminate|]. intros batch' H. discriminate H.
      * contradiction.
    + exists [Fin (b + i + k)]. split; [exact Hn|]. split; [cbn; auto|].
      split; [cbn; lia|]. split; [discriminate|]. intros batch' H. discriminate H.
    + contradiction.
Qed.

Hypothesis positive_batch : 0 < batchSize chain.

Lemma batches_nonces (fuel : nat) i wallets w :
  0 <= i ->
  Z.max 0 (Z.of_nat (length wallets) - i) < Z.of_nat fuel ->
  let res := batches chain fuel (fund_one cfg chain env fundUrl basePrivKey (Fin b) gasPrice)
    i wallets w in
  exists added,
    nonces_signed (snd res) = (nonces_signed w ++ added)%list
    /\ consecutive_from (b + i) added
    /\ Z.of_nat (length added) <= Z.max 0 (Z.of_nat (length wallets) - i)
    /\ fst res <> Diverges
    /\ (forall wallets', fst res = Normal wallets' ->
          Z.of_nat (length added) = Z.max 0 (Z.of_nat (length wallets) - i)).
Proof.
  revert i wallets w. induction fuel as [|fuel IH]; intros i wallets w Hi Hfuel res;
    subst res; [lia|].
  cbn [batches]. set (n := Z.of_nat (length wallets)) in *.
  destruct (i <? n) eqn:Hlt.
  2:{ apply Z.ltb_ge in Hlt. exists []. cbn [fst snd]. rewrite app_nil_r.
      split; [reflexivity|]. split; [exact I|]. split; [cbn; lia|].
      split; [discriminate|]. intros ws _. cbn. lia. }
  apply Z.ltb_lt in Hlt.
  assert ((i <? 0) = false) as Hneg by (apply Z.ltb_ge; lia). rewrite Hneg.
  set (batch := js_slice i (i + batchSize chain) wallets).
  assert (Z.of_nat (length batch) = Z.min (i + batchSize chain) n - i) as Hlen.
  { subst batch. unfold js_slice. rewrite Hneg.
    assert ((i + batchSize chain <? 0) = false) as -> by (apply Z.ltb_ge; lia).
    fold n. rewrite length_take, length_drop. lia. }
  destruct (for_each_nonces i 0 batch w) as (added1 & Ha1 & Hc1 & Hl1 & Hd1 & Hn1).
  destruct (for_each (fund_one cfg chain env fundUrl basePrivKey (Fin b) gasPrice i) 0 batch w)
    as [[batch'|e|] w1]; cbn [fst snd] in *.
  - destruct (Hn1 _ eq_refl) as [Hadd Hb'].
    set (wallets' := (take (Z.to_nat (Z.min i n)) wallets ++ batch'
                        ++ drop (Z.to_nat (Z.min i n) + length batch') wallets)%list).
    assert (length wallets' = length wallets) as Hw'.
    { subst wallets'. rewrite !length_app, length_take, length_drop. lia. }
    set (w2 := if i + batchSize chain <? n then sleep_ms 100 w1 else w1).
    assert (nonces_signed w2 = nonces_signed w1) as Hw2
      by (subst w2; destruct (i + batchSize chain <? n); reflexivity).
    destruct (IH (i + batchSize chain) wallets' w2) as (added2 & Ha2 & Hc2 & Hl2 & Hd2 & Hn2);
      [lia | rewrite Hw'; fold n; lia |].
    rewrite Hw' in Hl2, Hn2. fold n in Hl2, Hn2.
    exists (added1 ++ added2)%list. rewrite Ha2, Hw2, Ha1, <- app_assoc.
    split; [reflexivity|]. split.
    { apply consecutive_from_app.
      - replace (b + i) with (b + i + 0) by lia. exact Hc1.
      - destruct (Z.lt_ge_cases (i + batchSize chain) n) as [Hmore|Hlast].
        + replace (b + i + Z.of_nat (length added1)) with (b + (i + batchSize chain)) by lia.
          exact Hc2.
        + assert (added2 = []) as -> by (destruct added2; [reflexivity | cbn in Hl2; lia]).
          exact I. }
    split; [rewrite length_app; lia|]. split; [exact Hd2|].
    intros ws Hres. rewrite length_app. specialize (Hn2 _ Hres). lia.
  - exists added1. split; [exact Ha1|]. split.
    { replace (b + i) with (b + i + 0) by lia. exact Hc1. }
    split; [lia|]. split; [discriminate|]. intros ws H. discriminate H.
  - contradiction.
Qed.

End Funding.




(* ===================================================================== *)
(** ** A transport error followed by a close *)
(* ===================================================================== *)

(** C5, in the modular client.  The first socket reports a transport error
    and is then closed; the error handler and the close handler both send
    -1 to the gauge.  After [wsSub] has returned, two sockets have been
    opened and three decrements sent: the gauge is one below its value
    before the call. *)
Lemma lib_error_then_close_decrements_twice :
  let res := WebsocketClient.wsSub Fixtures.lib_cfg Fixtures.env_error_then_close
               "ws://node" "http://node" (VStr "eth_subscribe") (VArr [VStr "newHeads"])
               (WebsocketClient.MkSubOptions None None) Fixtures.w0 in
  fst res = Normal tt
  /\ sockets (snd res) = 2%nat
  /\ gauge Fixtures.w0 = 0
  /\ gauge (snd res) = -1
  /\ map amount (List.filter (fun s => String.eqb (metric s) "somnia_active_ws_connections")
                             (rev (samples (snd res))))
     = [Fin 1; Fin (-1); Fin 1; Fin (-1); Fin (-1)].
Proof. vm_compute. repeat split. Qed.

(* ===================================================================== *)
(** ** Failures that are thrown *)
(* ===================================================================== *)

(** C8, at the JSON document [null].  A 200 answer of content type
    application/json whose body is [null] passes the HTTP checks and parses;
    the structural checks then read a member of [null].  [jsonCall] throws,
    in the modular client and in the monolithic script, and records neither
    a success nor a failure. *)
Lemma jsonCall_null_document_throws :
  let lib := RpcClient.jsonCall Fixtures.lib_cfg Fixtures.env_null "http://node"
               (VStr "eth_blockNumber") (VArr []) ∅ (fun _ => true) 0 Fixtures.w0 in
  let mono := Monolith.jsonCall Fixtures.mono_cfg Fixtures.env_null "http://node"
                (VStr "eth_blockNumber") (VArr []) ∅ (fun _ => true) 0 Fixtures.w0 in
  (fst lib = Throws "TypeError" /\ samples (snd lib) = [] /\ posts (snd lib) = 1%nat)
  /\ (fst mono = Throws "TypeError" /\ samples (snd mono) = [] /\ posts (snd mono) = 1%nat).
Proof. vm_compute. repeat split. Qed.

(** The check made when the script is loaded throws exactly when a write
    scenario is selected and the private key or the wallet address is
    missing, or the scenario is S12_SendRawTxERC20 and the token address is
    missing. *)
Lemma validate_write_config_throws (scenario base_priv base_addr erc20_addr : string) :
  (exists e, Monolith.validate_write_config scenario base_priv base_addr erc20_addr = Throws e)
  <-> (scenario = "S11_SendRawTxSmall" \/ scenario = "S12_SendRawTxERC20")
      /\ (base_priv = "" \/ base_addr = ""
          \/ (scenario = "S12_SendRawTxERC20" /\ erc20_addr = "")).
Proof.
  unfold Monolith.validate_write_config, Monolith.string_in, Monolith.WRITE_SCENARIOS.
  cbn [existsb].
  destruct (String.eqb_spec scenario "S11_SendRawTxSmall") as [H11|H11];
    destruct (String.eqb_spec scenario "S12_SendRawTxERC20") as [H12|H12];
    destruct (String.eqb_spec base_priv "") as [Hp|Hp];
    destruct (String.eqb_spec base_addr "") as [Ha|Ha];
    destruct (String.eqb_spec erc20_addr "") as [He|He];
    cbn [orb andb]; split;
    try (intros [e H]; discriminate H);
    try (intros _; eauto 6; fail);
    try (intros [[?|?] [?|[?|[? ?]]]]; congruence);
    try (intros _; split; [auto | tauto]).
Qed.

(* ===================================================================== *)
(** ** Every call path of jsonCall (somnia_rpc_perf.js) *)
(* ===================================================================== *)

Section MonolithEveryPath.
Import Monolith.
Variable cfg : Settings.
Variable env : Env.
Variables (url : string) (method params : value).
Variable extraTags : gmap string value.
Variable expectFn : value -> bool.

Lemma mono_loop_S fuel attempt w :
  jsonCall_loop cfg env url method params extraTags expectFn (S fuel) attempt w
  = match pass cfg env url method params extraTags expectFn attempt w with
    | Again w' => jsonCall_loop cfg env url method params extraTags expectFn fuel
                                (attempt + 1) w'
    | Return c w' => (c, w')
    end.
Proof. reflexivity. Qed.

Lemma mono_failed_one_record tags reason options (w w0 : World) :
  tally (samples w) = tally (samples w0) ->
  exists w', failed cfg tags reason options w = Return (Normal VUndef) w'
             /\ record_set 0 (Normal VUndef) (samples w0) (samples w').
Proof.
  intros Hw. eexists. split; [reflexivity|].
  destruct (monolith_recordFailure_tally cfg tags reason options w) as (t & Ht & _).
  exists VUndef, 0%nat, 1%nat, t.
  split; [reflexivity|]. rewrite Ht, Hw. split; [reflexivity|].
  right. repeat split.
Qed.

Lemma mono_after_parse_one_record attempt reqId startTime baseTags res v (w w0 : World) :
  v <> VNull -> v <> VUndef ->
  tally (samples w) = tally (samples w0) ->
  exists c w', after_parse cfg method expectFn attempt reqId startTime baseTags res v w
               = Return c w'
               /\ record_set 0 c (samples w0) (samples w').
Proof.
  intros Hn Hu Hw. unfold after_parse.
  destruct (check v (RpcClient.structureChecks reqId)) as [[|]|] eqn:Hs.
  - destruct (truthy (default VUndef (get v "error"))).
    + destruct (strict_eq method (VStr "eth_estimateGas")).
      * eexists _, _. split; [reflexivity|].
        eexists _, 1%nat, 0%nat, 0%nat. split; [reflexivity|].
        unfold addRTT, recordSuccess. rewrite addRTT_tally, recordSuccess_tally, Hw.
        split; [reflexivity|]. left. repeat split.
      * match goal with
        | |- context [failed cfg ?t ?r ?o w] =>
            destruct (mono_failed_one_record t r o w w0 Hw) as (w' & -> & H)
        end. eauto.
    + destruct (check v (RpcClient.resultChecks expectFn)) as [[|]|] eqn:Hr.
      * eexists _, _. split; [reflexivity|].
        eexists _, 1%nat, 0%nat, 0%nat. split; [reflexivity|]. split; [|left; repeat split].
        unfold addRTT, recordSuccess.
        destruct (strict_eq method (VStr "eth_blockNumber")
                  && truthy (default VUndef (get v "result"))),
          (strict_eq method (VStr "eth_gasPrice")
           && truthy (default VUndef (get v "result")));
          repeat rewrite tally_emit; rewrite addRTT_tally, recordSuccess_tally, Hw;
          unfold tally_add; cbn; f_equal; lia.
      * match goal with
        | |- context [failed cfg ?t ?r ?o w] =>
            destruct (mono_failed_one_record t r o w w0 Hw) as (w' & -> & H)
        end. eauto.
      * apply checks_throw_only_on_null with (reqId := reqId) (f := expectFn) in Hr;
          [tauto | right; reflexivity].
  - match goal with
    | |- context [failed cfg ?t ?r ?o w] =>
        destruct (mono_failed_one_record t r o w w0 Hw) as (w' & -> & H)
    end. eauto.
  - apply checks_throw_only_on_null with (reqId := reqId) (f := expectFn) in Hs;
      [tauto | left; reflexivity].
Qed.

(** A pass asks for another one only while attempts remain. *)
Lemma mono_pass_again attempt w w' :
  pass cfg env url method params extraTags expectFn attempt w = Again w' ->
  attempt < MAX_RETRIES cfg.
Proof.
  unfold pass, retry, after_parse, failed.
  repeat (cbv beta iota zeta;
          match goal with
          | |- context [match ?x with _ => _ end] =>
              lazymatch x with
              | context [match _ with _ => _ end] => fail
              | _ => destruct x eqn:?
              end
          end); try discriminate; intros _; lia.
Qed.

(** A pass never ends in [Diverges]. *)
Lemma mono_pass_returns attempt w c w' :
  pass cfg env url method params extraTags expectFn attempt w = Return c w' ->
  c <> Diverges.
Proof.
  unfold pass, retry, after_parse, failed.
  repeat (cbv beta iota zeta;
          match goal with
          | |- context [match ?x with _ => _ end] =>
              lazymatch x with
              | context [match _ with _ => _ end] => fail
              | _ => destruct x eqn:?
              end
          end); try discriminate; intros H; injection H as <- _; discriminate.
Qed.

(** The fuel [jsonCall] starts with is enough. *)
Lemma monolith_jsonCall_terminates attempt w :
  fst (jsonCall cfg env url method params extraTags expectFn attempt w) <> Diverges.
Proof.
  unfold jsonCall.
  assert (forall (k : nat) attempt w,
             MAX_RETRIES cfg - attempt <= Z.of_nat k ->
             fst (jsonCall_loop cfg env url method params extraTags expectFn (S k) attempt w)
             <> Diverges) as Hloop.
  { clear attempt w. induction k as [|k IH]; intros attempt w Hk; rewrite mono_loop_S;
      destruct (pass cfg env url method params extraTags expectFn attempt w)
        as [w'|c w'] eqn:Hp.
    - apply mono_pass_again in Hp. lia.
    - cbn [fst]. eapply mono_pass_returns, Hp.
    - apply IH. lia.
    - cbn [fst]. eapply mono_pass_returns, Hp. }
  apply Hloop. lia.
Qed.

Hypothesis no_null : no_null_document env.

Lemma mono_pass_one_record attempt w :
  (exists w', pass cfg env url method params extraTags expectFn attempt w = Again w'
              /\ tally (samples w') = tally_add (MkTally 0 0 0 1 0 0) (tally (samples w)))
  \/ (exists c w', pass cfg env url method params extraTags expectFn attempt w = Return c w'
                   /\ record_set 0 c (samples w) (samples w')).
Proof.
  unfold pass.
  set (w1 := next_draw (next_draw w)).
  set (reqId := VStr _). set (payload := rpc _ _ _).
  set (ex := http_post env (posts w1) url payload).
  set (w2 := advance (took ex) (next_post w1)).
  assert (tally (samples w2) = tally (samples w)) as Hw by reflexivity.
  pose proof (no_null (posts w1) url payload) as Hnn. fold ex in Hnn.
  destruct (outcome ex) as [e|res].
  - destruct (attempt <? MAX_RETRIES cfg).
    + left. eexists. split; [reflexivity|]. tally_cases.
    + right.
      match goal with
      | |- context [failed cfg ?t ?r ?o w2] =>
          destruct (mono_failed_one_record t r o w2 w Hw) as (w' & -> & H)
      end. eauto.
  - destruct (td_isTimeout _).
    { destruct (attempt <? MAX_RETRIES cfg).
      + left. eexists. split; [reflexivity|]. tally_cases.
      + right.
        match goal with
        | |- context [failed cfg ?t ?r ?o w2] =>
            destruct (mono_failed_one_record t r o w2 w Hw) as (w' & -> & H)
        end. eauto. }
    destruct (negb (error_code res =? 0)).
    { destruct (attempt <? MAX_RETRIES cfg).
      + left. eexists. split; [reflexivity|]. tally_cases.
      + right.
        match goal with
        | |- context [failed cfg ?t ?r ?o w2] =>
            destruct (mono_failed_one_record t r o w2 w Hw) as (w' & -> & H)
        end. eauto. }
    right. destruct (check res (httpChecks cfg)) as [[|]|] eqn:Hh.
    + destruct (json res) as [m|v] eqn:Hj.
      * match goal with
        | |- context [failed cfg ?t ?r ?o w2] =>
            destruct (mono_failed_one_record t r o w2 w Hw) as (w' & -> & H)
        end. eauto.
      * destruct (Hnn res eq_refl) as [Hn Hu].
        apply mono_after_parse_one_record; [congruence | congruence | exact Hw].
    + match goal with
      | |- context [failed cfg ?t ?r ?o w2] =>
          destruct (mono_failed_one_record t r o w2 w Hw) as (w' & -> & H)
      end. eauto.
    + discriminate Hh.
Qed.

(** Every call of the monolithic [jsonCall] returns, with exactly one
    record set besides one retry sample per retry; a failed call returns
    undefined. *)
Lemma monolith_jsonCall_one_record_set attempt w :
  exists c w' retries,
    jsonCall cfg env url method params extraTags expectFn attempt w = (c, w')
    /\ Z.of_nat retries <= Z.max 0 (MAX_RETRIES cfg - attempt)
    /\ record_set retries c (samples w) (samples w').
Proof.
  unfold jsonCall.
  assert (forall (k : nat) attempt w,
             MAX_RETRIES cfg - attempt <= Z.of_nat k ->
             exists c w' retries,
               jsonCall_loop cfg env url method params extraTags expectFn (S k) attempt w
               = (c, w')
               /\ Z.of_nat retries <= Z.max 0 (MAX_RETRIES cfg - attempt)
               /\ record_set retries c (samples w) (samples w')) as Hloop.
  { clear attempt w. induction k as [|k IH]; intros attempt w Hk; rewrite mono_loop_S.
    - destruct (mono_pass_one_record attempt w) as [(w' & Hp & _)|(c & w' & Hp & Hr)].
      + apply mono_pass_again in Hp. lia.
      + rewrite Hp. exists c, w', 0%nat. split; [reflexivity|]. split; [lia|exact Hr].
    - destruct (mono_pass_one_record attempt w) as [(w' & Hp & Ht)|(c & w' & Hp & Hr)].
      + rewrite Hp. apply mono_pass_again in Hp.
        destruct (IH (attempt + 1) w') as (c & w'' & r & Hl & Hb & Hr); [lia|].
        exists c, w'', (S r). split; [exact Hl|]. split; [lia|].
        destruct Hr as (v & s & e & t & Hc & Hta & Hcase).
        exists v, s, e, t. split; [exact Hc|]. split; [|exact Hcase].
        rewrite Hta, Ht, tally_add_assoc. f_equal. unfold tally_add; cbn. f_equal; lia.
      + rewrite Hp. exists c, w', 0%nat. split; [reflexivity|]. split; [lia|exact Hr]. }
  apply Hloop. lia.
Qed.

End MonolithEveryPath.

(* ===================================================================== *)
(** ** wsSub of lib/websocket-client.js returns *)
(* ===================================================================== *)

Section LibWsTerminates.
Import WebsocketClient.
Variable cfg : RpcClient.Settings.
Variable env : Env.
Variables (wsUrl rpcUrl : string) (method params : value).
Variable options : SubOptions.

(** Whatever the sockets deliver, the fuel is enough for the nested
    reconnections: each of them raises the shared attempt counter. *)
Lemma attemptConnection_terminates (fuel : nat) (attempt : Z) (w : World) :
  Z.max 0 (maxRetries options - attempt) < Z.of_nat fuel ->
  let '(out_of_fuel, attempt', _) :=
    attemptConnection cfg env wsUrl rpcUrl method params options fuel attempt w in
  out_of_fuel = false /\ attempt <= attempt'.
Proof.
  revert attempt w. induction fuel as [|fuel IH]; intros attempt w Hfuel; [lia|].
  cbn [attemptConnection].
  set (r0 := MkRun true VNull false false attempt _).
  set (step := deliver cfg env (maxRetries options) _ _ _ _).
  set (events := ws_connect env _ wsUrl _).
  assert (diverged r0 = false /\ attempt <= retryAttempt r0) as H0
    by (split; [reflexivity | cbn; lia]).
  clearbody r0 events. revert r0 H0.
  induction events as [|ev events IHev]; intros r [Hd Ha]; cbn [fold_left].
  - split; [exact Hd | exact Ha].
  - apply IHev. subst step. unfold deliver.
    destruct (closed r || diverged r); [split; assumption|].
    destruct ev as [dt raw text|dt|dt|dt code reason|dt msg].
    + unfold on_message, socket_close, on_close, with_world.
      repeat (cbv beta iota zeta;
              match goal with
              | |- context [match ?x with _ => _ end] =>
                  lazymatch x with
                  | context [match _ with _ => _ end] => fail
                  | _ => destruct x
                  end
              end); cbn [diverged retryAttempt]; split; assumption.
    + split; assumption.
    + unfold on_timer, socket_close, on_close, with_world.
      repeat (cbv beta iota zeta;
              match goal with
              | |- context [match ?x with _ => _ end] =>
                  lazymatch x with
                  | context [match _ with _ => _ end] => fail
                  | _ => destruct x
                  end
              end); cbn [diverged retryAttempt]; split; assumption.
    + unfold on_close, with_world. cbn [diverged retryAttempt]. split; assumption.
    + unfold on_error. cbn [with_world world retryAttempt diverged].
      destruct (retryAttempt r <? maxRetries options) eqn:Hlt.
      * apply Z.ltb_lt in Hlt.
        match goal with
        | |- context [attemptConnection cfg env wsUrl rpcUrl method params options fuel ?a ?w0] =>
            specialize (IH a w0);
            destruct (attemptConnection cfg env wsUrl rpcUrl method params options fuel a w0)
              as [[d a'] w']
        end.
        destruct IH as [Hd' Ha']; [lia|].
        cbn [diverged retryAttempt]. rewrite Hd, Hd'. split; [reflexivity | lia].
      * cbn [diverged retryAttempt]. split; assumption.
Qed.

Lemma lib_wsSub_terminates (w : World) :
  fst (wsSub cfg env wsUrl rpcUrl method params options w) = Normal tt.
Proof.
  unfold wsSub.
  pose proof (attemptConnection_terminates (S (Z.to_nat (maxRetries options))) 0 w) as H.
  destruct (attemptConnection cfg env wsUrl rpcUrl method params options
              (S (Z.to_nat (maxRetries options))) 0 w) as [[d a] w'].
  destruct H as [-> _]; [lia | reflexivity].
Qed.

End LibWsTerminates.

(* ===================================================================== *)
(** ** The assumptions above hold of concrete runs *)
(* ===================================================================== *)

Lemma jsonCall_transport_failure_chain_witness :
  0 <= RpcClient.MAX_RETRIES Fixtures.lib_cfg
  /\ (forall n u b, transport_failure (http_post Fixtures.env_down n u b))
  /\ (let res := RpcClient.jsonCall Fixtures.lib_cfg Fixtures.env_down "http://node"
                   (VStr "eth_blockNumber") (VArr []) ∅ (fun _ => true) 0 Fixtures.w0 in
      fst res = Normal VUndef
      /\ posts (snd res) = 4%nat
      /\ sleeps (snd res) = [1000; 1000; 1000]
      /\ tally (samples (snd res)) = MkTally 0 1 1 3 0 0).
Proof.
  assert (0 <= RpcClient.MAX_RETRIES Fixtures.lib_cfg) as Hmax by (cbn; lia).
  assert (forall n u b, transport_failure (http_post Fixtures.env_down n u b)) as Hdown
    by (intros; exact I).
  split; [exact Hmax|]. split; [exact Hdown|].
  exact (jsonCall_transport_failure_chain Fixtures.lib_cfg Fixtures.env_down "http://node"
           (VStr "eth_blockNumber") (VArr []) ∅ (fun _ => true) Fixtures.w0 Hmax Hdown).
Defined.

Lemma env_revert_no_null_document : no_null_document Fixtures.env_revert.
Proof.
  intros n u b r H. cbn in H. injection H as <-. cbn. split; discriminate.
Qed.

Lemma env_silent_socket_one_terminal :
  forall n u p, one_terminal (ws_connect Fixtures.env_silent_socket n u p).
Proof. intros n u p. left. split; reflexivity. Qed.

(* ===================================================================== *)
(** ** Text built by the scripts *)
(* ===================================================================== *)

Lemma string_length_app (s t : string) :
  String.length (s +:+ t) = (String.length s + String.length t)%nat.
Proof.
  induction s as [|c s IH]; [reflexivity|].
  change (String c s +:+ t) with (String c (s +:+ t)). cbn [String.length Nat.add].
  rewrite IH. reflexivity.
Qed.

Lemma string_app_assoc (s t u : string) : (s +:+ t) +:+ u = s +:+ (t +:+ u).
Proof.
  induction s as [|c s IH]; [reflexivity|].
  change ((String c s +:+ t) +:+ u) with (String c ((s +:+ t) +:+ u)).
  change (String c s +:+ t +:+ u) with (String c (s +:+ t +:+ u)).
  rewrite IH. reflexivity.
Qed.

Lemma string_app_nil_r (s : string) : s +:+ "" = s.
Proof.
  induction s as [|c s IH]; [reflexivity|].
  change (String c s +:+ "") with (String c (s +:+ "")). rewrite IH. reflexivity.
Qed.

Lemma prefix_app (s t : string) : String.prefix s (s +:+ t) = true.
Proof.
  induction s as [|c s IH]; [destruct t; reflexivity|].
  change (String c s +:+ t) with (String c (s +:+ t)). cbn [String.prefix].
  destruct (ascii_dec c c) as [_|Hne]; [exact IH | contradiction].
Qed.

Lemma repeat_char_length (n : nat) (c : ascii) :
  String.length (JsText.repeat_char n c) = n.
Proof. induction n as [|n IH]; cbn; [reflexivity | rewrite IH; reflexivity]. Qed.

Lemma padStart_length (n : nat) (c : ascii) (s : string) :
  String.length (JsText.padStart n c s) = Nat.max n (String.length s).
Proof. unfold JsText.padStart. rewrite string_length_app, repeat_char_length. lia. Qed.

(** A digit of [toString16] reads back as itself. *)
Lemma digit_of_hex_char (d : Z) :
  0 <= d < 16 -> digit_of 16 (JsText.hex_char d) = Some d.
Proof.
  intros H.
  assert (d = 0 \/ d = 1 \/ d = 2 \/ d = 3 \/ d = 4 \/ d = 5 \/ d = 6 \/ d = 7 \/ d = 8
          \/ d = 9 \/ d = 10 \/ d = 11 \/ d = 12 \/ d = 13 \/ d = 14 \/ d = 15) as Hd by lia.
  repeat destruct Hd as [-> | Hd]; try reflexivity. subst d. reflexivity.
Qed.

(** With enough fuel [hex_go] writes the [k] digits of [n], and reading
    them back after [a] gives [a * 16 ^ k + n]. *)
Lemma hex_go_reads_back (fuel : nat) (n : Z) (acc : string) :
  (1 <= fuel)%nat ->
  0 <= n < 16 ^ Z.of_nat fuel ->
  exists k : nat,
    (1 <= k <= fuel)%nat
    /\ n < 16 ^ Z.of_nat k
    /\ String.length (JsText.hex_go fuel n acc) = (k + String.length acc)%nat
    /\ forall a, digits_from 16 a (JsText.hex_go fuel n acc)
                 = digits_from 16 (a * 16 ^ Z.of_nat k + n) acc.
Proof.
  revert n acc. induction fuel as [|fuel IH]; intros n acc Hfuel Hn.
  - lia.
  - cbn [JsText.hex_go].
    assert (0 <= n mod 16 < 16) as Hmod by (apply Z.mod_pos_bound; lia).
    destruct (n <? 16) eqn:Hlt.
    + apply Z.ltb_lt in Hlt. exists 1%nat. split; [lia|]. split; [cbn; lia|].
      split; [reflexivity|]. intros a. cbn [digits_from].
      rewrite digit_of_hex_char by exact Hmod.
      rewrite Z.mod_small by lia. reflexivity.
    + apply Z.ltb_ge in Hlt.
      assert (0 <= n / 16 < 16 ^ Z.of_nat fuel) as Hdiv.
      { split; [apply Z.div_pos; lia|]. apply Z.div_lt_upper_bound; [lia|].
        rewrite Nat2Z.inj_succ, Z.pow_succ_r in Hn by lia. lia. }
      assert (1 <= fuel)%nat as Hfuel'.
      { destruct fuel; [|lia]. cbn in Hdiv.
        assert (1 <= n / 16) by (apply Z.div_le_lower_bound; lia). lia. }
      destruct (IH (n / 16) (String (JsText.hex_char (n mod 16)) acc) Hfuel' Hdiv)
        as (k & Hk & Hb & Hl & Hr).
      exists (S k). split; [lia|]. split.
      { rewrite Nat2Z.inj_succ, Z.pow_succ_r by lia.
        pose proof (Z.div_mod n 16 ltac:(lia)). lia. }
      split; [rewrite Hl; cbn; lia|].
      intros a. rewrite Hr. cbn [digits_from]. rewrite digit_of_hex_char by exact Hmod.
      f_equal. rewrite Nat2Z.inj_succ, Z.pow_succ_r by lia.
      pose proof (Z.div_mod n 16 ltac:(lia)). lia.
Qed.

Lemma enough_hex_fuel (n : Z) : 0 <= n -> n < 16 ^ Z.of_nat (S (Z.to_nat (Z.log2 n))).
Proof.
  intros Hn. rewrite Nat2Z.inj_succ, Z2Nat.id by apply Z.log2_nonneg.
  destruct (Z.eq_dec n 0) as [->|Hne]; [cbn; lia|].
  pose proof (Z.log2_spec n ltac:(lia)) as [_ Hub].
  eapply Z.lt_le_trans; [exact Hub|].
  apply Z.pow_le_mono_l. lia.
Qed.

(** [toString16] of a non-negative integer reads back as that integer, and
    has at most [k] digits when the integer is below [16 ^ k]. *)
Lemma toString16_reads_back (n : Z) :
  0 <= n ->
  digits_from 16 0 (JsText.toString16 n) = Fin n
  /\ forall k : nat, n < 16 ^ Z.of_nat k -> (1 <= k)%nat ->
                     (String.length (JsText.toString16 n) <= k)%nat.
Proof.
  intros Hn. unfold JsText.toString16.
  assert ((n <? 0) = false) as -> by (apply Z.ltb_ge; lia).
  destruct (hex_go_reads_back (S (Z.to_nat (Z.log2 n))) n "")
    as (k & Hk & Hb & Hl & Hr); [lia | split; [lia | apply enough_hex_fuel; lia]|].
  split; [rewrite Hr; cbn; f_equal; lia|].
  intros k' Hk' Hpos.
  (* the digit count is minimal: compare through the fuel *)
  destruct (hex_go_reads_back k' n "") as (k2 & Hk2 & _ & Hl2 & _);
    [lia | split; [lia | exact Hk'] |].
  assert (JsText.hex_go k' n "" = JsText.hex_go (S (Z.to_nat (Z.log2 n))) n "") as Heq.
  { clear - Hk' Hn Hpos.
    assert (forall f1 f2 m acc, (1 <= f1)%nat -> (1 <= f2)%nat -> 0 <= m ->
                             m < 16 ^ Z.of_nat f1 -> m < 16 ^ Z.of_nat f2 ->
                             JsText.hex_go f1 m acc = JsText.hex_go f2 m acc) as Hgen.
    { induction f1 as [|f1 IH]; intros f2 m acc Hf1 Hf2 H0 H1 H2; [lia|].
      destruct f2 as [|f2]; [lia|].
      cbn [JsText.hex_go]. destruct (m <? 16) eqn:Hlt; [reflexivity|].
      apply Z.ltb_ge in Hlt.
      assert (1 <= m / 16) by (apply Z.div_le_lower_bound; lia).
      assert (m / 16 < 16 ^ Z.of_nat f1).
      { apply Z.div_lt_upper_bound; [lia|].
        rewrite Nat2Z.inj_succ, Z.pow_succ_r in H1 by lia. lia. }
      assert (m / 16 < 16 ^ Z.of_nat f2).
      { apply Z.div_lt_upper_bound; [lia|].
        rewrite Nat2Z.inj_succ, Z.pow_succ_r in H2 by lia. lia. }
      apply IH; try lia.
      - destruct f1; [cbn in *; lia | lia].
      - destruct f2; [cbn in *; lia | lia]. }
    apply Hgen; [lia | lia | lia | exact Hk' | apply enough_hex_fuel; lia]. }
  rewrite <- Heq, Hl2. cbn. lia.
Qed.

Lemma digits_from_zeros (k : nat) (s : string) :
  digits_from 16 0 (JsText.repeat_char k "0" +:+ s) = digits_from 16 0 s.
Proof. induction k as [|k IH]; cbn [JsText.repeat_char String.append]; [reflexivity|]. exact IH. Qed.

(* ===================================================================== *)
(** ** Batched signing (lib/wallet-manager.js) *)
(* ===================================================================== *)

(** The transactions handed to the signer, oldest first. *)
Lemma signed_log (t : TxParams) (w : World) :
  rev (signed (log_signed t w)) = (rev (signed w) ++ [t])%list.
Proof. reflexivity. Qed.

Section BatchedSigning.
Import WalletManager.
Variable chain : ChainConfig.
Variable f : Z -> Z -> Wallet -> World -> completion Wallet * World.
Variable b : Z.
Variable P : TxParams -> Prop.

(** The callback hands one transaction to the signer, with nonce
    [b + i + batchIndex]. *)
Hypothesis callback_signs : forall i k wl w,
  (exists t, rev (signed (snd (f i k wl w))) = (rev (signed w) ++ [t])%list
             /\ tx_nonce t = Fin (b + i + k) /\ P t)
  /\ fst (f i k wl w) <> Diverges.

Lemma for_each_signs i k batch w :
  let res := for_each (f i) k batch w in
  exists added,
    rev (signed (snd res)) = (rev (signed w) ++ added)%list
    /\ consecutive_from (b + i + k) (map tx_nonce added)
    /\ Forall P added
    /\ (length added <= length batch)%nat
    /\ fst res <> Diverges
    /\ (forall batch', fst res = Normal batch' ->
          length added = length batch /\ length batch' = length batch).
Proof.
  revert k w. induction batch as [|wl batch IH]; intros k w res; subst res; cbn [for_each].
  - exists []. cbn [fst snd]. rewrite app_nil_r.
    split; [reflexivity|]. split; [exact I|]. split; [constructor|]. split; [reflexivity|].
    split; [discriminate|]. intros batch' H. injection H as <-. split; reflexivity.
  - destruct (callback_signs i k wl w) as [(t & Hs & Hn & Hp) Hd].
    destruct (f i k wl w) as [[wl'|e|] w1]; cbn [fst snd] in *.
    + specialize (IH (k + 1) w1).
      destruct (for_each (f i) (k + 1) batch w1) as [[rest'|e|] w2];
        cbn [fst snd] in *; destruct IH as (added & Ha & Hc & HP & Hl & Hdv & Hnorm).
      * exists (t :: added). rewrite Ha, Hs, <- app_assoc.
        split; [reflexivity|]. split.
        { cbn [map consecutive_from]. split; [exact Hn|].
          replace (b + i + k + 1) with (b + i + (k + 1)) by lia. exact Hc. }
        split; [constructor; assumption|].
        split; [cbn; lia|]. split; [discriminate|].
        intros batch' H. injection H as <-. destruct (Hnorm _ eq_refl) as [H1 H2].
        cbn [length]. split; congruence.
      * exists (t :: added). rewrite Ha, Hs, <- app_assoc.
        split; [reflexivity|]. split.
        { cbn [map consecutive_from]. split; [exact Hn|].
          replace (b + i + k + 1) with (b + i + (k + 1)) by lia. exact Hc. }
        split; [constructor; assumption|].
        split; [cbn; lia|]. split; [discriminate|]. intros batch' H. discriminate H.
      * contradiction.
    + exists [t]. split; [exact Hs|]. split; [cbn; auto|]. split; [constructor; [exact Hp | constructor]|].
      split; [cbn; lia|]. split; [discriminate|]. intros batch' H. discriminate H.
    + contradiction.
Qed.

Hypothesis positive_batch : 0 < batchSize chain.

Lemma batches_sign (fuel : nat) i wallets w :
  0 <= i ->
  Z.max 0 (Z.of_nat (length wallets) - i) < Z.of_nat fuel ->
  let res := batches chain fuel f i wallets w in
  exists added,
    rev (signed (snd res)) = (rev (signed w) ++ added)%list
    /\ consecutive_from (b + i) (map tx_nonce added)
    /\ Forall P added
    /\ Z.of_nat (length added) <= Z.max 0 (Z.of_nat (length wallets) - i)
    /\ fst res <> Diverges
    /\ (forall wallets', fst res = Normal wallets' ->
          Z.of_nat (length added) = Z.max 0 (Z.of_nat (length wallets) - i)
          /\ length wallets' = length wallets).
Proof.
  revert i wallets w. induction fuel as [|fuel IH]; intros i wallets w Hi Hfuel res;
    subst res; [lia|].
  cbn [batches]. set (n := Z.of_nat (length wallets)) in *.
  destruct (i <? n) eqn:Hlt.
  2:{ apply Z.ltb_ge in Hlt. exists []. cbn [fst snd]. rewrite app_nil_r.
      split; [reflexivity|]. split; [exact I|]. split; [constructor|]. split; [cbn; lia|].
      split; [discriminate|]. intros ws Hws. injection Hws as <-. split; [cbn; lia | reflexivity]. }
  apply Z.ltb_lt in Hlt.
  assert ((i <? 0) = false) as Hneg by (apply Z.ltb_ge; lia). rewrite Hneg.
  set (batch := js_slice i (i + batchSize chain) wallets).
  assert (Z.of_nat (length batch) = Z.min (i + batchSize chain) n - i) as Hlen.
  { subst batch. unfold js_slice. rewrite Hneg.
    assert ((i + batchSize chain <? 0) = false) as -> by (apply Z.ltb_ge; lia).
    fold n. rewrite length_take, length_drop. lia. }
  destruct (for_each_signs i 0 batch w) as (added1 & Ha1 & Hc1 & HP1 & Hl1 & Hd1 & Hn1).
  destruct (for_each (f i) 0 batch w) as [[batch'|e|] w1]; cbn [fst snd] in *.
  - destruct (Hn1 _ eq_refl) as [Hadd Hb'].
    set (wallets' := (take (Z.to_nat (Z.min i n)) wallets ++ batch'
                        ++ drop (Z.to_nat (Z.min i n) + length batch') wallets)%list).
    assert (length wallets' = length wallets) as Hw'.
    { subst wallets'. rewrite !length_app, length_take, length_drop. lia. }
    set (w2 := if i + batchSize chain <? n then sleep_ms 100 w1 else w1).
    assert (signed w2 = signed w1) as Hw2
      by (subst w2; destruct (i + batchSize chain <? n); reflexivity).
    destruct (IH (i + batchSize chain) wallets' w2)
      as (added2 & Ha2 & Hc2 & HP2 & Hl2 & Hd2 & Hn2);
      [lia | rewrite Hw'; fold n; lia |].
    rewrite Hw' in Hl2, Hn2. fold n in Hl2, Hn2.
    exists (added1 ++ added2)%list. rewrite Ha2, Hw2, Ha1, <- app_assoc.
    split; [reflexivity|]. split.
    { rewrite map_app. apply consecutive_from_app.
      - replace (b + i) with (b + i + 0) by lia. exact Hc1.
      - rewrite length_map.
        destruct (Z.lt_ge_cases (i + batchSize chain) n) as [Hmore|Hlast].
        + replace (b + i + Z.of_nat (length added1)) with (b + (i + batchSize chain)) by lia.
          exact Hc2.
        + assert (added2 = []) as -> by (destruct added2; [reflexivity | cbn in Hl2; lia]).
          exact I. }
    split; [apply Forall_app; split; assumption|].
    split; [rewrite length_app; lia|]. split; [exact Hd2|].
    intros ws Hres. rewrite length_app. destruct (Hn2 _ Hres) as [H1 H2].
    split; [lia | congruence].
  - exists added1. split; [exact Ha1|]. split.
    { replace (b + i) with (b + i + 0) by lia. exact Hc1. }
    split; [exact HP1|]. split; [lia|]. split; [discriminate|]. intros ws H. discriminate H.
  - contradiction.
Qed.

End BatchedSigning.

(* ===================================================================== *)
(** ** ERC20 transfer data *)
(* ===================================================================== *)

(** X1.  For an amount that fits 32 bytes and a recipient of at most 64
    hexadecimal characters after its [0x], [buildERC20TransferData] is the
    function signature followed by two words of 64 characters each: the
    recipient without its [0x], filled with zeros on the left, and the
    amount in hexadecimal, filled with zeros on the left, which reads back
    as the amount. *)
Theorem buildERC20TransferData_layout (chain : WalletManager.ChainConfig)
    (recipient : string) (amount : Z) :
  0 <= amount < 16 ^ 64 ->
  (String.length (JsText.strip_0x recipient) <= 64)%nat ->
  exists recipientPadded amountHex,
    TokenTransfers.buildERC20TransferData chain recipient amount
    = WalletManager.erc20TransferSig chain +:+ recipientPadded +:+ amountHex
    /\ String.length recipientPadded = 64%nat
    /\ String.length amountHex = 64%nat
    /\ (exists k, recipientPadded
                  = JsText.repeat_char k "0" +:+ JsText.strip_0x recipient)
    /\ digits_from 16 0 amountHex = Fin amount
    /\ String.length (TokenTransfers.buildERC20TransferData chain recipient amount)
       = (String.length (WalletManager.erc20TransferSig chain) + 128)%nat.
Proof.
  intros [Hlo Hhi] Hrec.
  destruct (toString16_reads_back amount Hlo) as [Hback Hlen].
  specialize (Hlen 64%nat Hhi ltac:(lia)).
  exists (JsText.padStart 64 "0" (JsText.strip_0x recipient)),
         (JsText.padStart 64 "0" (JsText.toString16 amount)).
  assert (String.length (JsText.padStart 64 "0" (JsText.strip_0x recipient)) = 64%nat) as H1
    by (rewrite padStart_length; lia).
  assert (String.length (JsText.padStart 64 "0" (JsText.toString16 amount)) = 64%nat) as H2
    by (rewrite padStart_length; lia).
  split; [reflexivity|]. split; [exact H1|]. split; [exact H2|].
  split; [eexists; reflexivity|].
  split; [unfold JsText.padStart; rewrite digits_from_zeros; exact Hback|].
  unfold TokenTransfers.buildERC20TransferData.
  rewrite !string_length_app, H1, H2. lia.
Qed.

Lemma buildERC20TransferData_layout_witness :
  0 <= 1000000000000000 < 16 ^ 64
  /\ (String.length (JsText.strip_0x "0xaaaa") <= 64)%nat
  /\ String.length (TokenTransfers.buildERC20TransferData Fixtures.chain_cfg "0xaaaa"
                      1000000000000000) = 138%nat.
Proof.
  assert (0 <= 1000000000000000 < 16 ^ 64) as Hamount by (split; [lia | reflexivity]).
  assert (String.length (JsText.strip_0x "0xaaaa") <= 64)%nat as Hrec by (cbn; lia).
  split; [exact Hamount|]. split; [exact Hrec|].
  destruct (buildERC20TransferData_layout Fixtures.chain_cfg "0xaaaa" 1000000000000000
              Hamount Hrec) as (r & a & _ & _ & _ & _ & _ & Hlen).
  exact Hlen.
Defined.

Lemma transfer_data_is_long (chain : WalletManager.ChainConfig) (recipient : string)
    (amount : Z) :
  (128 <= String.length (TokenTransfers.buildERC20TransferData chain recipient amount))%nat.
Proof.
  unfold TokenTransfers.buildERC20TransferData.
  rewrite !string_length_app, !padStart_length. lia.
Qed.

(** X2.  A transaction that [buildRawTx] builds around the data of
    [buildERC20TransferData], with no gas limit given in the options, is
    handed to the signer with the ERC20 gas limit and with that data,
    whatever the recipient and the amount; when [buildRawTx] returns, it has
    handed exactly this one transaction to the signer. *)
Theorem erc20_transfer_gas_limit (cfg : RpcClient.Settings)
    (chain : WalletManager.ChainConfig) (env : Env) (url : string)
    (wallet : WalletManager.Wallet) (to value_ : value) (recipient : string) (amount : Z)
    (options : WalletManager.TxOptions) (w : World) :
  truthy (WalletManager.opt_gasLimit options) = false ->
  let data := TokenTransfers.buildERC20TransferData chain recipient amount in
  let res := WalletManager.buildRawTx cfg chain env url wallet to value_ (Some data)
               options w in
  (signed (snd res) = signed w
   \/ exists t, signed (snd res) = t :: signed w
                /\ tx_gas t = WalletManager.gas_erc20 chain
                /\ tx_data t = VStr data
                /\ tx_to t = to /\ tx_value t = value_)
  /\ (forall raw, fst res = Normal raw -> signed (snd res) <> signed w).
Proof.
  intros Hlimit data res. subst res.
  assert (String.eqb data "0x" = false /\ String.eqb data "" = false) as [Hx He].
  { pose proof (transfer_data_is_long chain recipient amount) as Hlen. fold data in Hlen.
    split; apply String.eqb_neq; intros Heq; rewrite Heq in Hlen; cbn in Hlen; lia. }
  assert (String.prefix (WalletManager.erc20TransferSig chain) data = true) as Hsig
    by apply prefix_app.
  unfold WalletManager.buildRawTx.
  match goal with
  | |- context [WalletManager.call cfg env ?u ?m ?p ?t w] =>
      pose proof (call_frame cfg env u m p t w) as (Hs1 & _ & _);
      destruct (WalletManager.call cfg env u m p t w) as [[r1|e|] w1]
  end; cbn [fst snd] in *; [| split; [left; exact Hs1 | discriminate]
                             | split; [left; exact Hs1 | discriminate]].
  match goal with
  | |- context [WalletManager.call cfg env ?u ?m ?p ?t w1] =>
      pose proof (call_frame cfg env u m p t w1) as (Hs2 & _ & _);
      destruct (WalletManager.call cfg env u m p t w1) as [[r2|e|] w2]
  end; cbn [fst snd] in *;
    [| split; [left; congruence | discriminate] | split; [left; congruence | discriminate]].
  rewrite Hlimit, Hx, He. change (default "" (Some data)) with data.
  rewrite Hsig. cbn [orb].
  unfold WalletManager.sign.
  destruct (signLegacyTx env _ (WalletManager.pk wallet)); cbn [fst snd log_signed signed].
  - split.
    + right. eexists. split; [rewrite Hs2, Hs1; reflexivity|].
      cbn [tx_gas tx_data tx_to tx_value]. repeat split; reflexivity.
    + intros raw _ Heq. rewrite Hs2, Hs1 in Heq.
      apply (f_equal (@length TxParams)) in Heq. cbn in Heq. lia.
  - split.
    + right. eexists. split; [rewrite Hs2, Hs1; reflexivity|].
      cbn [tx_gas tx_data tx_to tx_value]. repeat split; reflexivity.
    + discriminate.
Qed.

Lemma erc20_transfer_gas_limit_witness :
  truthy (WalletManager.opt_gasLimit Fixtures.no_tx_options) = false
  /\ map tx_gas
         (signed (snd (WalletManager.buildRawTx Fixtures.lib_cfg Fixtures.chain_cfg
                         Fixtures.env_pending_5 "http://node" Fixtures.wallet_a
                         (VStr "0xtoken") (VNum 0)
                         (Some (TokenTransfers.buildERC20TransferData Fixtures.chain_cfg
                                  "0xbbbb" 1000))
                         Fixtures.no_tx_options Fixtures.w0)))
     = [VNum 65000].
Proof.
  split; [reflexivity|].
  destruct (erc20_transfer_gas_limit Fixtures.lib_cfg Fixtures.chain_cfg
              Fixtures.env_pending_5 "http://node" Fixtures.wallet_a (VStr "0xtoken")
              (VNum 0) "0xbbbb" 1000 Fixtures.no_tx_options Fixtures.w0 eq_refl)
    as [[Hnone | (t & Hs & Hg & _)] Hret].
  - exfalso. apply (Hret "0xf86b"); [vm_compute; reflexivity | exact Hnone].
  - rewrite Hs. cbn [map signed Fixtures.w0]. rewrite Hg. reflexivity.
Defined.

(* ===================================================================== *)
(** ** Funding and token distribution in setup *)
(* ===================================================================== *)

Lemma airdropAmount_returns (tokens : TokenTransfers.TokenConfig) :
  TokenTransfers.airdropAmount tokens <> Diverges.
Proof.
  unfold TokenTransfers.airdropAmount, BigInts.pow, BigInts.div, BigInts.js_BigInt.
  destruct (TokenTransfers.defaultDecimals tokens), (TokenTransfers.erc20AirdropDivisor tokens).
  all: repeat match goal with
             | |- context [match ?x with _ => _ end] =>
                 lazymatch x with
                 | context [match _ with _ => _ end] => fail
                 | _ => destruct x
                 end
             end; discriminate.
Qed.

Section SetupSigning.
Import WalletManager TokenTransfers.
Variable cfg : RpcClient.Settings.
Variable chain : ChainConfig.
Variable tokens : TokenConfig.
Variable env : Env.

Lemma fund_one_signs fundUrl basePrivKey b gasPrice i k wl w :
  (exists t,
      rev (signed (snd (fund_one cfg chain env fundUrl basePrivKey (Fin b) gasPrice i k wl w)))
      = (rev (signed w) ++ [t])%list
      /\ tx_nonce t = Fin (b + i + k) /\ funding_tx chain t)
  /\ fst (fund_one cfg chain env fundUrl basePrivKey (Fin b) gasPrice i k wl w) <> Diverges.
Proof.
  unfold fund_one, sign. cbn [num_add].
  destruct (signLegacyTx env _ basePrivKey) as [raw|].
  - match goal with
    | |- context [call cfg env ?u ?m ?p ?t ?w0] =>
        pose proof (call_frame cfg env u m p t w0) as (Hs & _ & Hd);
        destruct (call cfg env u m p t w0) as [[txHash|e|] w']
    end; cbn [fst snd] in *; [| | contradiction];
      (split; [|discriminate]); eexists; rewrite Hs;
      (split; [apply signed_log|]); (split; [reflexivity|]); repeat split.
  - cbn [fst snd]. split; [|discriminate]. eexists.
    split; [apply signed_log|]. split; [reflexivity|]. repeat split.
Qed.

Lemma airdrop_one_signs fundUrl basePrivKey erc20Addr b gasPrice amount i k wl w :
  (exists t,
      rev (signed (snd (airdrop_one cfg chain env fundUrl basePrivKey erc20Addr (Fin b)
                          gasPrice amount i k wl w)))
      = (rev (signed w) ++ [t])%list
      /\ tx_nonce t = Fin (b + i + k) /\ airdrop_tx chain erc20Addr t)
  /\ fst (airdrop_one cfg chain env fundUrl basePrivKey erc20Addr (Fin b) gasPrice amount
            i k wl w) <> Diverges.
Proof.
  unfold airdrop_one, sign. cbn [num_add].
  destruct (signLegacyTx env _ basePrivKey) as [raw|].
  - match goal with
    | |- context [call cfg env ?u ?m ?p ?t ?w0] =>
        pose proof (call_frame cfg env u m p t w0) as (Hs & _ & Hd);
        destruct (call cfg env u m p t w0) as [[txHash|e|] w']
    end; cbn [fst snd] in *; [| | contradiction];
      (split; [|discriminate]); eexists; rewrite Hs;
      (split; [apply signed_log|]); (split; [reflexivity|]); repeat split.
  - cbn [fst snd]. split; [|discriminate]. eexists.
    split; [apply signed_log|]. split; [reflexivity|]. repeat split.
Qed.

Hypothesis positive_batch : 0 < batchSize chain.

Lemma fundWallets_signs fundUrl wallets basePrivKey baseAddr w r1 w1 b :
  call cfg env fundUrl "eth_getTransactionCount" [VStr baseAddr; VStr "pending"]
       (<["op" := VStr "get_nonce"]> ∅) w = (Normal r1, w1) ->
  js_Number r1 = Fin b ->
  let res := fundWallets cfg chain env fundUrl wallets basePrivKey baseAddr w in
  fst res <> Diverges
  /\ exists funding,
       rev (signed (snd res)) = (rev (signed w) ++ funding)%list
       /\ consecutive_from b (map tx_nonce funding)
       /\ Forall (funding_tx chain) funding
       /\ (forall ws ret, fst res = Normal (ws, ret) ->
             length funding = length wallets /\ length ws = length wallets
             /\ ret = Fin (b + Z.of_nat (length wallets))).
Proof.
  intros Hc1 Hb res. subst res. unfold fundWallets. rewrite Hc1, Hb.
  pose proof (call_frame cfg env fundUrl "eth_getTransactionCount"
                [VStr baseAddr; VStr "pending"] (<["op" := VStr "get_nonce"]> ∅) w)
    as (Hs1 & _ & _). rewrite Hc1 in Hs1. cbn [snd] in Hs1.
  match goal with
  | |- context [call cfg env ?u ?m ?p ?t w1] =>
      pose proof (call_frame cfg env u m p t w1) as (Hs2 & _ & Hd2);
      destruct (call cfg env u m p t w1) as [[r2|e|] w2]
  end; cbn [fst snd] in *; [| | contradiction].
  2:{ split; [discriminate|]. exists []. rewrite app_nil_r, Hs2, Hs1.
      split; [reflexivity|]. split; [exact I|]. split; [constructor|]. discriminate. }
  set (gasPrice := scale_gas chain (js_Number r2)).
  destruct (batches_sign chain (fund_one cfg chain env fundUrl basePrivKey (Fin b) gasPrice)
              b (funding_tx chain)
              (fun i k wl w0 => fund_one_signs fundUrl basePrivKey b gasPrice i k wl w0)
              positive_batch (S (length wallets)) 0 wallets w2 ltac:(lia) ltac:(lia))
    as (added & Ha & Hc & HP & Hl & Hd & Hn).
  destruct (batches chain (S (length wallets))
              (fund_one cfg chain env fundUrl basePrivKey (Fin b) gasPrice) 0 wallets w2)
    as [[ws|e|] w3]; cbn [fst snd] in *; [| | contradiction].
  - split; [discriminate|]. exists added. rewrite Ha, Hs2, Hs1.
    split; [reflexivity|]. split; [replace b with (b + 0) by lia; exact Hc|].
    split; [exact HP|]. intros ws' ret H. injection H as <- <-.
    destruct (Hn _ eq_refl) as [H1 H2]. split; [lia|]. split; [exact H2|]. reflexivity.
  - split; [discriminate|]. exists added. rewrite Ha, Hs2, Hs1.
    split; [reflexivity|]. split; [replace b with (b + 0) by lia; exact Hc|].
    split; [exact HP|]. discriminate.
Qed.

Lemma distributeERC20Tokens_signs fundUrl wallets basePrivKey erc20Addr b w :
  let res := distributeERC20Tokens cfg chain tokens env fundUrl wallets basePrivKey
               erc20Addr (Fin b) w in
  fst res <> Diverges
  /\ exists airdrops,
       rev (signed (snd res)) = (rev (signed w) ++ airdrops)%list
       /\ consecutive_from b (map tx_nonce airdrops)
       /\ Forall (airdrop_tx chain erc20Addr) airdrops
       /\ (forall ws, fst res = Normal ws ->
             length airdrops = length wallets /\ length ws = length wallets).
Proof.
  intros res. subst res. unfold distributeERC20Tokens.
  destruct (airdropAmount tokens) as [amount|e|] eqn:Hamount.
  2:{ cbn [fst snd]. split; [discriminate|]. exists []. rewrite app_nil_r.
      split; [reflexivity|]. split; [exact I|]. split; [constructor|]. discriminate. }
  2:{ exfalso. exact (airdropAmount_returns tokens Hamount). }
  match goal with
  | |- context [call cfg env ?u ?m ?p ?t w] =>
      pose proof (call_frame cfg env u m p t w) as (Hs2 & _ & Hd2);
      destruct (call cfg env u m p t w) as [[r2|e|] w2]
  end; cbn [fst snd] in *; [| | contradiction].
  2:{ split; [discriminate|]. exists []. rewrite app_nil_r, Hs2.
      split; [reflexivity|]. split; [exact I|]. split; [constructor|]. discriminate. }
  set (gasPrice := scale_gas chain (js_Number r2)).
  destruct (batches_sign chain
              (airdrop_one cfg chain env fundUrl basePrivKey erc20Addr (Fin b) gasPrice amount)
              b (airdrop_tx chain erc20Addr)
              (fun i k wl w0 =>
                 airdrop_one_signs fundUrl basePrivKey erc20Addr b gasPrice amount i k wl w0)
              positive_batch (S (length wallets)) 0 wallets w2 ltac:(lia) ltac:(lia))
    as (added & Ha & Hc & HP & Hl & Hd & Hn).
  destruct (batches chain (S (length wallets))
              (airdrop_one cfg chain env fundUrl basePrivKey erc20Addr (Fin b) gasPrice amount)
              0 wallets w2)
    as [[ws|e|] w3]; cbn [fst snd] in *; [| | contradiction].
  - split; [discriminate|]. exists added. rewrite Ha, Hs2.
    split; [reflexivity|]. split; [replace b with (b + 0) by lia; exact Hc|].
    split; [exact HP|]. intros ws' H. injection H as <-.
    destruct (Hn _ eq_refl) as [H1 H2]. split; [lia | exact H2].
  - split; [discriminate|]. exists added. rewrite Ha, Hs2.
    split; [reflexivity|]. split; [replace b with (b + 0) by lia; exact Hc|].
    split; [exact HP|]. discriminate.
Qed.

End SetupSigning.


Lemma generateWallets_length generateKey (n : Z) :
  length (TokenTransfers.generateWallets generateKey (Fin n)) = Z.to_nat n.
Proof. unfold TokenTransfers.generateWallets. rewrite length_map, length_seq. reflexivity. Qed.




(* ===================================================================== *)
(** ** Fund recovery in teardown *)
(* ===================================================================== *)

Section Teardown.
Import WalletManager TokenTransfers Script.
Variable cfg : RpcClient.Settings.
Variable chain : ChainConfig.
Variable script : ScriptConfig.
Variable env : Env.

(** [buildRawTx] hands the signer at most one transaction, built from its
    arguments. *)
Lemma buildRawTx_signs url wallet to value_ data options w :
  let res := buildRawTx cfg chain env url wallet to value_ data options w in
  fst res <> Diverges
  /\ ((signed (snd res) = signed w /\ exists e, fst res = Throws e)
      \/ exists t nonce price,
           signed (snd res) = t :: signed w
           /\ t = MkTx nonce
                       (match opt_gasPrice options with
                        | Some g => if g =? 0 then price else Fin g
                        | None => price
                        end)
                       (if truthy (opt_gasLimit options) then opt_gasLimit options
                        else if match data with
                                | Some d => String.eqb d "0x" || String.eqb d ""
                                | None => true
                                end then gas_simple chain
                        else if String.prefix (erc20TransferSig chain) (default "" data)
                             then gas_erc20 chain
                        else gas_contract chain)
                       to value_
                       (VStr (match data with
                              | Some d => if String.eqb d "" then "0x" else d
                              | None => "0x"
                              end))
                       (chainId chain)).
Proof.
  intros res. subst res. unfold buildRawTx.
  match goal with
  | |- context [call cfg env ?u ?m ?p ?t w] =>
      pose proof (call_frame cfg env u m p t w) as (Hs1 & _ & Hd1);
      destruct (call cfg env u m p t w) as [[r1|e|] w1]
  end; cbn [fst snd] in *; [| split; [discriminate | left; split; [exact Hs1 | eauto]]
                             | contradiction].
  match goal with
  | |- context [call cfg env ?u ?m ?p ?t w1] =>
      pose proof (call_frame cfg env u m p t w1) as (Hs2 & _ & Hd2);
      destruct (call cfg env u m p t w1) as [[r2|e|] w2]
  end; cbn [fst snd] in *; [| split; [discriminate | left; split; [congruence | eauto]]
                             | contradiction].
  unfold sign.
  destruct (signLegacyTx env _ (pk wallet)); cbn [fst snd log_signed signed];
    (split; [discriminate|]); right; eexists _, _, _; rewrite Hs2, Hs1;
    (split; [reflexivity|]); reflexivity.
Qed.

(** One pass of the callback: it always returns; it hands the signer at
    most one transaction, a refund; the counters grow by at most one in
    all, and a success is counted only for a transaction that was signed. *)
Lemma refund_one_spec gasPrice wl acc w :
  exists acc' w',
    refund_one cfg chain script env gasPrice wl acc w = (Normal acc', w')
    /\ (exists added, rev (signed w') = (rev (signed w) ++ added)%list
                      /\ Forall (refund_tx chain (BASE_ADDR script) gasPrice) added
                      /\ (length added <= 1)%nat
                      /\ successfulRefunds acc'
                         <= successfulRefunds acc + Z.of_nat (length added))
    /\ successfulRefunds acc <= successfulRefunds acc'
    /\ failedRefunds acc <= failedRefunds acc'
    /\ successfulRefunds acc' + failedRefunds acc'
       <= successfulRefunds acc + failedRefunds acc + 1.
Proof.
  assert (forall acc0 w0, signed w0 = signed w ->
            successfulRefunds acc <= successfulRefunds acc0 ->
            successfulRefunds acc0 <= successfulRefunds acc ->
            failedRefunds acc <= failedRefunds acc0 ->
            failedRefunds acc0 <= failedRefunds acc + 1 ->
            (exists added, rev (signed w0) = (rev (signed w) ++ added)%list
                      /\ Forall (refund_tx chain (BASE_ADDR script) gasPrice) added
                      /\ (length added <= 1)%nat
                      /\ successfulRefunds acc0
                         <= successfulRefunds acc + Z.of_nat (length added))
            /\ successfulRefunds acc <= successfulRefunds acc0
            /\ failedRefunds acc <= failedRefunds acc0
            /\ successfulRefunds acc0 + failedRefunds acc0
               <= successfulRefunds acc + failedRefunds acc + 1) as Hquiet.
  { intros acc0 w0 Hs H1 H2 H3 H4. split; [|lia].
    exists []. rewrite app_nil_r, Hs. split; [reflexivity|]. split; [constructor|].
    cbn. lia. }
  unfold refund_one, refund_body.
  match goal with
  | |- context [call cfg env ?u ?m ?p ?t w] =>
      pose proof (call_frame cfg env u m p t w) as (Hs1 & _ & Hd1);
      destruct (call cfg env u m p t w) as [[balanceHex|e|] w1]
  end; cbn [fst snd] in *; [| | contradiction].
  2:{ eexists _, _. split; [reflexivity|]. apply Hquiet; cbn; try lia. exact Hs1. }
  destruct (truthy balanceHex); cbn [negb].
  2:{ eexists _, _. split; [reflexivity|]. apply Hquiet; cbn; try lia. exact Hs1. }
  destruct (BigInts.js_BigInt balanceHex) as [balance|e|] eqn:Hbal.
  2:{ eexists _, _. split; [reflexivity|]. apply Hquiet; cbn; try lia. exact Hs1. }
  2:{ exfalso. unfold BigInts.js_BigInt in Hbal.
      destruct balanceHex; try discriminate;
        match type of Hbal with
        | context [string_to_number ?s] => destruct (string_to_number s)
        end; try discriminate; destruct b; discriminate. }
  destruct gasPrice as [|g]; cbn [value_of_num BigInts.js_BigInt].
  { eexists _, _. split; [reflexivity|]. apply Hquiet; cbn; try lia. exact Hs1. }
  destruct (BigInts.js_BigInt (gas_simple chain)) as [gl|e|] eqn:Hgl.
  2:{ eexists _, _. split; [reflexivity|]. apply Hquiet; cbn; try lia. exact Hs1. }
  2:{ exfalso. unfold BigInts.js_BigInt in Hgl.
      destruct (gas_simple chain); try discriminate;
        match type of Hgl with
        | context [string_to_number ?s] => destruct (string_to_number s)
        end; try discriminate; destruct b; discriminate. }
  destruct (balance <=? g * gl * 2) eqn:Hlow.
  { eexists _, _. split; [reflexivity|]. apply Hquiet; cbn; try lia. exact Hs1. }
  apply Z.leb_gt in Hlow.
  match goal with
  | |- context [buildRawTx cfg chain env ?u ?wa ?to ?v ?d ?o w1] =>
      pose proof (buildRawTx_signs u wa to v d o w1) as (Hdb & Hb);
      destruct (buildRawTx cfg chain env u wa to v d o w1) as [[raw|e|] w2]
  end; cbn [fst snd] in *; [| | contradiction].
  - destruct Hb as [[_ [e He]] | (t & nonce & price & Hs2 & Ht)]; [discriminate|].
    assert (refund_tx chain (BASE_ADDR script) (Fin g) t) as Hrefund.
    { subst t. cbn. repeat split. exists (balance - g * gl), g, gl.
      split; [reflexivity|]. split; [exact Hgl|]. split; [reflexivity|]. split; [lia|].
      intros Hg. apply Z.eqb_neq in Hg. cbn. rewrite Hg. reflexivity. }
    match goal with
    | |- context [call cfg env ?u ?m ?p ?tg w2] =>
        pose proof (call_frame cfg env u m p tg w2) as (Hs3 & _ & Hd3);
        destruct (call cfg env u m p tg w2) as [[txHash|e|] w3]
    end; cbn [fst snd] in *; [| | contradiction].
    + eexists _, _. split; [reflexivity|]. split.
      * exists [t]. rewrite Hs3, Hs2, Hs1. split; [reflexivity|].
        split; [constructor; [exact Hrefund | constructor]|]. split; [cbn; lia|].
        destruct (truthy txHash); cbn; lia.
      * destruct (truthy txHash); cbn; lia.
    + eexists _, _. split; [reflexivity|]. split.
      * exists [t]. rewrite Hs3, Hs2, Hs1. split; [reflexivity|].
        split; [constructor; [exact Hrefund | constructor]|]. cbn. lia.
      * cbn. lia.
  - destruct Hb as [[Hs2 _] | (t & nonce & price & Hs2 & Ht)].
    + eexists _, _. split; [reflexivity|]. apply Hquiet; cbn; try lia. congruence.
    + assert (refund_tx chain (BASE_ADDR script) (Fin g) t) as Hrefund.
      { subst t. cbn. repeat split. exists (balance - g * gl), g, gl.
        split; [reflexivity|]. split; [exact Hgl|]. split; [reflexivity|]. split; [lia|].
        intros Hg. apply Z.eqb_neq in Hg. cbn. rewrite Hg. reflexivity. }
      eexists _, _. split; [reflexivity|]. split.
      * exists [t]. rewrite Hs2, Hs1. split; [reflexivity|].
        split; [constructor; [exact Hrefund | constructor]|]. cbn. lia.
      * cbn. lia.
Qed.

Lemma refund_each_spec gasPrice batch acc w :
  exists acc' w',
    refund_each cfg chain script env gasPrice batch acc w = (Normal tt, (acc', w'))
    /\ (exists added, rev (signed w') = (rev (signed w) ++ added)%list
                      /\ Forall (refund_tx chain (BASE_ADDR script) gasPrice) added
                      /\ (length added <= length batch)%nat
                      /\ successfulRefunds acc'
                         <= successfulRefunds acc + Z.of_nat (length added))
    /\ successfulRefunds acc <= successfulRefunds acc'
    /\ failedRefunds acc <= failedRefunds acc'
    /\ successfulRefunds acc' + failedRefunds acc'
       <= successfulRefunds acc + failedRefunds acc + Z.of_nat (length batch).
Proof.
  revert acc w. induction batch as [|wl batch IH]; intros acc w; cbn [refund_each].
  - exists acc, w. split; [reflexivity|]. split; [|cbn; lia].
    exists []. rewrite app_nil_r. split; [reflexivity|]. split; [constructor|]. cbn. lia.
  - destruct (refund_one_spec gasPrice wl acc w)
      as (acc1 & w1 & -> & (added1 & Hs1 & HP1 & Hl1 & Hsucc1) & Hm1 & Hf1 & Hsum1).
    destruct (IH acc1 w1)
      as (acc2 & w2 & -> & (added2 & Hs2 & HP2 & Hl2 & Hsucc2) & Hm2 & Hf2 & Hsum2).
    exists acc2, w2. split; [reflexivity|]. split.
    + exists (added1 ++ added2)%list. rewrite Hs2, Hs1, <- app_assoc.
      split; [reflexivity|]. split; [apply Forall_app; split; assumption|].
      rewrite length_app. cbn [length]. split; lia.
    + cbn [length]. lia.
Qed.

Hypothesis positive_batch : 0 < batchSize chain.

Lemma refund_batches_spec (fuel : nat) gasPrice i wallets acc w :
  0 <= i ->
  Z.max 0 (Z.of_nat (length wallets) - i) < Z.of_nat fuel ->
  exists acc' w',
    refund_batches cfg chain script env fuel gasPrice i wallets acc w
    = (Normal tt, (acc', w'))
    /\ (exists added, rev (signed w') = (rev (signed w) ++ added)%list
                      /\ Forall (refund_tx chain (BASE_ADDR script) gasPrice) added
                      /\ Z.of_nat (length added) <= Z.max 0 (Z.of_nat (length wallets) - i)
                      /\ successfulRefunds acc'
                         <= successfulRefunds acc + Z.of_nat (length added))
    /\ successfulRefunds acc <= successfulRefunds acc'
    /\ failedRefunds acc <= failedRefunds acc'
    /\ successfulRefunds acc' + failedRefunds acc'
       <= successfulRefunds acc + failedRefunds acc
          + Z.max 0 (Z.of_nat (length wallets) - i).
Proof.
  revert i acc w. induction fuel as [|fuel IH]; intros i acc w Hi Hfuel; [lia|].
  cbn [refund_batches]. set (n := Z.of_nat (length wallets)) in *.
  destruct (i <? n) eqn:Hlt.
  2:{ apply Z.ltb_ge in Hlt. exists acc, w. split; [reflexivity|]. split; [|lia].
      exists []. rewrite app_nil_r. split; [reflexivity|]. split; [constructor|]. cbn. lia. }
  apply Z.ltb_lt in Hlt.
  set (batch := js_slice i (i + batchSize chain) wallets).
  assert (Z.of_nat (length batch) = Z.min (i + batchSize chain) n - i) as Hlen.
  { subst batch. unfold js_slice.
    assert ((i <? 0) = false) as -> by (apply Z.ltb_ge; lia).
    assert ((i + batchSize chain <? 0) = false) as -> by (apply Z.ltb_ge; lia).
    fold n. rewrite length_take, length_drop. lia. }
  destruct (refund_each_spec gasPrice batch acc w)
    as (acc1 & w1 & -> & (added1 & Hs1 & HP1 & Hl1 & Hsucc1) & Hm1 & Hf1 & Hsum1).
  set (w2 := if i + batchSize chain <? n then sleep_ms (teardownDelay script) w1 else w1).
  assert (signed w2 = signed w1) as Hw2
    by (subst w2; destruct (i + batchSize chain <? n); reflexivity).
  destruct (IH (i + batchSize chain) acc1 w2)
    as (acc2 & w3 & -> & (added2 & Hs2 & HP2 & Hl2 & Hsucc2) & Hm2 & Hf2 & Hsum2);
    [lia | fold n; lia |].
  fold n in Hl2, Hsum2.
  exists acc2, w3. split; [reflexivity|]. split.
  - exists (added1 ++ added2)%list. rewrite Hs2, Hw2, Hs1, <- app_assoc.
    split; [reflexivity|]. split; [apply Forall_app; split; assumption|].
    rewrite length_app. split; lia.
  - lia.
Qed.

End Teardown.

(** X5.  With a positive batch size, [teardown] of the modular script never
    throws, whatever the node answers.  Every transaction it hands to the
    signer is a plain transfer to the base wallet whose value exceeds the
    gas cost taken off the balance, at most one per wallet; at most one
    refund is counted per wallet, successful or failed, and no more
    successes than transactions signed.  In a read-only scenario it only
    sleeps. *)
Theorem teardown_refunds (cfg : RpcClient.Settings) (chain : WalletManager.ChainConfig)
    (script : Script.ScriptConfig) (env : Env) (wallets : list WalletManager.Wallet)
    (w : World) :
  0 < WalletManager.batchSize chain ->
  let res := Script.teardown cfg chain script env wallets w in
  let counters := fst (snd res) in
  let w' := snd (snd res) in
  fst res = Normal tt
  /\ (exists gasPrice refunds,
        rev (signed w') = (rev (signed w) ++ refunds)%list
        /\ Forall (refund_tx chain (Script.BASE_ADDR script) gasPrice) refunds
        /\ (length refunds <= length wallets)%nat
        /\ 0 <= Script.successfulRefunds counters <= Z.of_nat (length refunds)
        /\ 0 <= Script.failedRefunds counters
        /\ Script.successfulRefunds counters + Script.failedRefunds counters
           <= Z.of_nat (length wallets))
  /\ (Monolith.string_in (Script.SCENARIO script) (Script.WRITE_SCENARIOS script) = false ->
      w' = sleep_ms (Script.settlementWait script) w
      /\ counters = Script.MkRecovery 0 0 0).
Proof.
  intros Hbatch res counters w'. subst w' counters res. unfold Script.teardown.
  destruct (Monolith.string_in (Script.SCENARIO script) (Script.WRITE_SCENARIOS script));
    cbn [negb fst snd].
  2:{ split; [reflexivity|]. split; [|intros _; split; reflexivity].
      exists NaN, []. rewrite app_nil_r. cbn.
      split; [reflexivity|]. split; [constructor|]. lia. }
  match goal with
  | |- context [WalletManager.call cfg env ?u ?m ?p ?t ?w0] =>
      pose proof (call_frame cfg env u m p t w0) as (Hs1 & _ & Hd1);
      destruct (WalletManager.call cfg env u m p t w0) as [[r|e|] w1]
  end; cbn [fst snd] in *; [| | contradiction].
  2:{ split; [reflexivity|]. split; [|discriminate].
      exists NaN, []. rewrite app_nil_r, Hs1. cbn.
      split; [reflexivity|]. split; [constructor|]. lia. }
  set (gasPrice := Script.scale_teardown script (js_Number r)).
  destruct (refund_batches_spec cfg chain script env Hbatch (S (length wallets)) gasPrice 0
              wallets (Script.MkRecovery 0 0 0) w1 ltac:(lia) ltac:(lia))
    as (acc & w2 & -> & (added & Hs & HP & Hl & Hsucc) & Hm & Hf & Hsum).
  cbn [fst snd Script.successfulRefunds Script.failedRefunds] in *.
  split; [reflexivity|]. split; [|discriminate].
  exists gasPrice, added. rewrite Hs, Hs1. cbn [sleep_ms signed].
  split; [reflexivity|]. split; [exact HP|]. lia.
Qed.


Lemma teardown_refunds_witness :
  0 < WalletManager.batchSize Fixtures.chain_cfg
  /\ fst (Script.teardown Fixtures.lib_cfg Fixtures.chain_cfg Samples.script_s12
            Fixtures.env_pending_5
            [Fixtures.wallet_a; Fixtures.wallet_b; Fixtures.wallet_c] Fixtures.w0)
     = Normal tt
  /\ fst (snd (Script.teardown Fixtures.lib_cfg Fixtures.chain_cfg Samples.script_s12
                 Fixtures.env_down
                 [Fixtures.wallet_a; Fixtures.wallet_b; Fixtures.wallet_c] Fixtures.w0))
     = Script.MkRecovery 0 0 0.
Proof.
  split; [reflexivity|].
  split.
  - exact (proj1 (teardown_refunds Fixtures.lib_cfg Fixtures.chain_cfg Samples.script_s12
                    Fixtures.env_pending_5
                    [Fixtures.wallet_a; Fixtures.wallet_b; Fixtures.wallet_c] Fixtures.w0
                    eq_refl)).
  - vm_compute. reflexivity.
Defined.

(* ===================================================================== *)
(** ** Decimal numerals *)
(* ===================================================================== *)

Lemma digit_of_pretty_N_char (d : N) :
  (d < 10)%N ->
  digit_of 10 (pretty_N_char d) = Some (Z.of_N d)
  /\ JsText.is_digit (pretty_N_char d) = true.
Proof.
  intros H.
  assert (d = 0 \/ d = 1 \/ d = 2 \/ d = 3 \/ d = 4 \/ d = 5 \/ d = 6 \/ d = 7 \/ d = 8
          \/ d = 9)%N as Hd by lia.
  repeat destruct Hd as [-> | Hd]; try (split; reflexivity). subst d. split; reflexivity.
Qed.

Lemma all_chars_app (p : ascii -> bool) (s t : string) :
  JsText.all_chars p (s +:+ t) = JsText.all_chars p s && JsText.all_chars p t.
Proof.
  induction s as [|c s IH]; [reflexivity|].
  change (String c s +:+ t) with (String c (s +:+ t)). cbn [JsText.all_chars].
  rewrite IH. apply andb_assoc.
Qed.

(** The digits [pretty_N_go] writes in front of [s] read back as [x]. *)
Lemma pretty_N_go_reads_back (x : N) :
  forall s, exists digits,
    pretty_N_go x s = digits +:+ s
    /\ JsText.all_chars JsText.is_digit digits = true
    /\ ((0 < x)%N -> digits <> "")
    /\ forall a rest,
         digits_from 10 a (digits +:+ rest)
         = digits_from 10 (a * 10 ^ Z.of_nat (String.length digits) + Z.of_N x) rest.
Proof.
  induction (N.lt_wf_0 x) as [x _ IH]. intros s.
  destruct (N.eq_dec x 0%N) as [->|Hne].
  - exists "". rewrite pretty_N_go_0. split; [reflexivity|]. split; [reflexivity|].
    split; [lia|]. intros a rest. cbn. f_equal. lia.
  - assert (0 < x)%N as Hpos by lia.
    rewrite pretty_N_go_step by exact Hpos.
    set (c := pretty_N_char (x `mod` 10)%N).
    destruct (digit_of_pretty_N_char (x `mod` 10)%N) as [Hc Hd];
      [apply N.mod_lt; lia|]. fold c in Hc, Hd.
    destruct (IH (x `div` 10)%N ltac:(apply N.div_lt; lia) (String c s))
      as (ds & Heq & Hall & _ & Hread).
    exists (ds +:+ String c ""). split.
    { rewrite Heq, string_app_assoc. reflexivity. }
    split; [rewrite all_chars_app, Hall; cbn; rewrite Hd; reflexivity|].
    split; [intros _ Hnil; apply (f_equal String.length) in Hnil;
            rewrite string_length_app in Hnil; cbn in Hnil; lia|].
    intros a rest. rewrite string_app_assoc.
    change (String c "" +:+ rest) with (String c rest).
    rewrite Hread. cbn [digits_from]. rewrite Hc. f_equal.
    rewrite string_length_app. cbn [String.length].
    rewrite Nat2Z.inj_add. change (Z.of_nat 1) with 1.
    rewrite Z.pow_add_r by lia. change (10 ^ 1) with 10.
    pose proof (N.div_mod x 10%N ltac:(lia)) as Hdm.
    assert (Z.of_N x = 10 * Z.of_N (x `div` 10) + Z.of_N (x `mod` 10)%N) by lia.
    lia.
Qed.

(** The decimal text of a non-negative integer: digits only, not empty,
    reading back as the integer. *)
Lemma pretty_reads_back (n : Z) :
  0 <= n ->
  JsText.all_chars JsText.is_digit (pretty n) = true
  /\ pretty n <> ""
  /\ digits_from 10 0 (pretty n) = Fin n.
Proof.
  intros Hn. destruct n as [|p|p]; [repeat split; discriminate | | lia].
  change (pretty (Z.pos p)) with (pretty (N.pos p)). unfold pretty, pretty_N.
  destruct (decide (N.pos p = 0%N)) as [Heq|_]; [discriminate|].
  destruct (pretty_N_go_reads_back (N.pos p) "") as (ds & Heq & Hall & Hne & Hread).
  rewrite Heq, string_app_nil_r. split; [exact Hall|]. split; [apply Hne; lia|].
  specialize (Hread 0 ""). rewrite string_app_nil_r in Hread. rewrite Hread.
  cbn [digits_from]. f_equal.
Qed.

Lemma span_chars_app (p : ascii -> bool) (s t : string) :
  JsText.all_chars p s = true ->
  match t with String c _ => p c = false | EmptyString => True end ->
  JsText.span_chars p (s +:+ t) = (s, t).
Proof.
  intros Hs Ht. induction s as [|c s IH].
  - destruct t as [|c t]; [reflexivity|].
    change ("" +:+ String c t) with (String c t). cbn [JsText.span_chars].
    rewrite Ht. reflexivity.
  - change (String c s +:+ t) with (String c (s +:+ t)). cbn [JsText.span_chars].
    cbn [JsText.all_chars] in Hs. apply andb_true_iff in Hs as [Hc Hs].
    rewrite Hc, (IH Hs). reflexivity.
Qed.

Lemma span_chars_spec (p : ascii -> bool) (s : string) :
  let '(a, b) := JsText.span_chars p s in
  s = a +:+ b /\ JsText.all_chars p a = true.
Proof.
  induction s as [|c s IH]; [split; reflexivity|].
  cbn [JsText.span_chars]. destruct (p c) eqn:Hc; [|split; reflexivity].
  destruct (JsText.span_chars p s) as [a b]. destruct IH as [-> Ha].
  split; [reflexivity|]. cbn. rewrite Hc. exact Ha.
Qed.

(* ===================================================================== *)
(** ** parseTimeout *)
(* ===================================================================== *)

Lemma parseTimeout_numeral (n : Z) (unit : string) (factor : Z) :
  0 <= n ->
  Startup.unit_factor unit = Some factor ->
  Startup.parseTimeout (VStr (pretty n +:+ unit)) = Normal (Startup.Ms (Fin (n * factor))).
Proof.
  intros Hn Hunit. destruct (pretty_reads_back n Hn) as (Hall & Hne & Hread).
  assert (match unit with
          | String c _ => JsText.is_digit c = false
          | EmptyString => True
          end /\ match unit with String "." _ => False | _ => True end) as [Hfirst Hdot].
  { unfold Startup.unit_factor in Hunit.
    destruct (String.eqb unit "") eqn:H0; [apply String.eqb_eq in H0; subst; split; exact I|].
    destruct (String.eqb unit "ms") eqn:H1;
      [apply String.eqb_eq in H1; subst; split; [reflexivity | exact I]|].
    destruct (String.eqb unit "s") eqn:H2;
      [apply String.eqb_eq in H2; subst; split; [reflexivity | exact I]|].
    destruct (String.eqb unit "m") eqn:H3;
      [apply String.eqb_eq in H3; subst; split; [reflexivity | exact I]|].
    discriminate. }
  unfold Startup.parseTimeout. rewrite (span_chars_app _ _ _ Hall Hfirst).
  apply String.eqb_neq in Hne. rewrite Hne.
  assert (match unit with
          | String "." after =>
              let '(digits, rest') := JsText.span_chars JsText.is_digit after in
              if String.eqb digits "" then ("", unit) else (digits, rest')
          | _ => ("", unit)
          end = ("", unit)) as ->.
  { destruct unit as [|c u]; [reflexivity|].
    destruct c as [[] [] [] [] [] [] [] []]; try reflexivity. contradiction. }
  rewrite Hunit. cbn [String.eqb]. rewrite Hread. reflexivity.
Qed.



Lemma unit_factor_cases (u : string) (f : Z) :
  Startup.unit_factor u = Some f -> u = "" \/ u = "ms" \/ u = "s" \/ u = "m".
Proof.
  unfold Startup.unit_factor. intros H.
  destruct (String.eqb u "") eqn:H0; [apply String.eqb_eq in H0; auto|].
  destruct (String.eqb u "ms") eqn:H1; [apply String.eqb_eq in H1; auto|].
  destruct (String.eqb u "s") eqn:H2; [apply String.eqb_eq in H2; auto|].
  destruct (String.eqb u "m") eqn:H3; [apply String.eqb_eq in H3; auto|].
  discriminate.
Qed.

Lemma all_chars_weaken (p q : ascii -> bool) (s : string) :
  (forall c, p c = true -> q c = true) ->
  JsText.all_chars p s = true -> JsText.all_chars q s = true.
Proof.
  intros Hpq. induction s as [|c s IH]; [reflexivity|]. cbn [JsText.all_chars].
  intros H. apply andb_true_iff in H as [Hc Hs]. rewrite (Hpq c Hc), (IH Hs). reflexivity.
Qed.

(** X7.  A text that [parseTimeout] accepts begins with a digit and holds
    nothing but digits, dots and the letters [m] and [s]: an empty text, a
    sign, a space or any other unit makes it throw. *)
Theorem parseTimeout_accepts_only (s : string) (r : Startup.Millis) :
  Startup.parseTimeout (VStr s) = Normal r ->
  (exists c rest, s = String c rest /\ JsText.is_digit c = true)
  /\ JsText.all_chars (fun c => JsText.is_digit c || Ascii.eqb c "." || Ascii.eqb c "m"
                                || Ascii.eqb c "s") s = true.
Proof.
  set (ok := fun c => JsText.is_digit c || Ascii.eqb c "." || Ascii.eqb c "m"
                      || Ascii.eqb c "s").
  assert (forall t, JsText.all_chars JsText.is_digit t = true -> JsText.all_chars ok t = true)
    as Hdigits.
  { intros t. apply all_chars_weaken. intros c Hc. unfold ok. rewrite Hc. reflexivity. }
  assert (forall u f, Startup.unit_factor u = Some f -> JsText.all_chars ok u = true) as Hunit.
  { intros u f Hu. destruct (unit_factor_cases u f Hu) as [-> | [-> | [-> | ->]]]; reflexivity. }
  unfold Startup.parseTimeout.
  pose proof (span_chars_spec JsText.is_digit s) as Hspan.
  destruct (JsText.span_chars JsText.is_digit s) as [whole rest].
  destruct Hspan as [-> Hwhole].
  destruct (String.eqb whole "") eqn:Hempty; [discriminate|].
  apply String.eqb_neq in Hempty. intros H.
  split.
  { destruct whole as [|c whole]; [contradiction|]. exists c, (whole +:+ rest).
    split; [reflexivity|]. cbn [JsText.all_chars] in Hwhole.
    apply andb_true_iff in Hwhole as [Hc _]. exact Hc. }
  rewrite all_chars_app, (Hdigits _ Hwhole). cbn [andb].
  destruct rest as [|c after].
  - reflexivity.
  - destruct (Ascii.eqb c ".") eqn:Hdot.
    + apply Ascii.eqb_eq in Hdot. subst c.
      pose proof (span_chars_spec JsText.is_digit after) as Hspan2.
      destruct (JsText.span_chars JsText.is_digit after) as [digits rest'].
      destruct Hspan2 as [-> Hds].
      destruct (String.eqb digits "") eqn:Hnone.
      * destruct (Startup.unit_factor (String "." (digits +:+ rest'))) eqn:Hu;
          [|discriminate].
        destruct (unit_factor_cases _ _ Hu) as [Hx|[Hx|[Hx|Hx]]]; discriminate Hx.
      * destruct (Startup.unit_factor rest') eqn:Hu; [|discriminate].
        change (String "." (digits +:+ rest')) with (String "." "" +:+ (digits +:+ rest')).
        rewrite !all_chars_app, (Hdigits _ Hds), (Hunit _ _ Hu). reflexivity.
    + assert (match String c after with
              | String "." after0 =>
                  let '(digits, rest') := JsText.span_chars JsText.is_digit after0 in
                  if String.eqb digits "" then ("", String c after) else (digits, rest')
              | _ => ("", String c after)
              end = ("", String c after)) as Hsame.
      { destruct c as [[] [] [] [] [] [] [] []]; try reflexivity. discriminate Hdot. }
      rewrite Hsame in H.
      destruct (Startup.unit_factor (String c after)) eqn:Hu; [|discriminate].
      exact (Hunit _ _ Hu).
Qed.

Lemma parseTimeout_accepts_only_witness :
  Startup.parseTimeout (VStr "250ms") = Normal (Startup.Ms (Fin 250))
  /\ exists c rest, "250ms" = String c rest /\ JsText.is_digit c = true.
Proof.
  assert (Startup.parseTimeout (VStr "250ms") = Normal (Startup.Ms (Fin 250))) as H
    by reflexivity.
  split; [exact H|].
  destruct (parseTimeout_accepts_only "250ms" _ H) as [Hfirst _]. exact Hfirst.
Defined.

(* ===================================================================== *)
(** ** Endpoints *)
(* ===================================================================== *)

Lemma first_failing_none (p : string -> bool) (l : list string) :
  Startup.first_failing p l = None -> Forall (fun x => p x = true) l.
Proof.
  induction l as [|x l IH]; cbn [Startup.first_failing]; [constructor|].
  destruct (p x) eqn:Hx; [|discriminate]. intros H. constructor; [exact Hx | exact (IH H)].
Qed.

Lemma matches_rpc_url_shape (url : string) :
  Startup.matches_rpc_url url = true ->
  exists rest, rest <> ""
    /\ ((url = "http://" +:+ rest /\ JsText.http_to_ws url = "ws://" +:+ rest)
        \/ (url = "https://" +:+ rest /\ JsText.http_to_ws url = "wss://" +:+ rest)).
Proof.
  unfold Startup.matches_rpc_url. intros H.
  destruct url as [|c1 [|c2 [|c3 [|c4 rest]]]]; try discriminate;
    try (destruct c1 as [[] [] [] [] [] [] [] []]; discriminate);
    try (destruct c1 as [[] [] [] [] [] [] [] []]; try discriminate;
         destruct c2 as [[] [] [] [] [] [] [] []]; discriminate);
    try (destruct c1 as [[] [] [] [] [] [] [] []]; try discriminate;
         destruct c2 as [[] [] [] [] [] [] [] []]; try discriminate;
         destruct c3 as [[] [] [] [] [] [] [] []]; discriminate).
  destruct (Ascii.eqb c1 "h") eqn:H1;
    [apply Ascii.eqb_eq in H1; subst c1
    | destruct c1 as [[] [] [] [] [] [] [] []]; discriminate].
  destruct (Ascii.eqb c2 "t") eqn:H2;
    [apply Ascii.eqb_eq in H2; subst c2
    | destruct c2 as [[] [] [] [] [] [] [] []]; discriminate].
  destruct (Ascii.eqb c3 "t") eqn:H3;
    [apply Ascii.eqb_eq in H3; subst c3
    | destruct c3 as [[] [] [] [] [] [] [] []]; discriminate].
  destruct (Ascii.eqb c4 "p") eqn:H4;
    [apply Ascii.eqb_eq in H4; subst c4
    | destruct c4 as [[] [] [] [] [] [] [] []]; discriminate].
  assert (forall r, match r with
                    | String ":" (String "/" (String "/" (String c _))) =>
                        negb (Startup.is_line_terminator c)
                    | _ => false
                    end = true ->
                    exists tail, tail <> "" /\ r = "://" +:+ tail) as Hscheme.
  { intros r Hr. destruct r as [|d1 [|d2 [|d3 [|d4 tail]]]]; try discriminate;
      try (destruct d1 as [[] [] [] [] [] [] [] []]; discriminate);
      try (destruct d1 as [[] [] [] [] [] [] [] []]; try discriminate;
           destruct d2 as [[] [] [] [] [] [] [] []]; discriminate);
      try (destruct d1 as [[] [] [] [] [] [] [] []]; try discriminate;
           destruct d2 as [[] [] [] [] [] [] [] []]; try discriminate;
           destruct d3 as [[] [] [] [] [] [] [] []]; discriminate).
    destruct (Ascii.eqb d1 ":") eqn:E1;
      [apply Ascii.eqb_eq in E1; subst d1
      | destruct d1 as [[] [] [] [] [] [] [] []]; discriminate].
    destruct (Ascii.eqb d2 "/") eqn:E2;
      [apply Ascii.eqb_eq in E2; subst d2
      | destruct d2 as [[] [] [] [] [] [] [] []]; discriminate].
    destruct (Ascii.eqb d3 "/") eqn:E3;
      [apply Ascii.eqb_eq in E3; subst d3
      | destruct d3 as [[] [] [] [] [] [] [] []]; discriminate].
    exists (String d4 tail). split; [discriminate | reflexivity]. }
  cbv zeta in H.
  destruct rest as [|c5 rest5].
  - discriminate.
  - destruct (Ascii.eqb c5 "s") eqn:H5.
    + apply Ascii.eqb_eq in H5. subst c5.
      destruct (Hscheme rest5 H) as (tail & Hne & ->).
      exists tail. split; [exact Hne|]. right. split; reflexivity.
    + assert (match String c5 rest5 with String "s" r => r | _ => String c5 rest5 end
              = String c5 rest5) as Hsame.
      { destruct c5 as [[] [] [] [] [] [] [] []]; try reflexivity. discriminate H5. }
      rewrite Hsame in H. destruct (Hscheme (String c5 rest5) H) as (tail & Hne & Heq).
      rewrite Heq. exists tail. split; [exact Hne|]. left. split; reflexivity.
Qed.

Lemma endpoints_in_range (urls : list string) (vu : Z) :
  urls <> [] -> 1 <= vu ->
  exists rpcUrl, Script.endpoints urls vu = Some (rpcUrl, JsText.http_to_ws rpcUrl)
                 /\ In rpcUrl urls
                 /\ Script.endpoints urls (vu + Z.of_nat (length urls))
                    = Script.endpoints urls vu.
Proof.
  intros Hne Hvu. unfold Script.endpoints, Script.js_rem.
  set (n := Z.of_nat (length urls)).
  assert (0 < n) as Hn by (subst n; destruct urls; [contradiction | cbn; lia]).
  assert ((n =? 0) = false) as -> by (apply Z.eqb_neq; lia).
  assert (Z.rem (vu + n - 1) n = Z.rem (vu - 1) n) as Hround.
  { rewrite !Z.rem_mod_nonneg by lia.
    replace (vu + n - 1) with (vu - 1 + 1 * n) by lia. apply Z_mod_plus_full. }
  rewrite Hround.
  assert (0 <= Z.rem (vu - 1) n < n) as Hrange by (apply Z.rem_bound_pos; lia).
  unfold Script.js_index.
  assert ((Z.rem (vu - 1) n <? 0) = false) as -> by (apply Z.ltb_ge; lia).
  destruct (urls !! Z.to_nat (Z.rem (vu - 1) n)) as [rpcUrl|] eqn:Hi.
  - exists rpcUrl. split; [reflexivity|]. split; [|reflexivity].
    apply list_elem_of_In. eapply list_elem_of_lookup_2. exact Hi.
  - apply lookup_ge_None in Hi. lia.
Qed.

(** X8.  When the script loads with an endpoint list, the list is not
    empty and every virtual user (numbered from 1) is given one of its
    entries, round robin: the entry begins with [http://] or [https://]
    followed by at least one character, and the WebSocket URL derived from
    it is the same text with [ws://] or [wss://] instead. *)
Theorem every_vu_has_endpoints (x : option string) (urls : list string) (vu : Z) :
  Startup.load_rpc_urls x = Normal urls ->
  1 <= vu ->
  urls <> []
  /\ exists rpcUrl wsUrl rest,
       Script.endpoints urls vu = Some (rpcUrl, wsUrl)
       /\ In rpcUrl urls
       /\ rest <> ""
       /\ ((rpcUrl = "http://" +:+ rest /\ wsUrl = "ws://" +:+ rest)
           \/ (rpcUrl = "https://" +:+ rest /\ wsUrl = "wss://" +:+ rest))
       /\ Script.endpoints urls (vu + Z.of_nat (length urls)) = Script.endpoints urls vu.
Proof.
  intros Hload Hvu. unfold Startup.load_rpc_urls in Hload.
  destruct (Startup.parse_rpc_urls x) as [|u us] eqn:Hparse; [discriminate|].
  destruct (Startup.first_failing Startup.matches_rpc_url (u :: us)) eqn:Hfirst;
    [discriminate|].
  injection Hload as <-.
  assert (u :: us <> []) as Hne by discriminate. split; [exact Hne|].
  destruct (endpoints_in_range (u :: us) vu Hne Hvu) as (rpcUrl & He & Hin & Hround).
  pose proof (first_failing_none _ _ Hfirst) as Hall.
  rewrite Forall_forall in Hall. specialize (Hall rpcUrl ltac:(apply list_elem_of_In; exact Hin)).
  destruct (matches_rpc_url_shape rpcUrl Hall) as (rest & Hrest & Hshape).
  exists rpcUrl, (JsText.http_to_ws rpcUrl), rest.
  split; [exact He|]. split; [exact Hin|]. split; [exact Hrest|].
  split; [|exact Hround].
  destruct Hshape as [[H1 H2]|[H1 H2]]; [left | right]; split; assumption.
Qed.

Lemma every_vu_has_endpoints_witness :
  Startup.load_rpc_urls (Some " http://a:8545 , https://b ,")
  = Normal ["http://a:8545"; "https://b"]
  /\ 1 <= 4
  /\ exists rpcUrl wsUrl,
       Script.endpoints ["http://a:8545"; "https://b"] 4 = Some (rpcUrl, wsUrl)
       /\ In rpcUrl ["http://a:8545"; "https://b"].
Proof.
  assert (Startup.load_rpc_urls (Some " http://a:8545 , https://b ,")
          = Normal ["http://a:8545"; "https://b"]) as Hload by reflexivity.
  assert (1 <= 4) as Hvu by lia.
  split; [exact Hload|]. split; [exact Hvu|].
  destruct (every_vu_has_endpoints _ _ 4 Hload Hvu)
    as (_ & rpcUrl & wsUrl & rest & He & Hin & _).
  exists rpcUrl, wsUrl. split; [exact He | exact Hin].
Defined.

(* ===================================================================== *)
(** ** Retries of jsonCall (lib/rpc-client.js) *)
(* ===================================================================== *)

(** A world transformer that only records samples, none of them of the
    retry counter. *)
Lemma quiet_step (f : World -> World) (k : Tally) (w : World) :
  only_samples f ->
  tally (samples (f w)) = tally_add k (tally (samples w)) ->
  t_retry k = 0%nat ->
  sleeps (f w) = sleeps w /\ posts (f w) = posts w /\ sockets (f w) = sockets w
  /\ signed (f w) = signed w
  /\ count_metric "somnia_retry_count" (samples (f w))
     = count_metric "somnia_retry_count" (samples w).
Proof.
  intros Hf Ht Hk. destruct (Hf w) as (_ & Hp & _ & Hso & Hsl & Hsi).
  repeat split; try assumption.
  apply (f_equal t_retry) in Ht. cbn in Ht. rewrite Hk in Ht. exact Ht.
Qed.

Section LibRetries.
Import RpcClient.
Variable cfg : Settings.
Variable env : Env.
Variables (url : string) (method params : value).
Variable extraTags : gmap string value.
Variable expectFn : value -> bool.

Lemma pass_effects attempt w :
  match pass cfg env url method params extraTags expectFn attempt w with
  | Again w' =>
      posts w' = S (posts w) /\ sockets w' = sockets w
      /\ retry_effects (RETRY_DELAY_MS cfg) 1 w w'
  | Return _ w' =>
      posts w' = S (posts w) /\ sockets w' = sockets w
      /\ retry_effects (RETRY_DELAY_MS cfg) 0 w w'
  end.
Proof.
  unfold pass, retry_or_fail, after_parse, failed, retry_effects.
  repeat (cbv beta iota zeta;
          match goal with
          | |- context [match ?x with _ => _ end] =>
              lazymatch x with
              | context [match _ with _ => _ end] => fail
              | _ => destruct x
              end
          end);
    cbv beta iota zeta;
    repeat match goal with
           | |- context [Metrics.recordFailure ?t ?r ?o ?w0] =>
               destruct (quiet_step (Metrics.recordFailure t r o) _ w0
                           (recordFailure_only_samples t r o)
                           (recordFailure_tally t r o w0) eq_refl)
                 as (-> & -> & -> & -> & ->)
           | |- context [Metrics.updateStateMetrics ?m ?r ?t ?w0] =>
               destruct (quiet_step (Metrics.updateStateMetrics m r t) (MkTally 0 0 0 0 0 0) w0
                           (updateStateMetrics_only_samples m r t)
                           ltac:(rewrite updateStateMetrics_tally;
                                 destruct (tally (samples w0)); reflexivity) eq_refl)
                 as (-> & -> & -> & -> & ->)
           | |- context [Metrics.addRTT ?m ?t ?w0] =>
               destruct (quiet_step (Metrics.addRTT m t) (MkTally 0 0 0 0 0 0) w0
                           (addRTT_only_samples m t)
                           ltac:(rewrite addRTT_tally;
                                 destruct (tally (samples w0)); reflexivity) eq_refl)
                 as (-> & -> & -> & -> & ->)
           | |- context [Metrics.recordSuccess ?t ?w0] =>
               destruct (quiet_step (Metrics.recordSuccess t) _ w0
                           (recordSuccess_only_samples t)
                           (recordSuccess_tally t w0) eq_refl)
                 as (-> & -> & -> & -> & ->)
           end;
    repeat split; reflexivity.
Qed.

Lemma loop_effects (k : nat) attempt w :
  MAX_RETRIES cfg - attempt <= Z.of_nat k ->
  let res := jsonCall_loop cfg env url method params extraTags expectFn (S k) attempt w in
  exists retries : nat,
    Z.of_nat retries <= Z.max 0 (MAX_RETRIES cfg - attempt)
    /\ posts (snd res) = (posts w + S retries)%nat
    /\ sockets (snd res) = sockets w
    /\ retry_effects (RETRY_DELAY_MS cfg) retries w (snd res).
Proof.
  revert attempt w. induction k as [|k IH]; intros attempt w Hfuel res; subst res;
    rewrite loop_S; pose proof (pass_effects attempt w) as Hp;
    pose proof (pass_again cfg env url method params extraTags expectFn attempt w) as Hag;
    destruct (pass cfg env url method params extraTags expectFn attempt w) as [w'|c w'].
  - specialize (Hag w' eq_refl). lia.
  - cbn [fst snd]. destruct Hp as (Hposts & Hsock & Hsl & Hct & Hsi).
    exists 0%nat. split; [lia|]. split; [rewrite Hposts; lia|]. split; [exact Hsock|].
    split; [exact Hsl | split; [exact Hct | exact Hsi]].
  - specialize (Hag w' eq_refl). destruct Hp as (Hposts & Hsock & Hsl & Hct & Hsi).
    destruct (IH (attempt + 1) w' ltac:(lia)) as (r & Hk & Hp' & Hso' & Hsl' & Hct' & Hsi').
    exists (S r).
    split; [lia|]. split; [rewrite Hp', Hposts; lia|]. split; [congruence|].
    split; [|split].
    + rewrite Hsl', Hsl.
      change (replicate 1 (RETRY_DELAY_MS cfg)) with [RETRY_DELAY_MS cfg].
      rewrite (replicate_S_end r), <- app_assoc. reflexivity.
    + rewrite Hct', Hct. lia.
    + congruence.
  - cbn [fst snd]. destruct Hp as (Hposts & Hsock & Hsl & Hct & Hsi).
    exists 0%nat. split; [lia|]. split; [rewrite Hposts; lia|]. split; [exact Hsock|].
    split; [exact Hsl | split; [exact Hct | exact Hsi]].
Qed.

End LibRetries.

(** X9.  Whatever the node answers, a call of [jsonCall] of the modular
    client ends, after one POST and [retries] further ones, with
    [retries] at most [MAX_RETRIES - retryAttempt]: each retry is preceded
    by one sample of the retry counter and one sleep of [RETRY_DELAY_MS];
    the call opens no socket and signs nothing. *)
Theorem lib_jsonCall_retry_bound (cfg : RpcClient.Settings) (env : Env) (url : string)
    (method params : value) (extraTags : gmap string value) (expectFn : value -> bool)
    (attempt : Z) (w : World) :
  let res := RpcClient.jsonCall cfg env url method params extraTags expectFn attempt w in
  fst res <> Diverges
  /\ exists retries : nat,
       Z.of_nat retries <= Z.max 0 (RpcClient.MAX_RETRIES cfg - attempt)
       /\ posts (snd res) = (posts w + S retries)%nat
       /\ sockets (snd res) = sockets w
       /\ retry_effects (RpcClient.RETRY_DELAY_MS cfg) retries w (snd res).
Proof.
  intros res. subst res. split; [apply jsonCall_terminates|].
  unfold RpcClient.jsonCall. apply loop_effects. lia.
Qed.

(* ===================================================================== *)
(** ** Reconnections of wsSub (lib/websocket-client.js) *)
(* ===================================================================== *)

Lemma quiet_refl (w : World) : quiet w w.
Proof. repeat split. Qed.

Lemma quiet_after_emit name v t (w w1 : World) :
  String.eqb name "somnia_retry_count" = false ->
  quiet w w1 -> quiet w (emit name v t w1).
Proof.
  intros Hn (H1 & H2 & H3 & H4 & H5). unfold quiet.
  cbn [emit sleeps posts sockets signed samples count_metric metric]. rewrite Hn.
  repeat split; assumption.
Qed.

Lemma quiet_after_advance dt (w w1 : World) : quiet w w1 -> quiet w (advance dt w1).
Proof. intros H. exact H. Qed.

Lemma quiet_after_recordFailure t r o (w w1 : World) :
  quiet w w1 -> quiet w (Metrics.recordFailure t r o w1).
Proof.
  intros (H1 & H2 & H3 & H4 & H5).
  destruct (quiet_step (Metrics.recordFailure t r o) _ w1
              (recordFailure_only_samples t r o) (recordFailure_tally t r o w1) eq_refl)
    as (E1 & E2 & E3 & E4 & E5).
  unfold quiet. rewrite E1, E2, E3, E4, E5. repeat split; assumption.
Qed.

Lemma quiet_after_recordSuccess t (w w1 : World) :
  quiet w w1 -> quiet w (Metrics.recordSuccess t w1).
Proof.
  intros (H1 & H2 & H3 & H4 & H5).
  destruct (quiet_step (Metrics.recordSuccess t) _ w1
              (recordSuccess_only_samples t) (recordSuccess_tally t w1) eq_refl)
    as (E1 & E2 & E3 & E4 & E5).
  unfold quiet. rewrite E1, E2, E3, E4, E5. repeat split; assumption.
Qed.

Lemma quiet_after_addRTT ms t (w w1 : World) :
  quiet w w1 -> quiet w (Metrics.addRTT ms t w1).
Proof.
  intros (H1 & H2 & H3 & H4 & H5).
  assert (tally (samples (Metrics.addRTT ms t w1))
          = tally_add (MkTally 0 0 0 0 0 0) (tally (samples w1))) as Ht
    by (rewrite addRTT_tally; destruct (tally (samples w1)); reflexivity).
  destruct (quiet_step (Metrics.addRTT ms t) _ w1 (addRTT_only_samples ms t) Ht eq_refl)
    as (E1 & E2 & E3 & E4 & E5).
  unfold quiet. rewrite E1, E2, E3, E4, E5. repeat split; assumption.
Qed.

(** Closes [quiet w w'] when [w'] is a world known to be quiet under metric
    helpers, gauge and latency samples and clock advances. *)
Ltac solve_quiet :=
  repeat first
    [ assumption
    | apply quiet_refl
    | apply quiet_after_recordFailure
    | apply quiet_after_recordSuccess
    | apply quiet_after_addRTT
    | apply quiet_after_advance
    | apply quiet_after_emit; [reflexivity|]
    | match goal with
      | |- quiet _ (if ?c then _ else _) => destruct c
      end ].

Section LibCalm.
Import WebsocketClient.
Variable cfg : RpcClient.Settings.
Variable env : Env.
Variable maxRetries : Z.
Variable reconnect : Z -> World -> bool * Z * World.
Variables (startTime : Z) (reqId : value) (baseTags : gmap string value).

Lemma on_close_calm r0 code reason (r : Run) :
  lib_calm r0 r -> lib_calm r0 (on_close baseTags code reason r).
Proof.
  intros (Hd & Ha & Hq). unfold on_close, lib_calm. cbn [diverged retryAttempt world].
  split; [exact Hd|]. split; [exact Ha|]. solve_quiet.
Qed.

Lemma socket_close_calm r0 code reason (r : Run) :
  lib_calm r0 r -> lib_calm r0 (socket_close baseTags code reason r).
Proof.
  intros H. unfold socket_close. destruct (closed r); [exact H | apply on_close_calm, H].
Qed.

Lemma with_world_calm r0 f (r : Run) :
  (forall w, quiet (world r0) w -> quiet (world r0) (f w)) ->
  lib_calm r0 r -> lib_calm r0 (with_world f r).
Proof.
  intros Hf (Hd & Ha & Hq). unfold with_world, lib_calm. cbn [diverged retryAttempt world].
  split; [exact Hd|]. split; [exact Ha|]. apply Hf, Hq.
Qed.

Lemma on_message_calm r0 text (r : Run) :
  lib_calm r0 r -> lib_calm r0 (on_message env startTime reqId baseTags text r).
Proof.
  intros H. unfold on_message.
  destruct text as [m|response].
  { apply with_world_calm; [intros; solve_quiet | exact H]. }
  destruct (get response "id") as [id|].
  2:{ apply with_world_calm; [intros; solve_quiet | exact H]. }
  destruct (strict_eq id reqId && truthy (default VUndef (get response "error"))).
  { apply socket_close_calm. apply with_world_calm; [intros; solve_quiet | exact H]. }
  set (r1 := if strict_eq id reqId && truthy (default VUndef (get response "result"))
             then _ else r).
  assert (lib_calm r0 r1) as H1.
  { subst r1. destruct (strict_eq id reqId && truthy (default VUndef (get response "result"))).
    - apply with_world_calm; [intros; solve_quiet|].
      destruct H as (Hd & Ha & Hq). split; [exact Hd|]. split; [exact Ha|]. exact Hq.
    - exact H. }
  destruct (strict_eq (default VUndef (get response "method")) (VStr "eth_subscription")
            && truthy (default VUndef (get response "params"))).
  - apply socket_close_calm.
    apply with_world_calm; [intros; solve_quiet|].
    apply with_world_calm; [intros; solve_quiet | exact H1].
  - exact H1.
Qed.

(** Every handler but the error handler leaves the retry counter, the
    sleeps, the sockets and the requests as they are. *)
Lemma deliver_quiet (r : Run) ev :
  is_error ev = false ->
  let r' := deliver cfg env maxRetries reconnect startTime reqId baseTags r ev in
  diverged r' = diverged r /\ retryAttempt r' = retryAttempt r
  /\ quiet (world r) (world r').
Proof.
  intros Hev r'. subst r'. unfold deliver.
  assert (lib_calm r r) as Hr by (repeat split).
  destruct (closed r || diverged r); [exact Hr|].
  assert (forall dt, lib_calm r (with_world (advance dt) r)) as Hadv
    by (intros dt; apply with_world_calm; [intros; solve_quiet | exact Hr]).
  destruct ev as [dt raw text|dt|dt|dt code reason|dt msg]; try discriminate Hev.
  - apply on_message_calm, Hadv.
  - apply Hadv.
  - unfold on_timer. destruct (isConnected _); [apply socket_close_calm|]; apply Hadv.
  - apply on_close_calm, Hadv.
Qed.

End LibCalm.

Section LibReconnections.
Import WebsocketClient.
Variable cfg : RpcClient.Settings.
Variable env : Env.
Variables (wsUrl rpcUrl : string) (method params : value).
Variable options : SubOptions.

Lemma attemptConnection_effects (fuel : nat) (attempt : Z) (w : World) :
  Z.max 0 (maxRetries options - attempt) < Z.of_nat fuel ->
  let '(out_of_fuel, attempt', w') :=
    attemptConnection cfg env wsUrl rpcUrl method params options fuel attempt w in
  out_of_fuel = false
  /\ attempt' <= Z.max attempt (maxRetries options)
  /\ exists k : nat,
       Z.of_nat k = attempt' - attempt
       /\ sockets w' = (sockets w + S k)%nat
       /\ posts w' = posts w
       /\ retry_effects (RpcClient.RETRY_DELAY_MS cfg) k w w'.
Proof.
  revert attempt w. induction fuel as [|fuel IH]; intros attempt w Hfuel; [lia|].
  cbn [attemptConnection].
  set (w0 := next_draw (emit _ _ _ (next_socket (next_draw w)))).
  set (r0 := MkRun true VNull false false attempt w0).
  set (step := deliver cfg env (maxRetries options) _ _ _ _).
  set (events := ws_connect env _ wsUrl _).
  assert (diverged r0 = false
          /\ retryAttempt r0 <= Z.max attempt (maxRetries options)
          /\ exists k : nat,
               Z.of_nat k = retryAttempt r0 - attempt
               /\ sockets (world r0) = (sockets w + S k)%nat
               /\ posts (world r0) = posts w
               /\ retry_effects (RpcClient.RETRY_DELAY_MS cfg) k w (world r0)) as H0.
  { split; [reflexivity|]. split; [cbn; lia|]. exists 0%nat.
    split; [cbn; lia|]. split; [cbn; lia|]. split; [reflexivity|].
    repeat split. }
  clearbody r0 events. clear w0. revert r0 H0.
  induction events as [|ev events IHev]; intros r Hr; cbn [fold_left].
  - exact Hr.
  - apply IHev. destruct Hr as (Hd & Hle & k & Hk & Hso & Hpo & Hsl & Hct & Hsi).
    destruct (is_error ev) eqn:Herr.
    + destruct ev as [| | | |dt msg]; try discriminate. subst step. unfold deliver.
      rewrite Hd. destruct (closed r); cbn [orb].
      { split; [exact Hd|]. split; [exact Hle|]. exists k. repeat split; assumption. }
      unfold on_error. cbn [with_world world retryAttempt diverged closed subscriptionId].
      set (w1 := Metrics.recordFailure _ _ _ _).
      assert (quiet (world r) w1) as (Q1 & Q2 & Q3 & Q4 & Q5) by (subst w1; solve_quiet).
      destruct (retryAttempt r <? maxRetries options) eqn:Hlt.
      * apply Z.ltb_lt in Hlt.
        set (w2 := sleep_ms _ _).
        specialize (IH (retryAttempt r + 1) w2).
        destruct (attemptConnection cfg env wsUrl rpcUrl method params options fuel
                    (retryAttempt r + 1) w2) as [[d a'] w'].
        destruct IH as (Hd' & Hle' & k' & Hk' & Hso' & Hpo' & Hsl' & Hct' & Hsi'); [lia|].
        cbn [diverged retryAttempt world]. rewrite Hd', ?Hd. cbn [orb].
        split; [reflexivity|]. split; [lia|]. exists (k + S k')%nat.
        split; [lia|].
        subst w2. cbn [sleep_ms emit sockets posts sleeps samples signed count_metric metric]
          in Hso', Hpo', Hsl', Hct', Hsi'.
        change (String.eqb "somnia_retry_count" "somnia_retry_count") with true in Hct'.
        split; [rewrite Hso', Q3, Hso; lia|]. split; [rewrite Hpo', Q2, Hpo; reflexivity|].
        split; [|split].
        -- rewrite Hsl', Q1, Hsl. rewrite replicate_add.
           assert (forall (x : Z) n l, (replicate n x ++ x :: l = x :: replicate n x ++ l)%list)
             as Hcomm.
           { intros x n l. induction n as [|n IHn]; [reflexivity|]. cbn. rewrite IHn.
             reflexivity. }
           cbn [replicate]. rewrite <- app_assoc. cbn [app]. rewrite !Hcomm. f_equal.
           rewrite !app_assoc, <- !replicate_add, (Nat.add_comm k k'). reflexivity.
        -- cbv iota in Hct'. rewrite Hct', Q5, Hct. lia.
        -- rewrite Hsi', Q4, Hsi. reflexivity.
      * cbn [diverged retryAttempt world].
        split; [exact Hd|]. split; [exact Hle|]. exists k.
        split; [exact Hk|]. unfold retry_effects. rewrite Q1, Q2, Q3, Q4, Q5.
        repeat split; assumption.
    + subst step.
      match goal with
      | |- context [deliver cfg env (maxRetries options) ?rc ?st ?rid ?bt r ev] =>
          destruct (deliver_quiet cfg env (maxRetries options) rc st rid bt r ev Herr)
            as (Hd2 & Ha2 & Q1 & Q2 & Q3 & Q4 & Q5)
      end.
      split; [congruence|]. split; [lia|]. exists k. unfold retry_effects.
      rewrite Q1, Q2, Q3, Q4, Q5, Ha2. repeat split; assumption.
Qed.

End LibReconnections.

(** X10.  Whatever its sockets deliver, [wsSub] of the modular client
    returns after opening one socket and [retries] further ones, with
    [retries] at most [maxRetries]: each reconnection follows one sample of
    the retry counter and one sleep of [RETRY_DELAY_MS]; it makes no HTTP
    request. *)
Theorem lib_wsSub_reconnection_bound (cfg : RpcClient.Settings) (env : Env)
    (wsUrl rpcUrl : string) (method params : value)
    (options : WebsocketClient.SubOptions) (w : World) :
  let res := WebsocketClient.wsSub cfg env wsUrl rpcUrl method params options w in
  fst res = Normal tt
  /\ exists retries : nat,
       Z.of_nat retries <= Z.max 0 (WebsocketClient.maxRetries options)
       /\ sockets (snd res) = (sockets w + S retries)%nat
       /\ posts (snd res) = posts w
       /\ retry_effects (RpcClient.RETRY_DELAY_MS cfg) retries w (snd res).
Proof.
  intros res. subst res. unfold WebsocketClient.wsSub.
  pose proof (attemptConnection_effects cfg env wsUrl rpcUrl method params options
                (S (Z.to_nat (WebsocketClient.maxRetries options))) 0 w ltac:(lia)) as H.
  destruct (WebsocketClient.attemptConnection cfg env wsUrl rpcUrl method params options
              (S (Z.to_nat (WebsocketClient.maxRetries options))) 0 w) as [[d a] w'].
  destruct H as (-> & Hle & k & Hk & Hso & Hpo & Hre).
  cbn [fst snd]. split; [reflexivity|]. exists k.
  split; [lia|]. split; [exact Hso|]. split; [exact Hpo | exact Hre].
Qed.

(* ===================================================================== *)
(** ** Timeout detection and failure records (somnia_rpc_perf.js) *)
(* ===================================================================== *)

Lemma strict_eq_num (x : value) (n : Z) : strict_eq x (VNum n) = true <-> x = VNum n.
Proof.
  destruct x; cbn; split; try discriminate.
  - intros H. apply Z.eqb_eq in H. congruence.
  - intros H. injection H as ->. apply Z.eqb_refl.
Qed.

(** X11.  [detectTimeout] of the monolithic script reports a timeout
    exactly when the response carries error code 1050, or status 504 or
    408, or at least 95% of the timeout has elapsed since the request
    started, or its body is not empty and holds one of the timeout words;
    it then names at least one reason. *)
Theorem detectTimeout_exactly (view : Monolith.ResponseView) (start t : Z) (w : World) :
  let elapsed := now w - default start (Monolith.rv_start view) in
  let td := Monolith.detectTimeout view start t w in
  (Monolith.td_isTimeout td = true
   <-> (Monolith.rv_error_code view = VNum 1050
        \/ Monolith.rv_status view = VNum 504
        \/ Monolith.rv_status view = VNum 408
        \/ 95 * t <= 100 * elapsed
        \/ exists b, Monolith.rv_body view = Some b /\ b <> ""
                     /\ Monolith.timeout_words b = true))
  /\ (Monolith.td_isTimeout td = true <-> Monolith.td_reasons td <> [])
  /\ Monolith.td_actualDuration td = elapsed.
Proof.
  intros elapsed td. subst td. split; [|split; [|reflexivity]].
  - rewrite detectTimeout_any. fold elapsed. unfold Monolith.indicators. split.
    + intros (name & Hin). cbn [In] in Hin. unfold Monolith.reaches_threshold in Hin.
      destruct Hin as [H|[H|[H|[H|[H|[H|[H|[]]]]]]]]; injection H as _ H.
      * left. apply strict_eq_num. exact H.
      * apply andb_prop in H as [_ H]. apply Z.leb_le in H. tauto.
      * apply Z.leb_le in H. tauto.
      * destruct (Monolith.rv_body view) as [b|]; [|discriminate].
        apply andb_prop in H as [Hne Hw]. right; right; right; right. exists b.
        split; [reflexivity|]. split; [|exact Hw].
        apply negb_true_iff, String.eqb_neq in Hne. exact Hne.
      * right; left. apply strict_eq_num. exact H.
      * right; right; left. apply strict_eq_num. exact H.
      * apply andb_prop in H as [_ H]. apply Z.leb_le in H. tauto.
    + intros [H|[H|[H|[H|(b & Hb & Hne & Hw)]]]].
      * exists "error_code_timeout". rewrite H. cbn. tauto.
      * exists "gateway_timeout". rewrite H. cbn. tauto.
      * exists "request_timeout". rewrite H. cbn. tauto.
      * exists "duration_timeout". unfold Monolith.reaches_threshold.
        apply Z.leb_le in H. rewrite H. cbn. tauto.
      * exists "body_timeout". rewrite Hb, Hw.
        apply String.eqb_neq in Hne. rewrite Hne. cbn. tauto.
  - unfold Monolith.detectTimeout. cbn [Monolith.td_isTimeout Monolith.td_reasons].
    generalize (Monolith.indicators view (now w - default start (Monolith.rv_start view)) t).
    intros l. induction l as [|[name b] l IH]; cbn [existsb List.filter map snd fst].
    + split; [discriminate | intros H; contradiction].
    + destruct b; cbn [orb map]; [split; [discriminate | reflexivity] | exact IH].
Qed.

Lemma detectTimeout_exactly_witness :
  Monolith.td_isTimeout
    (Monolith.detectTimeout (Monolith.MkView None (VNum 0) (VNum 504) None)
       Fixtures.t0 15000 Fixtures.w0) = true.
Proof.
  apply (proj2 (proj1 (detectTimeout_exactly (Monolith.MkView None (VNum 0) (VNum 504) None)
                         Fixtures.t0 15000 Fixtures.w0))).
  right; left. reflexivity.
Defined.

Lemma recordFailure_detection (cfg : Monolith.Settings) (options : Monolith.FailureOptions)
    (w : World) :
  let d := match Monolith.response options, Monolith.requestStartTime options with
           | Some resp, Some start =>
               if start =? 0 then None
               else
                 let td := Monolith.detectTimeout resp start
                             (Monolith.zero_or (Monolith.timeoutMs options)
                                               (Monolith.PARSED_TIMEOUT_MS cfg)) w in
                 if Monolith.td_isTimeout td then Some td else None
           | _, _ => None
           end in
  (exists td, d = Some td)
  <-> exists resp start,
        Monolith.response options = Some resp
        /\ Monolith.requestStartTime options = Some start /\ start <> 0
        /\ Monolith.td_isTimeout
             (Monolith.detectTimeout resp start
                (Monolith.zero_or (Monolith.timeoutMs options)
                                  (Monolith.PARSED_TIMEOUT_MS cfg)) w) = true.
Proof.
  intros d. subst d.
  destruct (Monolith.response options) as [resp|];
    [|split; [intros [td H]; discriminate | intros (r & s & H & _); discriminate]].
  destruct (Monolith.requestStartTime options) as [start|];
    [|split; [intros [td H]; discriminate | intros (r & s & _ & H & _); discriminate]].
  destruct (Z.eqb_spec start 0) as [H0|H0].
  { split; [intros [td H]; discriminate|].
    intros (r & s & _ & H & Hne & _). injection H as <-. contradiction. }
  cbv zeta.
  destruct (Monolith.td_isTimeout _) eqn:Htd.
  - split; [|eauto]. intros _. exists resp, start. repeat split; assumption.
  - split; [intros [td H]; discriminate|].
    intros (r & s & Hr & Hs & _ & H). injection Hr as <-. injection Hs as <-.
    rewrite Htd in H. discriminate.
Qed.

(** X12.  [recordFailure] of the monolithic script adds one sample to the
    error counter and one to the error rate, and none to the success
    counter.  It adds one sample to the timeout rate exactly when the
    caller flags the failure as a timeout or [detectTimeout] reports one
    on the response handed over with a non-zero start time, and one to the
    timeout counter only in the second case. *)
Theorem monolith_recordFailure_counts (cfg : Monolith.Settings) (tags : gmap string value)
    (reason : string) (options : Monolith.FailureOptions) (w : World) :
  let w' := Monolith.recordFailure cfg tags reason options w in
  let detected :=
    exists resp start,
      Monolith.response options = Some resp
      /\ Monolith.requestStartTime options = Some start /\ start <> 0
      /\ Monolith.td_isTimeout
           (Monolith.detectTimeout resp start
              (Monolith.zero_or (Monolith.timeoutMs options)
                                (Monolith.PARSED_TIMEOUT_MS cfg)) w) = true in
  let flagged := truthy (Monolith.isTimeout options) = true in
  let count name w := count_metric name (samples w) in
  count "somnia_error_count" w' = S (count "somnia_error_count" w)
  /\ count "somnia_error_rate" w' = S (count "somnia_error_rate" w)
  /\ count "somnia_success_count" w' = count "somnia_success_count" w
  /\ (flagged \/ detected -> count "somnia_timeout_rate" w' = S (count "somnia_timeout_rate" w))
  /\ (~ (flagged \/ detected) -> count "somnia_timeout_rate" w' = count "somnia_timeout_rate" w)
  /\ (detected -> count "somnia_timeout_count" w' = S (count "somnia_timeout_count" w))
  /\ (~ detected -> count "somnia_timeout_count" w' = count "somnia_timeout_count" w).
Proof.
  intros w' detected flagged count. subst w' detected flagged count. cbv beta.
  pose proof (recordFailure_detection cfg options w) as Hd. cbv zeta in Hd.
  unfold Monolith.recordFailure.
  set (d := match Monolith.response options, Monolith.requestStartTime options with
            | Some _, Some _ => _ | _, _ => _ end) in *.
  destruct d as [td|], (truthy (tag tags "method")), (truthy (Monolith.isTimeout options)),
    (truthy (Monolith.isHttpError options)); cbn [orb];
    cbn [emit samples count_metric metric String.eqb Ascii.eqb Bool.eqb Nat.add];
    (repeat split; try reflexivity; try (intros _; reflexivity);
     try (intros H; exfalso; first
            [ apply H; first [ left; reflexivity | right; apply Hd; eauto | apply Hd; eauto ]
            | destruct H as [H|H]; [discriminate H | apply Hd in H; destruct H; discriminate]
            | apply Hd in H; destruct H; discriminate ])).
Qed.

Lemma monolith_recordFailure_counts_witness :
  count_metric "somnia_timeout_rate"
    (samples (Monolith.recordFailure Fixtures.mono_cfg ∅ "Connection timeout"
                (Monolith.MkOptions (VNum 0) (VBool true) VUndef None None None)
                Fixtures.w0))
  = 1%nat
  /\ count_metric "somnia_timeout_count"
       (samples (Monolith.recordFailure Fixtures.mono_cfg ∅ "Connection timeout"
                   (Monolith.MkOptions (VNum 0) (VBool true) VUndef None None None)
                   Fixtures.w0))
     = 0%nat.
Proof.
  destruct (monolith_recordFailure_counts Fixtures.mono_cfg ∅ "Connection timeout"
              (Monolith.MkOptions (VNum 0) (VBool true) VUndef None None None) Fixtures.w0)
    as (_ & _ & _ & Hrate & _ & _ & Hcount).
  split; [exact (Hrate (or_introl eq_refl))|].
  apply Hcount. intros (resp & start & H & _). discriminate H.
Defined.

(* ===================================================================== *)
(** ** Timeouts and protocol errors in jsonCall (somnia_rpc_perf.js) *)
(* ===================================================================== *)

(** X13.  In the monolithic [jsonCall], a response with status 408 or 504,
    or one that arrives when at least 95% of the request timeout has
    elapsed, or whose body holds a timeout word, is handled as a timeout
    whatever else it carries.  While attempts remain the call goes on as
    the call for the next attempt, after one sample of the retry counter
    tagged error_type = "timeout" and one sleep of [RETRY_DELAY_MS]; on
    the last attempt it returns undefined with one failure recorded, counted
    once in the timeout rate. *)
Theorem monolith_jsonCall_timeout_response (cfg : Monolith.Settings) (env : Env)
    (url : string) (method params : value) (extraTags : gmap string value)
    (expectFn : value -> bool) (attempt : Z) (w : World) (res : Response) :
  let call := Monolith.jsonCall cfg env url method params extraTags expectFn in
  let w1 := next_draw (next_draw w) in
  let payload := Monolith.rpc (VStr (pretty (now w * 1000 + Math_random env (draws w))))
                              method params in
  let ex := http_post env (posts w1) url payload in
  let w2 := advance (took ex) (next_post w1) in
  outcome ex = Responds res ->
  (status res = 408 \/ status res = 504
   \/ 95 * Monolith.PARSED_TIMEOUT_MS cfg <= 100 * took ex
   \/ exists b, body res = Some b /\ b <> "" /\ Monolith.timeout_words b = true) ->
  (attempt < Monolith.MAX_RETRIES cfg ->
     exists tags,
       call attempt w
       = call (attempt + 1)
              (sleep_ms (Monolith.RETRY_DELAY_MS cfg)
                        (emit "somnia_retry_count" (Fin 1) tags w2))
       /\ tags !! "error_type" = Some (VStr "timeout"))
  /\ (Monolith.MAX_RETRIES cfg <= attempt ->
     exists w',
       call attempt w = (Normal VUndef, w')
       /\ tally (samples w') = tally_add (MkTally 0 1 1 0 1 0) (tally (samples w))).
Proof.
  intros call w1 payload ex w2 Hout Hsig. subst call.
  assert (Monolith.td_isTimeout
            (Monolith.detectTimeout (Monolith.view_of res (now w)) (now w)
               (Monolith.PARSED_TIMEOUT_MS cfg) w2) = true) as Htd.
  { apply detectTimeout_signals.
    cbn [Monolith.view_of Monolith.rv_status Monolith.rv_body Monolith.rv_start default].
    destruct Hsig as [H|[H|[H|H]]].
    - left. rewrite H. reflexivity.
    - right; left. rewrite H. reflexivity.
    - right; right; right; left. subst w2 w1. cbn. lia.
    - right; right; right; right. exact H. }
  destruct (monolith_response_timeout cfg env url method params extraTags expectFn attempt
              w res Hout Htd) as [Hlt Hge].
  unfold Monolith.jsonCall. split; intros H.
  - destruct (Hlt H) as (tags & Hp & Ht). exists tags. split; [|exact Ht].
    rewrite mono_loop_S, Hp.
    replace (Z.to_nat (Monolith.MAX_RETRIES cfg - attempt))
      with (S (Z.to_nat (Monolith.MAX_RETRIES cfg - (attempt + 1)))) by lia.
    reflexivity.
  - destruct (Hge H) as (w' & Hp & Ht). exists w'. split; [|exact Ht].
    rewrite mono_loop_S, Hp. reflexivity.
Qed.

Lemma monolith_jsonCall_timeout_response_witness :
  outcome (http_post Fixtures.env_504 0 "http://node"
             (Monolith.rpc (VStr "1700000000000000") (VStr "eth_blockNumber") (VArr [])))
  = Responds Samples.gateway_response
  /\ status Samples.gateway_response = 504
  /\ Monolith.MAX_RETRIES Fixtures.mono_cfg <= 3
  /\ exists w',
       Monolith.jsonCall Fixtures.mono_cfg Fixtures.env_504 "http://node"
         (VStr "eth_blockNumber") (VArr []) ∅ (fun _ => true) 3 Fixtures.w0
       = (Normal VUndef, w')
       /\ tally (samples w') = tally_add (MkTally 0 1 1 0 1 0) (tally (samples Fixtures.w0)).
Proof.
  assert (outcome (http_post Fixtures.env_504 0 "http://node"
                     (Monolith.rpc (VStr "1700000000000000") (VStr "eth_blockNumber")
                                   (VArr [])))
          = Responds Samples.gateway_response) as Hout by reflexivity.
  assert (status Samples.gateway_response = 504) as Hst by reflexivity.
  assert (Monolith.MAX_RETRIES Fixtures.mono_cfg <= 3) as Hlast by (cbn; lia).
  split; [exact Hout|]. split; [exact Hst|]. split; [exact Hlast|].
  exact (proj2 (monolith_jsonCall_timeout_response Fixtures.mono_cfg Fixtures.env_504
                  "http://node" (VStr "eth_blockNumber") (VArr []) ∅ (fun _ => true) 3
                  Fixtures.w0 Samples.gateway_response Hout (or_intror (or_introl Hst)))
               Hlast).
Defined.



(* ===================================================================== *)
(** ** What every call records, and the gauge of live connections *)
(* ===================================================================== *)









(** X19.  In the monolithic script, a socket that delivers nothing but
    ['open'] until the idle timer fires is closed by [wsSub], which returns
    normally with one failure recorded and no success; the timeout rate
    receives two samples for it, one from the timer callback and one from
    [recordFailure], and the gauge is back at its value. *)
Theorem monolith_wsSub_idle_timeout (cfg : Monolith.Settings) (env : Env)
    (wsUrl rpcUrl : string) (method params : value) (options : Monolith.SubOptions)
    (w : World) (opens rest : list SocketEvent) (dt : Z) :
  (forall n u p, ws_connect env n u p = (opens ++ EvTimer dt :: rest)%list) ->
  forallb is_open opens = true ->
  let res := Monolith.wsSub cfg env wsUrl rpcUrl method params options w in
  fst res = Normal tt
  /\ tally (samples (snd res)) = tally_add (MkTally 0 1 1 0 2 0) (tally (samples w)).
Proof.
  intros Hev Hopens.
  exact (monolith_idle_timeout_is_failure cfg env wsUrl rpcUrl method params options w
           opens rest dt Hev Hopens).
Qed.

Lemma monolith_wsSub_idle_timeout_witness :
  (forall n u p, ws_connect Fixtures.env_silent_socket n u p
                 = ([EvOpen 5] ++ EvTimer 60000 :: [])%list)
  /\ forallb is_open [EvOpen 5] = true
  /\ tally (samples (snd (Monolith.wsSub Fixtures.mono_cfg Fixtures.env_silent_socket
                            "ws://node" "http://node" (VStr "eth_subscribe")
                            (VArr [VStr "newHeads"]) (Monolith.MkSubOptions None None)
                            Fixtures.w0)))
     = tally_add (MkTally 0 1 1 0 2 0) (tally (samples Fixtures.w0)).
Proof.
  assert (forall n u p, ws_connect Fixtures.env_silent_socket n u p
                        = ([EvOpen 5] ++ EvTimer 60000 :: [])%list) as Hev
    by (intros; reflexivity).
  split; [exact Hev|]. split; [reflexivity|].
  exact (proj2 (monolith_wsSub_idle_timeout Fixtures.mono_cfg Fixtures.env_silent_socket
                  "ws://node" "http://node" (VStr "eth_subscribe") (VArr [VStr "newHeads"])
                  (Monolith.MkSubOptions None None) Fixtures.w0 [EvOpen 5] [] 60000
                  Hev eq_refl)).
Defined.

(* ===================================================================== *)
(** ** The one socket of wsSub (somnia_rpc_perf.js) *)
(* ===================================================================== *)

Lemma quiet_after_monolith_recordFailure cfg t r o (w w1 : World) :
  quiet w w1 -> quiet w (Monolith.recordFailure cfg t r o w1).
Proof.
  intros (H1 & H2 & H3 & H4 & H5).
  destruct (monolith_recordFailure_tally cfg t r o w1) as (n & Ht & _).
  destruct (quiet_step (Monolith.recordFailure cfg t r o) _ w1
              (monolith_recordFailure_only_samples cfg t r o) Ht eq_refl)
    as (E1 & E2 & E3 & E4 & E5).
  unfold quiet. rewrite E1, E2, E3, E4, E5. repeat split; assumption.
Qed.

Ltac solve_monolith_quiet :=
  unfold Monolith.recordSuccess, Monolith.addRTT;
  repeat first
    [ assumption
    | apply quiet_refl
    | apply quiet_after_monolith_recordFailure
    | apply quiet_after_recordSuccess
    | apply quiet_after_addRTT
    | apply quiet_after_advance
    | apply quiet_after_emit; [reflexivity|]
    | match goal with
      | |- quiet _ (if ?c then _ else _) => destruct c
      end ].

Section MonolithOneSocket.
Import Monolith.
Variable cfg : Settings.
Variable env : Env.
Variables (timeout maxRetries : Z).
Variables (startTime : Z) (reqId : value) (baseTags : gmap string value).

Lemma mono_on_close_calm r0 code reason (r : Run) :
  monolith_calm r0 r ->
  monolith_calm r0 (on_close cfg timeout startTime baseTags code reason r).
Proof.
  intros (Ht & Hq). unfold on_close, monolith_calm. cbn [thrown world].
  split; [exact Ht|]. solve_monolith_quiet.
Qed.

Lemma mono_socket_close_calm r0 code reason (r : Run) :
  monolith_calm r0 r ->
  monolith_calm r0 (socket_close cfg timeout startTime baseTags code reason r).
Proof.
  intros H. unfold socket_close.
  destruct (closed r); [exact H | apply mono_on_close_calm, H].
Qed.

Lemma mono_with_world_calm r0 f (r : Run) :
  (forall w, quiet (world r0) w -> quiet (world r0) (f w)) ->
  monolith_calm r0 r -> monolith_calm r0 (with_world f r).
Proof.
  intros Hf (Ht & Hq). unfold with_world, monolith_calm. cbn [thrown world].
  split; [exact Ht|]. apply Hf, Hq.
Qed.

Lemma mono_on_message_calm r0 raw text (r : Run) :
  monolith_calm r0 r ->
  monolith_calm r0 (on_message cfg env timeout startTime reqId baseTags raw text r).
Proof.
  intros H. unfold on_message.
  destruct text as [m|response].
  { apply mono_with_world_calm; [intros; solve_monolith_quiet | exact H]. }
  destruct (get response "id") as [id|].
  2:{ apply mono_with_world_calm; [intros; solve_monolith_quiet | exact H]. }
  destruct (strict_eq id reqId && truthy (default VUndef (get response "error"))).
  { apply mono_socket_close_calm.
    apply mono_with_world_calm; [intros; solve_monolith_quiet | exact H]. }
  set (r1 := if strict_eq id reqId && truthy (default VUndef (get response "result"))
             then _ else r).
  assert (monolith_calm r0 r1) as H1.
  { subst r1. destruct (strict_eq id reqId && truthy (default VUndef (get response "result"))).
    - apply mono_with_world_calm; [intros; solve_monolith_quiet|].
      destruct H as (Ht & Hq). split; [exact Ht | exact Hq].
    - exact H. }
  destruct (strict_eq (default VUndef (get response "method")) (VStr "eth_subscription")
            && truthy (default VUndef (get response "params"))).
  - apply mono_socket_close_calm.
    apply mono_with_world_calm; [intros; solve_monolith_quiet|].
    apply mono_with_world_calm; [intros; solve_monolith_quiet | exact H1].
  - exact H1.
Qed.

(** No handler sleeps, posts, opens a socket, signs or counts a retry; and
    only the error handler lets an exception escape. *)
Lemma mono_deliver_quiet (r : Run) ev :
  let r' := deliver cfg env timeout maxRetries startTime reqId baseTags r ev in
  quiet (world r) (world r')
  /\ (thrown r' = thrown r \/ (is_error ev = true /\ thrown r' = Some "TypeError")).
Proof.
  intros r'. subst r'. unfold deliver.
  assert (monolith_calm r r) as Hr by (split; [reflexivity | apply quiet_refl]).
  assert (forall r1, monolith_calm r r1 ->
                     quiet (world r) (world r1)
                     /\ (thrown r1 = thrown r
                         \/ (is_error ev = true /\ thrown r1 = Some "TypeError"))) as Hcalm
    by (intros r1 [Ht Hq]; split; [exact Hq | left; exact Ht]).
  destruct (closed r || bool_decide (is_Some (thrown r))); [apply Hcalm, Hr|].
  assert (forall dt, monolith_calm r (with_world (advance dt) r)) as Hadv
    by (intros dt; apply mono_with_world_calm; [intros; solve_monolith_quiet | exact Hr]).
  destruct ev as [dt raw text|dt|dt|dt code reason|dt msg].
  - apply Hcalm, mono_on_message_calm, Hadv.
  - apply Hcalm, Hadv.
  - destruct (timerArmed r); [|apply Hcalm, Hr]. apply Hcalm.
    unfold on_timer. destruct (isConnected _); [|apply Hadv].
    apply mono_socket_close_calm.
    do 3 (apply mono_with_world_calm; [intros; solve_monolith_quiet|]). apply Hadv.
  - apply Hcalm, mono_on_close_calm, Hadv.
  - unfold on_error. cbn [with_world world retryCount thrown closed subscriptionId].
    destruct (retryCount r <? maxRetries); cbn [world thrown]; split;
      first [ solve [solve_monolith_quiet]
            | left; reflexivity
            | right; split; reflexivity ].
Qed.

Lemma mono_fold_quiet events (r : Run) :
  let r' := fold_left (deliver cfg env timeout maxRetries startTime reqId baseTags) events r in
  quiet (world r) (world r')
  /\ (thrown r' = thrown r
      \/ (thrown r' = Some "TypeError" /\ existsb is_error events = true)).
Proof.
  revert r. induction events as [|ev events IH]; intros r r'; subst r'; cbn [fold_left].
  - split; [apply quiet_refl | left; reflexivity].
  - destruct (mono_deliver_quiet r ev) as [(Q1 & Q2 & Q3 & Q4 & Q5) Ht].
    destruct (IH (deliver cfg env timeout maxRetries startTime reqId baseTags r ev))
      as [(P1 & P2 & P3 & P4 & P5) Ht'].
    split.
    + unfold quiet. rewrite P1, P2, P3, P4, P5. repeat split; assumption.
    + cbn [existsb]. destruct Ht' as [Ht'|[Ht' Hex]].
      * rewrite Ht'. destruct Ht as [Ht|[Herr Ht]]; [left; exact Ht|].
        right. rewrite Herr. split; [exact Ht | reflexivity].
      * right. rewrite Hex, orb_true_r. split; [exact Ht' | reflexivity].
Qed.

(** Once an exception has escaped a handler nothing more is delivered. *)
Lemma fold_thrown events (r : Run) e :
  thrown r = Some e ->
  fold_left (deliver cfg env timeout maxRetries startTime reqId baseTags) events r = r.
Proof.
  intros Ht. induction events as [|ev events IH]; [reflexivity|].
  cbn [fold_left].
  assert (deliver cfg env timeout maxRetries startTime reqId baseTags r ev = r) as ->
    by (unfold deliver; rewrite Ht; rewrite orb_true_r; reflexivity).
  exact IH.
Qed.

(** The error handler with retries left. *)
Lemma error_throws (r : Run) dt msg :
  closed r = false -> thrown r = None -> retryCount r < maxRetries ->
  let r' := deliver cfg env timeout maxRetries startTime reqId baseTags r (EvError dt msg) in
  thrown r' = Some "TypeError"
  /\ exists timeouts,
       tally (samples (world r'))
       = tally_add (MkTally 0 1 1 0 timeouts (-1)) (tally (samples (world r))).
Proof.
  intros Hc Ht Hlt r'. subst r'. unfold deliver. rewrite Hc, Ht. cbn [orb].
  change (bool_decide (is_Some (@None string))) with false. cbv iota.
  unfold on_error. cbn [with_world retryCount world].
  apply Z.ltb_lt in Hlt. rewrite Hlt. cbn [thrown world].
  split; [reflexivity|].
  match goal with
  | |- context [recordFailure cfg ?t ?rs ?o ?w0] =>
      destruct (monolith_recordFailure_tally cfg t rs o w0) as (n & Hn & _)
  end.
  exists n. rewrite Hn. tally_cases.
Qed.

End MonolithOneSocket.

(** X20.  [wsSub] of the monolithic script never reconnects: whatever the
    socket delivers, a call opens exactly one socket, makes no HTTP
    request, never sleeps and sends no sample to the retry counter.  It
    returns, or throws a TypeError, and it throws only if the socket has
    reported an error. *)
Theorem monolith_wsSub_never_reconnects (cfg : Monolith.Settings) (env : Env)
    (wsUrl rpcUrl : string) (method params : value) (options : Monolith.SubOptions)
    (w : World) :
  let res := Monolith.wsSub cfg env wsUrl rpcUrl method params options w in
  sockets (snd res) = S (sockets w)
  /\ posts (snd res) = posts w
  /\ sleeps (snd res) = sleeps w
  /\ signed (snd res) = signed w
  /\ count_metric "somnia_retry_count" (samples (snd res))
     = count_metric "somnia_retry_count" (samples w)
  /\ (fst res = Normal tt
      \/ (fst res = Throws "TypeError"
          /\ exists u p, existsb is_error (ws_connect env (sockets w) u p) = true)).
Proof.
  intros res. subst res. unfold Monolith.wsSub, Monolith.attemptConnection. cbn [fst snd].
  match goal with
  | |- context [fold_left (Monolith.deliver cfg env ?tmo ?mr ?st ?rid ?bt) ?evs ?r0] =>
      destruct (mono_fold_quiet cfg env tmo mr st rid bt evs r0)
        as [(Q1 & Q2 & Q3 & Q4 & Q5) Ht];
      set (r' := fold_left (Monolith.deliver cfg env tmo mr st rid bt) evs r0) in *
  end.
  cbn [Monolith.world Monolith.thrown next_draw next_socket emit sockets posts sleeps
       signed samples count_metric metric] in Q1, Q2, Q3, Q4, Q5, Ht.
  change (String.eqb "somnia_active_ws_connections" "somnia_retry_count") with false in Q5.
  cbv iota in Q5. cbn [Nat.add] in Q5.
  split; [exact Q3|]. split; [exact Q2|]. split; [exact Q1|]. split; [exact Q4|].
  split; [exact Q5|].
  destruct Ht as [Ht|[Ht Hex]]; rewrite Ht; [left; reflexivity|].
  right. split; [reflexivity|]. eauto.
Qed.



(* ===================================================================== *)
(** ** A well-formed answer *)
(* ===================================================================== *)





(* ===================================================================== *)
(** ** Nonces in setup (somnia_rpc_perf.js) *)
(* ===================================================================== *)

Section MonolithFrame.
Import Monolith.
Variable cfg : Settings.
Variable env : Env.
Variables (url : string) (method params : value).
Variable extraTags : gmap string value.
Variable expectFn : value -> bool.

(** A pass of the monolithic [jsonCall] signs nothing. *)
Lemma mono_pass_frame attempt w :
  match pass cfg env url method params extraTags expectFn attempt w with
  | Again w' | Return _ w' => signed w' = signed w
  end.
Proof.
  unfold pass, retry, after_parse, failed, recordSuccess, addRTT.
  repeat (cbv beta iota zeta;
          match goal with
          | |- context [match ?x with _ => _ end] =>
              lazymatch x with
              | context [match _ with _ => _ end] => fail
              | _ => destruct x
              end
          end);
    cbv beta iota zeta; cbn [emit signed];
    repeat match goal with
           | |- context [recordFailure cfg ?t ?r ?o ?w0] =>
               destruct (monolith_recordFailure_only_samples cfg t r o w0)
                 as (_ & _ & _ & _ & _ & ->)
           | |- context [Metrics.addRTT ?m ?t ?w0] =>
               destruct (addRTT_only_samples m t w0) as (_ & _ & _ & _ & _ & ->)
           | |- context [Metrics.recordSuccess ?t ?w0] =>
               destruct (recordSuccess_only_samples t w0) as (_ & _ & _ & _ & _ & ->)
           end;
    reflexivity.
Qed.

Lemma mono_loop_frame fuel attempt w :
  signed (snd (jsonCall_loop cfg env url method params extraTags expectFn fuel attempt w))
  = signed w.
Proof.
  revert attempt w. induction fuel as [|fuel IH]; intros attempt w; [reflexivity|].
  rewrite mono_loop_S. pose proof (mono_pass_frame attempt w) as H.
  destruct (pass cfg env url method params extraTags expectFn attempt w) as [w'|c w'].
  - rewrite IH. exact H.
  - exact H.
Qed.

End MonolithFrame.

Section MonolithSetup.
Import WalletManager TokenTransfers MonolithRun.
Variable cfg : Monolith.Settings.
Variable k : Constants.
Variable env : Env.

Lemma mono_call_frame url method params tags w :
  signed (snd (call cfg env url method params tags w)) = signed w
  /\ fst (call cfg env url method params tags w) <> Diverges.
Proof.
  unfold call. split.
  - unfold Monolith.jsonCall. apply mono_loop_frame.
  - apply monolith_jsonCall_terminates.
Qed.

Lemma mono_fund_one_signs fundUrl b gasPrice i j wl w :
  (exists t,
      rev (signed (snd (fund_one cfg k env fundUrl (Fin b) gasPrice i j wl w)))
      = (rev (signed w) ++ [t])%list
      /\ tx_nonce t = Fin (b + i + j) /\ funding_tx (loop_constants k) t)
  /\ fst (fund_one cfg k env fundUrl (Fin b) gasPrice i j wl w) <> Diverges.
Proof.
  unfold fund_one, sign. cbn [num_add].
  destruct (signLegacyTx env _ (VStr (BASE_PRIV k))) as [raw|].
  - match goal with
    | |- context [call cfg env ?u ?m ?p ?t ?w0] =>
        pose proof (mono_call_frame u m p t w0) as (Hs & Hd);
        destruct (call cfg env u m p t w0) as [[txHash|e|] w']
    end; cbn [fst snd] in *; [| | contradiction];
      (split; [|discriminate]); eexists; rewrite Hs;
      (split; [apply signed_log|]); (split; [reflexivity|]); repeat split.
  - cbn [fst snd]. split; [|discriminate]. eexists.
    split; [apply signed_log|]. split; [reflexivity|]. repeat split.
Qed.

Lemma mono_airdrop_one_signs fundUrl b gasPrice amount i j wl w :
  (exists t,
      rev (signed (snd (airdrop_one cfg k env fundUrl (Fin b) gasPrice amount i j wl w)))
      = (rev (signed w) ++ [t])%list
      /\ tx_nonce t = Fin (b + i + j)
      /\ airdrop_tx (loop_constants k) (ERC20_ADDR k) t)
  /\ fst (airdrop_one cfg k env fundUrl (Fin b) gasPrice amount i j wl w) <> Diverges.
Proof.
  unfold airdrop_one, sign. cbn [num_add].
  destruct (signLegacyTx env _ (VStr (BASE_PRIV k))) as [raw|].
  - match goal with
    | |- context [call cfg env ?u ?m ?p ?t ?w0] =>
        pose proof (mono_call_frame u m p t w0) as (Hs & Hd);
        destruct (call cfg env u m p t w0) as [[txHash|e|] w']
    end; cbn [fst snd] in *; [| | contradiction];
      (split; [|discriminate]); eexists; rewrite Hs;
      (split; [apply signed_log|]); (split; [reflexivity|]); repeat split.
  - cbn [fst snd]. split; [|discriminate]. eexists.
    split; [apply signed_log|]. split; [reflexivity|]. repeat split.
Qed.

Lemma tokenAmount_returns : tokenAmount k <> Diverges.
Proof.
  unfold tokenAmount, BigInts.pow, BigInts.div, BigInts.js_BigInt.
  destruct (TOKEN_DECIMALS k) as [|d]; cbn [value_of_num]; [discriminate|].
  destruct (d <? 0); [discriminate|]. cbn. discriminate.
Qed.

End MonolithSetup.



(* ===================================================================== *)
(** ** Fund recovery in teardown (somnia_rpc_perf.js) *)
(* ===================================================================== *)

Section MonolithTeardown.
Import WalletManager MonolithRun.
Variable cfg : Monolith.Settings.
Variable k : Constants.
Variable env : Env.
Variable refundUrl : string.

(** One pass of the callback: it always returns; it hands the signer at
    most one transaction, a refund; the counters grow by at most one in
    all, and a success is counted only for a transaction that was signed. *)
Lemma mono_refund_one_spec gasPrice wl acc w :
  exists acc' w',
    refund_one cfg k env refundUrl gasPrice wl acc w = (Normal acc', w')
    /\ (exists added, rev (signed w') = (rev (signed w) ++ added)%list
                      /\ Forall (refund_tx (loop_constants k) (BASE_ADDR k) gasPrice) added
                      /\ (length added <= 1)%nat
                      /\ successfulRefunds acc'
                         <= successfulRefunds acc + Z.of_nat (length added))
    /\ successfulRefunds acc <= successfulRefunds acc'
    /\ failedRefunds acc <= failedRefunds acc'
    /\ successfulRefunds acc' + failedRefunds acc'
       <= successfulRefunds acc + failedRefunds acc + 1.
Proof.
  assert (forall acc0 w0, signed w0 = signed w ->
            successfulRefunds acc <= successfulRefunds acc0 ->
            successfulRefunds acc0 <= successfulRefunds acc ->
            failedRefunds acc <= failedRefunds acc0 ->
            failedRefunds acc0 <= failedRefunds acc + 1 ->
            (exists added, rev (signed w0) = (rev (signed w) ++ added)%list
                      /\ Forall (refund_tx (loop_constants k) (BASE_ADDR k) gasPrice) added
                      /\ (length added <= 1)%nat
                      /\ successfulRefunds acc0
                         <= successfulRefunds acc + Z.of_nat (length added))
            /\ successfulRefunds acc <= successfulRefunds acc0
            /\ failedRefunds acc <= failedRefunds acc0
            /\ successfulRefunds acc0 + failedRefunds acc0
               <= successfulRefunds acc + failedRefunds acc + 1) as Hquiet.
  { intros acc0 w0 Hs H1 H2 H3 H4. split; [|lia].
    exists []. rewrite app_nil_r, Hs. split; [reflexivity|]. split; [constructor|].
    cbn. lia. }
  unfold refund_one, refund_body.
  match goal with
  | |- context [call cfg env ?u ?m ?p ?t w] =>
      pose proof (mono_call_frame cfg env u m p t w) as (Hs1 & Hd1);
      destruct (call cfg env u m p t w) as [[balanceHex|e|] w1]
  end; cbn [fst snd] in *; [| | contradiction].
  2:{ eexists _, _. split; [reflexivity|]. apply Hquiet; cbn; try lia. exact Hs1. }
  destruct (truthy balanceHex); cbn [negb].
  2:{ eexists _, _. split; [reflexivity|]. apply Hquiet; cbn; try lia. exact Hs1. }
  destruct (BigInts.js_BigInt balanceHex) as [balance|e|] eqn:Hbal.
  2:{ eexists _, _. split; [reflexivity|]. apply Hquiet; cbn; try lia. exact Hs1. }
  2:{ exfalso. unfold BigInts.js_BigInt in Hbal.
      destruct balanceHex; try discriminate;
        match type of Hbal with
        | context [string_to_number ?s] => destruct (string_to_number s)
        end; try discriminate; destruct b; discriminate. }
  destruct gasPrice as [|g]; cbn [value_of_num BigInts.js_BigInt].
  { eexists _, _. split; [reflexivity|]. apply Hquiet; cbn; try lia. exact Hs1. }
  destruct (balance <=? g * 21000 * 2) eqn:Hlow.
  { eexists _, _. split; [reflexivity|]. apply Hquiet; cbn; try lia. exact Hs1. }
  apply Z.leb_gt in Hlow.
  match goal with
  | |- context [call cfg env ?u ?m ?p ?t w1] =>
      pose proof (mono_call_frame cfg env u m p t w1) as (Hs2 & Hd2);
      destruct (call cfg env u m p t w1) as [[r|e|] w2]
  end; cbn [fst snd] in *; [| | contradiction].
  2:{ eexists _, _. split; [reflexivity|]. apply Hquiet; cbn; try lia. congruence. }
  unfold sign.
  set (t := MkTx (js_Number r) (Fin g) (VNum 21000) (VStr (BASE_ADDR k))
                 (VNum (balance - g * 21000)) (VStr "0x") (CHAIN_ID k)).
  assert (refund_tx (loop_constants k) (BASE_ADDR k) (Fin g) t) as Hrefund.
  { subst t. cbn. repeat split. exists (balance - g * 21000), g, 21000.
    split; [reflexivity|]. split; [reflexivity|]. split; [reflexivity|]. split; [lia|].
    intros _. reflexivity. }
  assert (rev (signed (log_signed t w2)) = (rev (signed w) ++ [t])%list) as Hlog
    by (rewrite signed_log, Hs2, Hs1; reflexivity).
  destruct (signLegacyTx env t (pk wl)) as [raw|].
  - match goal with
    | |- context [call cfg env ?u ?m ?p ?tg ?w0] =>
        pose proof (mono_call_frame cfg env u m p tg w0) as (Hs3 & Hd3);
        destruct (call cfg env u m p tg w0) as [[txHash|e|] w3]
    end; cbn [fst snd] in *; [| | contradiction].
    + eexists _, _. split; [reflexivity|]. split.
      * exists [t]. rewrite Hs3, Hlog. split; [reflexivity|].
        split; [constructor; [exact Hrefund | constructor]|]. split; [cbn; lia|].
        destruct (truthy txHash); cbn; lia.
      * destruct (truthy txHash); cbn; lia.
    + eexists _, _. split; [reflexivity|]. split.
      * exists [t]. rewrite Hs3, Hlog. split; [reflexivity|].
        split; [constructor; [exact Hrefund | constructor]|]. cbn. lia.
      * cbn. lia.
  - eexists _, _. split; [reflexivity|]. split.
    + exists [t]. rewrite Hlog. split; [reflexivity|].
      split; [constructor; [exact Hrefund | constructor]|]. cbn. lia.
    + cbn. lia.
Qed.

Lemma mono_refund_each_spec gasPrice batch acc w :
  exists acc' w',
    refund_each cfg k env refundUrl gasPrice batch acc w = (Normal tt, (acc', w'))
    /\ (exists added, rev (signed w') = (rev (signed w) ++ added)%list
                      /\ Forall (refund_tx (loop_constants k) (BASE_ADDR k) gasPrice) added
                      /\ (length added <= length batch)%nat
                      /\ successfulRefunds acc'
                         <= successfulRefunds acc + Z.of_nat (length added))
    /\ successfulRefunds acc <= successfulRefunds acc'
    /\ failedRefunds acc <= failedRefunds acc'
    /\ successfulRefunds acc' + failedRefunds acc'
       <= successfulRefunds acc + failedRefunds acc + Z.of_nat (length batch).
Proof.
  revert acc w. induction batch as [|wl batch IH]; intros acc w; cbn [refund_each].
  - exists acc, w. split; [reflexivity|]. split; [|cbn; lia].
    exists []. rewrite app_nil_r. split; [reflexivity|]. split; [constructor|]. cbn. lia.
  - destruct (mono_refund_one_spec gasPrice wl acc w)
      as (acc1 & w1 & -> & (added1 & Hs1 & HP1 & Hl1 & Hsucc1) & Hm1 & Hf1 & Hsum1).
    destruct (IH acc1 w1)
      as (acc2 & w2 & -> & (added2 & Hs2 & HP2 & Hl2 & Hsucc2) & Hm2 & Hf2 & Hsum2).
    exists acc2, w2. split; [reflexivity|]. split.
    + exists (added1 ++ added2)%list. rewrite Hs2, Hs1, <- app_assoc.
      split; [reflexivity|]. split; [apply Forall_app; split; assumption|].
      rewrite length_app. cbn [length]. split; lia.
    + cbn [length]. lia.
Qed.

Hypothesis positive_batch : 0 < BATCH_SIZE k.

Lemma mono_refund_batches_spec (fuel : nat) gasPrice i wallets acc w :
  0 <= i ->
  Z.max 0 (Z.of_nat (length wallets) - i) < Z.of_nat fuel ->
  exists acc' w',
    refund_batches cfg k env fuel refundUrl gasPrice i wallets acc w
    = (Normal tt, (acc', w'))
    /\ (exists added, rev (signed w') = (rev (signed w) ++ added)%list
                      /\ Forall (refund_tx (loop_constants k) (BASE_ADDR k) gasPrice) added
                      /\ Z.of_nat (length added) <= Z.max 0 (Z.of_nat (length wallets) - i)
                      /\ successfulRefunds acc'
                         <= successfulRefunds acc + Z.of_nat (length added))
    /\ successfulRefunds acc <= successfulRefunds acc'
    /\ failedRefunds acc <= failedRefunds acc'
    /\ successfulRefunds acc' + failedRefunds acc'
       <= successfulRefunds acc + failedRefunds acc
          + Z.max 0 (Z.of_nat (length wallets) - i).
Proof.
  revert i acc w. induction fuel as [|fuel IH]; intros i acc w Hi Hfuel; [lia|].
  cbn [refund_batches]. set (n := Z.of_nat (length wallets)) in *.
  destruct (i <? n) eqn:Hlt.
  2:{ apply Z.ltb_ge in Hlt. exists acc, w. split; [reflexivity|]. split; [|lia].
      exists []. rewrite app_nil_r. split; [reflexivity|]. split; [constructor|]. cbn. lia. }
  apply Z.ltb_lt in Hlt.
  set (batch := js_slice i (i + BATCH_SIZE k) wallets).
  assert (Z.of_nat (length batch) = Z.min (i + BATCH_SIZE k) n - i) as Hlen.
  { subst batch. unfold js_slice.
    assert ((i <? 0) = false) as -> by (apply Z.ltb_ge; lia).
    assert ((i + BATCH_SIZE k <? 0) = false) as -> by (apply Z.ltb_ge; lia).
    fold n. rewrite length_take, length_drop. lia. }
  destruct (mono_refund_each_spec gasPrice batch acc w)
    as (acc1 & w1 & -> & (added1 & Hs1 & HP1 & Hl1 & Hsucc1) & Hm1 & Hf1 & Hsum1).
  set (w2 := if i + BATCH_SIZE k <? n then sleep_ms 500 w1 else w1).
  assert (signed w2 = signed w1) as Hw2
    by (subst w2; destruct (i + BATCH_SIZE k <? n); reflexivity).
  destruct (IH (i + BATCH_SIZE k) acc1 w2)
    as (acc2 & w3 & -> & (added2 & Hs2 & HP2 & Hl2 & Hsucc2) & Hm2 & Hf2 & Hsum2);
    [lia | fold n; lia |].
  fold n in Hl2, Hsum2.
  exists acc2, w3. split; [reflexivity|]. split.
  - exists (added1 ++ added2)%list. rewrite Hs2, Hw2, Hs1, <- app_assoc.
    split; [reflexivity|]. split; [apply Forall_app; split; assumption|].
    rewrite length_app. split; lia.
  - lia.
Qed.

End MonolithTeardown.

(** X25.  With a positive [BATCH_SIZE], [teardown] of the monolithic script
    never throws, whatever the node answers.  Every transaction it hands to
    the signer is a plain transfer to the base wallet whose value exceeds
    the gas cost taken off the balance, at most one per wallet; at most one
    refund is counted per wallet, successful or failed, and no more
    successes than transactions signed.  In a read-only scenario it only
    sleeps. *)
Theorem monolith_teardown_refunds (cfg : Monolith.Settings) (k : MonolithRun.Constants)
    (env : Env) (wallets : list WalletManager.Wallet) (w : World) :
  0 < MonolithRun.BATCH_SIZE k ->
  let res := MonolithRun.teardown cfg k env wallets w in
  let counters := fst (snd res) in
  let w' := snd (snd res) in
  fst res = Normal tt
  /\ (exists gasPrice refunds,
        rev (signed w') = (rev (signed w) ++ refunds)%list
        /\ Forall (refund_tx (MonolithRun.loop_constants k) (MonolithRun.BASE_ADDR k)
                             gasPrice) refunds
        /\ (length refunds <= length wallets)%nat
        /\ 0 <= MonolithRun.successfulRefunds counters <= Z.of_nat (length refunds)
        /\ 0 <= MonolithRun.failedRefunds counters
        /\ MonolithRun.successfulRefunds counters + MonolithRun.failedRefunds counters
           <= Z.of_nat (length wallets))
  /\ (Monolith.string_in (Monolith.SCENARIO cfg) Monolith.WRITE_SCENARIOS = false ->
      w' = sleep_ms 10000 w /\ counters = MonolithRun.MkRecovery 0 0 0).
Proof.
  intros Hbatch res counters w'. subst w' counters res. unfold MonolithRun.teardown.
  destruct (Monolith.string_in (Monolith.SCENARIO cfg) Monolith.WRITE_SCENARIOS);
    cbn [negb fst snd].
  2:{ split; [reflexivity|]. split; [|intros _; split; reflexivity].
      exists NaN, []. rewrite app_nil_r. cbn.
      split; [reflexivity|]. split; [constructor|]. lia. }
  match goal with
  | |- context [MonolithRun.call cfg env ?u ?m ?p ?t ?w0] =>
      pose proof (mono_call_frame cfg env u m p t w0) as (Hs1 & Hd1);
      destruct (MonolithRun.call cfg env u m p t w0) as [[r|e|] w1]
  end; cbn [fst snd] in *; [| | contradiction].
  2:{ split; [reflexivity|]. split; [|discriminate].
      exists NaN, []. rewrite app_nil_r, Hs1. cbn.
      split; [reflexivity|]. split; [constructor|]. lia. }
  set (gasPrice := MonolithRun.scale_refund k (js_Number r)).
  destruct (mono_refund_batches_spec cfg k env (MonolithRun.first_url k) Hbatch
              (S (length wallets)) gasPrice 0 wallets (MonolithRun.MkRecovery 0 0 0) w1
              ltac:(lia) ltac:(lia))
    as (acc & w2 & -> & (added & Hs & HP & Hl & Hsucc) & Hm & Hf & Hsum).
  cbn [fst snd MonolithRun.successfulRefunds MonolithRun.failedRefunds] in *.
  split; [reflexivity|]. split; [|discriminate].
  exists gasPrice, added. rewrite Hs, Hs1. cbn [sleep_ms signed].
  split; [reflexivity|]. split; [exact HP|]. lia.
Qed.

Lemma monolith_teardown_refunds_witness :
  0 < MonolithRun.BATCH_SIZE Samples.constants_s12
  /\ fst (MonolithRun.teardown Samples.mono_cfg_s12 Samples.constants_s12
            Fixtures.env_pending_5
            [Fixtures.wallet_a; Fixtures.wallet_b; Fixtures.wallet_c] Fixtures.w0)
     = Normal tt
  /\ fst (snd (MonolithRun.teardown Samples.mono_cfg_s12 Samples.constants_s12
                 Fixtures.env_down
                 [Fixtures.wallet_a; Fixtures.wallet_b; Fixtures.wallet_c] Fixtures.w0))
     = MonolithRun.MkRecovery 0 0 0.
Proof.
  split; [reflexivity|].
  split.
  - exact (proj1 (monolith_teardown_refunds Samples.mono_cfg_s12 Samples.constants_s12
                    Fixtures.env_pending_5
                    [Fixtures.wallet_a; Fixtures.wallet_b; Fixtures.wallet_c] Fixtures.w0
                    eq_refl)).
  - vm_compute. reflexivity.
Defined.
